(** * rpg-todo-bot: progression and settlement engine

    A shallow embedding of the parts of [database.py], [handlers.py] and
    [main.py] that decide the game economy: the reward table, the level-up
    loop, the shop, the weekly reward gate and the evening settlement.

    Modelling conventions.
    - SQLite INTEGER columns and Python ints are [Z]; a flag column is the
      integer the code stores, and Python truthiness is [truthy].
    - A table is a [gmap] from its INTEGER PRIMARY KEY to the remaining
      columns of the row; [ORDER BY id] is a merge sort on the key.
    - An ISO date text ([date.isoformat()]) is the proleptic Gregorian ordinal
      of the day ([date.toordinal()]): on ISO texts of four-digit years the
      lexicographic order used by SQLite is the order of the ordinals.  The
      empty text that [last_perfect_date] defaults to is [None].
    - The floats of [_calc_rewards] and [get_week_completion_rate] are the
      rationals they stand for.
    - The clock ([date.today()], [datetime.now()]) is an argument.
    - A handler returns the new database and the messages it sent; an
      uncaught Python exception is [None]. *)

From Stdlib Require Import ZArith QArith Lia Ascii.
From stdpp Require Import gmap strings list fin_maps sorting pretty.

Close Scope Q_scope.
Local Open Scope Z_scope.

(** ** Python and SQL primitives *)

(** [bool(n)] for an int. *)
Definition truthy (n : Z) : bool := negb (n =? 0).

(** [int(x)] for a float: truncation toward zero. *)
Definition int_of_float (x : Q) : Z := Z.quot (Qnum x) (Z.pos (Qden x)).

(** [a < b] on floats. *)
Definition Qlt_bool (a b : Q) : bool :=
  Qnum a * Z.pos (Qden b) <? Qnum b * Z.pos (Qden a).

(** [date.weekday()]: Monday is 0 and Sunday is 6. *)
Definition weekday (d : Z) : Z := (d + 6) mod 7.

(** SQL [SUM] over the selected rows: NULL when there is no row. *)
Definition sql_sum (xs : list Z) : option Z :=
  match xs with
  | [] => None
  | _ => Some (foldr Z.add 0 xs)
  end.

(** ** Schema ([database.py], [_create_tables]) *)

Record User := mkUser {
  username : string;
  level : Z;
  xp : Z;
  hp : Z;
  points : Z;
  shield_active : Z;
  pepper_mode : Z;
  pepper_streak : Z;
  last_perfect_date : option Z;
  created_at : string
}.

Record Task := mkTask {
  task_user_id : Z;
  title : string;
  task_type : string;
  reminder_time : string;
  completed : Z;
  created_date : Z;
  completed_at : string;
  penalized : Z
}.

Record Reward := mkReward {
  reward_user_id : Z;
  reward_title : string;
  cost : Z;
  claimed : Z;
  claimed_at : string
}.

Record Database := mkDatabase {
  users : gmap Z User;
  tasks : gmap Z Task;
  rewards : gmap Z Reward
}.

(** The keyword arguments [update_user] is called with. *)
Inductive user_kwarg :=
  | kw_xp (v : Z)
  | kw_level (v : Z)
  | kw_hp (v : Z)
  | kw_points (v : Z)
  | kw_shield_active (v : Z)
  | kw_pepper_mode (v : Z)
  | kw_pepper_streak (v : Z)
  | kw_last_perfect_date (v : option Z).

(** [SET column = value] on one row. *)
Definition set_column (u : User) (k : user_kwarg) : User :=
  match k with
  | kw_xp v =>
      mkUser (username u) (level u) v (hp u) (points u) (shield_active u)
             (pepper_mode u) (pepper_streak u) (last_perfect_date u) (created_at u)
  | kw_level v =>
      mkUser (username u) v (xp u) (hp u) (points u) (shield_active u)
             (pepper_mode u) (pepper_streak u) (last_perfect_date u) (created_at u)
  | kw_hp v =>
      mkUser (username u) (level u) (xp u) v (points u) (shield_active u)
             (pepper_mode u) (pepper_streak u) (last_perfect_date u) (created_at u)
  | kw_points v =>
      mkUser (username u) (level u) (xp u) (hp u) v (shield_active u)
             (pepper_mode u) (pepper_streak u) (last_perfect_date u) (created_at u)
  | kw_shield_active v =>
      mkUser (username u) (level u) (xp u) (hp u) (points u) v
             (pepper_mode u) (pepper_streak u) (last_perfect_date u) (created_at u)
  | kw_pepper_mode v =>
      mkUser (username u) (level u) (xp u) (hp u) (points u) (shield_active u)
             v (pepper_streak u) (last_perfect_date u) (created_at u)
  | kw_pepper_streak v =>
      mkUser (username u) (level u) (xp u) (hp u) (points u) (shield_active u)
             (pepper_mode u) v (last_perfect_date u) (created_at u)
  | kw_last_perfect_date v =>
      mkUser (username u) (level u) (xp u) (hp u) (points u) (shield_active u)
             (pepper_mode u) (pepper_streak u) v (created_at u)
  end.

Definition set_columns (kwargs : list user_kwarg) (u : User) : User :=
  foldl set_column u kwargs.

(** ** Store operations ([database.py]) *)

Definition get_user (db : Database) (user_id : Z) : option User :=
  users db !! user_id.

(** [UPDATE users SET ... WHERE user_id = ?]; nothing without kwargs. *)
Definition update_user (db : Database) (user_id : Z)
    (kwargs : list user_kwarg) : Database :=
  match kwargs with
  | [] => db
  | _ => mkDatabase (alter (set_columns kwargs) user_id (users db))
                    (tasks db) (rewards db)
  end.

Definition get_task (db : Database) (task_id : Z) : option Task :=
  tasks db !! task_id.

(** A row of [tasks] as the code sees it: the id and the other columns. *)
Abbreviation task_row := (Z * Task)%type.

Definition by_id (a b : task_row) : Prop := a.1 ≤ b.1.

#[global] Instance by_id_dec a b : Decision (by_id a b).
Proof. unfold by_id. apply _. Defined.

Definition on_date (user_id iso_date : Z) (r : task_row) : Prop :=
  task_user_id r.2 = user_id ∧ created_date r.2 = iso_date.

#[global] Instance on_date_dec u d r : Decision (on_date u d r).
Proof. unfold on_date. apply _. Defined.

(** [SELECT * FROM tasks WHERE user_id = ? AND created_date = ? ORDER BY id] *)
Definition get_tasks_by_date (db : Database) (user_id iso_date : Z)
    : list task_row :=
  merge_sort by_id (filter (on_date user_id iso_date) (map_to_list (tasks db))).

Definition set_completed (now : string) (t : Task) : Task :=
  mkTask (task_user_id t) (title t) (task_type t) (reminder_time t)
         1 (created_date t) now (penalized t).

(** [UPDATE tasks SET completed = 1, completed_at = ? WHERE id = ?] *)
Definition complete_task (db : Database) (task_id : Z) (now : string)
    : Database :=
  mkDatabase (users db) (alter (set_completed now) task_id (tasks db))
             (rewards db).

Definition set_penalized (t : Task) : Task :=
  mkTask (task_user_id t) (title t) (task_type t) (reminder_time t)
         (completed t) (created_date t) (completed_at t) 1.

Definition penalize_row (user_id iso_date : Z) (t : Task) : Task :=
  if decide (task_user_id t = user_id ∧ created_date t = iso_date
             ∧ completed t = 0)
  then set_penalized t else t.

(** [UPDATE tasks SET penalized = 1
     WHERE user_id = ? AND created_date = ? AND completed = 0] *)
Definition mark_tasks_penalized (db : Database) (user_id iso_date : Z)
    : Database :=
  mkDatabase (users db) (penalize_row user_id iso_date <$> tasks db)
             (rewards db).

Definition get_reward (db : Database) (reward_id : Z) : option Reward :=
  rewards db !! reward_id.

Definition set_claimed (now : string) (r : Reward) : Reward :=
  mkReward (reward_user_id r) (reward_title r) (cost r) 1 now.

(** [UPDATE rewards SET claimed = 1, claimed_at = ? WHERE id = ?] *)
Definition claim_reward (db : Database) (reward_id : Z) (now : string)
    : Database :=
  mkDatabase (users db) (tasks db)
             (alter (set_claimed now) reward_id (rewards db)).

Definition in_week (user_id week_ago today : Z) (r : task_row) : Prop :=
  task_user_id r.2 = user_id ∧ week_ago ≤ created_date r.2
  ∧ created_date r.2 ≤ today.

#[global] Instance in_week_dec u w d r : Decision (in_week u w d r).
Proof. unfold in_week. apply _. Defined.

(** The rows the analytics query aggregates over. *)
Definition week_rows (db : Database) (user_id today : Z) : list task_row :=
  let week_ago := today - 7 in
  filter (in_week user_id week_ago today) (map_to_list (tasks db)).

(** [get_week_completion_rate]: [COUNT( * )] and
    [SUM(CASE WHEN completed = 1 THEN 1 ELSE 0 END)] over the selected rows,
    then [(done / total * 100) if total > 0 else 0.0]. *)
Definition get_week_completion_rate (db : Database) (user_id today : Z) : Q :=
  let rows := week_rows db user_id today in
  let total := Z.of_nat (length rows) in
  let done :=
    default 0 (sql_sum ((λ r : task_row,
                           if decide (completed r.2 = 1) then 1 else 0)
                        <$> rows)) in
  if 0 <? total
  then (inject_Z done / inject_Z total * inject_Z 100)%Q
  else 0%Q.

(** ** Rewards and leveling ([handlers.py]) *)

Definition reward_table : gmap string (Z * Z * Z) :=
  list_to_map [("focus"%string, (50, 20, 0));
               ("important"%string, (20, 10, 0));
               ("wish"%string, (5, 2, 5))].

(** [_calc_rewards(task_type, pepper)]: [(xp, points, hp_heal)]. *)
Definition _calc_rewards (task_type : string) (pepper : Z) : Z * Z * Z :=
  let '(xp, pts, hp) := default (0, 0, 0) (reward_table !! task_type) in
  let mult : Q := if truthy pepper then (3 # 2)%Q else 1%Q in
  (int_of_float (inject_Z xp * mult)%Q, int_of_float (inject_Z pts * mult)%Q, hp).

(** The loop
      [while new_xp >= new_lvl * 100: new_xp -= new_lvl * 100; new_lvl += 1]
    run for at most [fuel] iterations. *)
Fixpoint level_loop (fuel : nat) (new_xp new_lvl : Z) : Z * Z :=
  match fuel with
  | O => (new_xp, new_lvl)
  | S fuel' =>
      if new_lvl * 100 <=? new_xp
      then level_loop fuel' (new_xp - new_lvl * 100) (new_lvl + 1)
      else (new_xp, new_lvl)
  end.

(** A number of iterations after which the loop has always stopped: once the
    level is positive every iteration removes at least 100 xp, and a level
    [lvl <= 0] becomes positive after [1 - lvl] iterations. *)
Definition loop_bound (new_xp new_lvl : Z) : nat :=
  Z.to_nat (if 1 <=? new_lvl then Z.max 0 new_xp
            else (1 - new_lvl)
                 + Z.max 0 (new_xp + 50 * (- new_lvl) * (1 - new_lvl))).

(** The level-up loop of [task_done], run to its exit. *)
Definition level_up (new_xp new_lvl : Z) : Z * Z :=
  level_loop (loop_bound new_xp new_lvl) new_xp new_lvl.

(** ** What a handler sends

    The rendered texts are outside the engine; a message is the template
    the code picks and the values it interpolates. *)

Inductive Text :=
  | TaskDoneOrMissing
  | TaskCompleted (task_id xp_g pts_g hp_g : Z) (pepper_tag : bool)
                  (level_up_to : option Z)
  | CompletedAck
  | NotEnoughPoints (price have : Z)
  | ShieldActivated (price new_pts : Z)
  | PepperPotionDrunk (price new_pts : Z)
  | BoughtAck
  | RewardsStatus (is_sun : bool) (rate : Q) (unclaimed : list Z)
                  (can_claim : bool)
  | RewardNotFound
  | ConditionsNotMet
  | NotEnoughForReward (cost : Z)
  | RewardReceived (reward_id cost : Z)
  | ReceivedAck
  | ReminderText (task_id : Z)
  | EveningSummary (done total : nat) (failed : list Z)
                   (total_hp_loss total_pts_loss new_hp new_streak : Z).

Inductive Out :=
  | cb_answer (text : Text)               (* [cb.answer(...)] *)
  | message_answer (text : Text)          (* [cb.message.answer(...)] *)
  | send_message (chat : Z) (text : Text) (* [bot.send_message(...)] *)
  | send_penalty (chat : Z) (text : Text)
      (* [bot.send_photo] with the penalty image when the file exists,
         [bot.send_message] otherwise *).

(** ** Task completion ([handlers.py], [task_done]) *)

Definition task_done (db : Database) (from_user task_id : Z) (now : string)
    : option (Database * list Out) :=
  match get_task db task_id with
  | None => Some (db, [cb_answer TaskDoneOrMissing])
  | Some task =>
      if truthy (completed task)
      then Some (db, [cb_answer TaskDoneOrMissing])
      else
        match get_user db from_user with
        | None => None
        | Some user =>
            let '(xp_g, pts_g, hp_g) :=
              _calc_rewards (task_type task) (pepper_mode user) in
            let '(new_xp, new_lvl) :=
              level_up (xp user + xp_g) (level user) in
            let new_hp := Z.min 100 (hp user + hp_g) in
            let new_pts := points user + pts_g in
            let db1 := complete_task db task_id now in
            let db2 :=
              update_user db1 from_user
                [kw_xp new_xp; kw_level new_lvl; kw_hp new_hp;
                 kw_points new_pts] in
            Some (db2,
                  [message_answer
                     (TaskCompleted task_id xp_g pts_g hp_g
                        (truthy (pepper_mode user))
                        (if level user <? new_lvl then Some new_lvl
                         else None));
                   cb_answer CompletedAck])
        end
  end.

(** ** Reminder ([handlers.py], [_send_reminder]) *)

Definition _send_reminder (db : Database) (user_id task_id : Z)
    : Database * list Out :=
  match get_task db task_id with
  | None => (db, [])
  | Some task =>
      if truthy (completed task) then (db, [])
      else (db, [send_message user_id (ReminderText task_id)])
  end.

(** ** Shop ([handlers.py], [shop_buy]) *)

Definition prices : gmap string Z :=
  list_to_map [("shield"%string, 50); ("pepper"%string, 100)].

Definition shop_buy (db : Database) (from_user : Z) (item : string)
    : option (Database * list Out) :=
  match get_user db from_user with
  | None => None
  | Some user =>
      let price := default 0 (prices !! item) in
      if points user <? price
      then Some (db, [cb_answer (NotEnoughPoints price (points user))])
      else
        let new_pts := points user - price in
        if decide (item = "shield"%string)
        then Some (update_user db from_user
                     [kw_points new_pts; kw_shield_active 1],
                   [message_answer (ShieldActivated price new_pts);
                    cb_answer BoughtAck])
        else if decide (item = "pepper"%string)
        then Some (update_user db from_user
                     [kw_points new_pts; kw_pepper_mode 1],
                   [message_answer (PepperPotionDrunk price new_pts);
                    cb_answer BoughtAck])
        else Some (db, [cb_answer BoughtAck])
  end.

(** ** Rewards ([handlers.py], [show_rewards] and [reward_claim]) *)

(** [SELECT * FROM rewards WHERE user_id = ? AND claimed = 0 ORDER BY id],
    as the ids. *)
Definition get_rewards (db : Database) (user_id : Z) : list Z :=
  merge_sort Z.le
    ((filter (λ r : Z * Reward, reward_user_id r.2 = user_id ∧ claimed r.2 = 0)
        (map_to_list (rewards db))).*1).

(** [can_claim = is_sun and rate > 80] *)
Definition can_claim (today : Z) (rate : Q) : bool :=
  let is_sun := weekday today =? 6 in
  is_sun && Qlt_bool (inject_Z 80) rate.

Definition show_rewards (db : Database) (from_user today : Z) : list Out :=
  let rlist := get_rewards db from_user in
  let is_sun := weekday today =? 6 in
  let rate := get_week_completion_rate db from_user today in
  [message_answer (RewardsStatus is_sun rate rlist (can_claim today rate))].

Definition reward_claim (db : Database) (from_user rid today : Z)
    (now : string) : option (Database * list Out) :=
  match get_reward db rid with
  | None => Some (db, [cb_answer RewardNotFound])
  | Some reward =>
      let user := get_user db from_user in
      let is_sun := weekday today =? 6 in
      let rate := get_week_completion_rate db from_user today in
      if negb is_sun || Qle_bool rate (inject_Z 80)
      then Some (db, [cb_answer ConditionsNotMet])
      else
        match user with
        | None => None
        | Some user =>
            if points user <? cost reward
            then Some (db, [cb_answer (NotEnoughForReward (cost reward))])
            else
              let new_pts := points user - cost reward in
              let db1 := update_user db from_user [kw_points new_pts] in
              let db2 := claim_reward db1 rid now in
              Some (db2,
                    [message_answer (RewardReceived rid (cost reward));
                     cb_answer ReceivedAck])
        end
  end.

(** ** Evening settlement ([main.py], [_process_evening]) *)

Definition penalty_table : gmap string (Z * Z) :=
  list_to_map [("focus"%string, (20, 5));
               ("important"%string, (10, 3));
               ("wish"%string, (0, 2))].

(** [penalty_table.get(t["task_type"], (0, 0))] *)
Definition penalty_of (t : task_row) : Z * Z :=
  default (0, 0) (penalty_table !! task_type t.2).

(** One iteration of [for t in failed], on
    [(shield, total_hp_loss, total_pts_loss)]. *)
Definition penalty_step (acc : bool * Z * Z) (t : task_row) : bool * Z * Z :=
  let '(shield, total_hp_loss, total_pts_loss) := acc in
  let '(hp_pen, pts_pen) := penalty_of t in
  if shield && (0 <? hp_pen)
  then (false, total_hp_loss + 0, total_pts_loss + pts_pen)
  else (shield, total_hp_loss + hp_pen, total_pts_loss + pts_pen).

Definition penalty_loop (shield : bool) (failed : list task_row)
    : bool * Z * Z :=
  foldl penalty_step (shield, 0, 0) failed.

Definition is_completed (t : task_row) : Prop := truthy (completed t.2) = true.

#[global] Instance is_completed_dec t : Decision (is_completed t).
Proof. unfold is_completed. apply _. Defined.

(** [not t["completed"] and not t["penalized"]] *)
Definition is_failed (t : task_row) : Prop :=
  truthy (completed t.2) = false ∧ truthy (penalized t.2) = false.

#[global] Instance is_failed_dec t : Decision (is_failed t).
Proof. unfold is_failed. apply _. Defined.

(** What [_process_evening] computes between reading the rows and writing
    them back. *)
Record Settlement := mkSettlement {
  total : nat;
  done : nat;
  failed : list task_row;
  total_hp_loss : Z;
  total_pts_loss : Z;
  new_hp : Z;
  new_pts : Z;
  shield_now : Z;
  new_streak : Z;
  new_pepper : Z;
  new_last_perfect_date : option Z
}.

Definition settle (user : User) (tasks : list task_row) (today : Z)
    : Settlement :=
  let total := length tasks in
  let done := length (filter is_completed tasks) in
  let failed := filter is_failed tasks in
  let shield := truthy (shield_active user) in
  let '(_, total_hp_loss, total_pts_loss) := penalty_loop shield failed in
  let new_hp := Z.max 0 (hp user - total_hp_loss) in
  let new_pts := Z.max 0 (points user - total_pts_loss) in
  let shield_now :=
    if truthy (shield_active user) && (0 <? total_hp_loss)
    then 0 else shield_active user in
  let '(new_streak, new_pepper) :=
    if (done =? total)%nat
    then
      let new_streak := pepper_streak user + 1 in
      (new_streak, if 3 <=? new_streak then 1 else pepper_mode user)
    else
      let new_pepper :=
        if negb (truthy (pepper_mode user)) then 0 else pepper_mode user in
      let new_pepper := 0 in
      (0, new_pepper) in
  mkSettlement total done failed total_hp_loss total_pts_loss new_hp new_pts
    shield_now new_streak new_pepper
    (if (done =? total)%nat then Some today else last_perfect_date user).

Definition settle_kwargs (s : Settlement) : list user_kwarg :=
  [kw_hp (new_hp s); kw_points (new_pts s); kw_shield_active (shield_now s);
   kw_pepper_mode (new_pepper s); kw_pepper_streak (new_streak s);
   kw_last_perfect_date (new_last_perfect_date s)].

Definition settle_summary (s : Settlement) : Text :=
  EveningSummary (done s) (total s) ((failed s).*1) (total_hp_loss s)
                 (total_pts_loss s) (new_hp s) (new_streak s).

Definition _process_evening (db : Database) (uid today : Z)
    : Database * list Out :=
  match get_tasks_by_date db uid today with
  | [] => (db, [])
  | tasks =>
      match get_user db uid with
      | None => (db, [])
      | Some user =>
          let s := settle user tasks today in
          let db1 := update_user db uid (settle_kwargs s) in
          let db2 := mark_tasks_penalized db1 uid today in
          (db2,
           [if truthy (total_hp_loss s) || truthy (total_pts_loss s)
            then send_penalty uid (settle_summary s)
            else send_message uid (settle_summary s)])
      end
  end.

(** What [mark_tasks_penalized] does to a row as the code reads it. *)
Definition penalize (uid today : Z) : task_row → task_row :=
  prod_map id (penalize_row uid today).

Definition hp_penalty (t : task_row) : Z := (penalty_of t).1.

Definition pts_penalty (t : task_row) : Z := (penalty_of t).2.

(** The sum of a column over rows, to say what the penalty loop adds up. *)
Definition total_of (f : task_row → Z) (l : list task_row) : Z :=
  foldr (λ t acc, f t + acc) 0 l.

(** ** Sample states

    Small databases the statements below are evaluated on.  User 1 is the
    only user; day 20 is the day being settled unless said otherwise. *)

Module Examples.

Definition focus_task (completed penalized : Z) : Task :=
  mkTask 1 "write report" "focus" "" completed 20 "" penalized.

Definition player (level xp hp points shield pepper streak : Z) : User :=
  mkUser "ann" level xp hp points shield pepper streak None "".

(** Level 1 with 80 xp, one open focus task. *)
Definition near_level_up : Database :=
  mkDatabase {[ 1 := player 1 80 100 0 0 0 0 ]}
             {[ 7 := focus_task 0 0 ]} ∅.

(** Level 1 holding 250 xp, one open focus task. *)
Definition overfull : Database :=
  mkDatabase {[ 1 := player 1 250 100 0 0 0 0 ]}
             {[ 7 := focus_task 0 0 ]} ∅.

(** Shield bought, full health, one open focus task on day 20. *)
Definition one_failure : Database :=
  mkDatabase {[ 1 := player 1 0 100 0 1 0 0 ]}
             {[ 7 := focus_task 0 0 ]} ∅.

(** The same user with two open focus tasks on day 20. *)
Definition two_failures : Database :=
  mkDatabase {[ 1 := player 1 0 100 0 1 0 0 ]}
             {[ 7 := focus_task 0 0; 9 := focus_task 0 0 ]}
             ∅.

(** One completed focus task on day 739921 (a Sunday), 60 points, an
    unclaimed reward costing 40. *)
Definition sunday_all_done : Database :=
  mkDatabase {[ 1 := player 1 0 100 60 0 0 0 ]}
             {[ 7 := mkTask 1 "write report" "focus" "" 1 739921 "" 0 ]}
             {[ 3 := mkReward 1 "cinema" 40 0 "" ]}.

(** A single task, completed, created on day 13. *)
Definition week_old : Database :=
  mkDatabase {[ 1 := player 1 0 100 0 0 0 0 ]}
             {[ 7 := mkTask 1 "write report" "focus" "" 1 13 "" 0 ]} ∅.

(** Streak 1, no pepper mode, the single task of day 20 completed. *)
Definition perfect_day : Database :=
  mkDatabase {[ 1 := player 1 0 100 0 0 0 1 ]}
             {[ 7 := focus_task 1 0 ]} ∅.

End Examples.

(** ** More of the store ([database.py]) *)

(** The row [INSERT INTO users (user_id, username)] creates: the other
    columns take their defaults, [created_at] is [datetime('now')]. *)
Definition default_user (username now : string) : User :=
  mkUser username 1 0 100 0 0 0 0 None now.

(** [INSERT OR IGNORE INTO users (user_id, username) VALUES (?, ?)] *)
Definition create_user (db : Database) (user_id : Z) (username now : string)
    : Database :=
  match users db !! user_id with
  | Some _ => db
  | None =>
      mkDatabase (<[user_id := default_user username now]> (users db))
                 (tasks db) (rewards db)
  end.

(** [INSERT INTO tasks (user_id, title, task_type, reminder_time,
    created_date)] with [reminder_time or ""].  [lastrowid] is the id SQLite
    assigns to the row; with AUTOINCREMENT it is an id the table never
    used. *)
Definition add_task (db : Database) (user_id : Z) (title task_type : string)
    (reminder_time : option string) (created_date lastrowid : Z)
    : Database * Z :=
  (mkDatabase (users db)
     (<[lastrowid := mkTask user_id title task_type (default "" reminder_time)
                       0 created_date "" 0]> (tasks db))
     (rewards db),
   lastrowid).

(** [DELETE FROM tasks WHERE id = ?] *)
Definition delete_task (db : Database) (task_id : Z) : Database :=
  mkDatabase (users db) (delete task_id (tasks db)) (rewards db).

(** [INSERT INTO rewards (user_id, title, cost)] *)
Definition add_reward (db : Database) (user_id : Z) (title : string)
    (cost lastrowid : Z) : Database * Z :=
  (mkDatabase (users db) (tasks db)
     (<[lastrowid := mkReward user_id title cost 0 ""]> (rewards db)),
   lastrowid).

(** [DELETE FROM rewards WHERE id = ?] *)
Definition delete_reward (db : Database) (reward_id : Z) : Database :=
  mkDatabase (users db) (tasks db) (delete reward_id (rewards db)).

(** ** More handlers ([handlers.py]) *)

(** Templates of the handlers below. *)
Inductive Notice :=
  | Welcome
  | TaskDeleted (title : string)
  | ReminderAlreadyDone
  | ReminderCompleted (xp_g pts_g : Z)
  | ReminderTick
  | RewardDeleted
  | TimeFormatInvalid
  | TaskAdded (name task_type reminder : string)
  | PositiveNumberWanted
  | RewardAdded (name : string) (cost : Z)
  | NumericIdWanted
  | UserAdded (uid : Z)
  | UserRemoved (uid : Z)
  | NoAccess.

Inductive Emit :=
  | emit_answer (text : option Notice)  (* [cb.answer(...)], [cb.answer()] *)
  | emit_message (text : Notice)        (* [message.answer(...)] *).

(** [cmd_start]: [create_user(id, username or "")], then the greeting. *)
Definition cmd_start (db : Database) (from_user : Z)
    (username : option string) (now : string) : Database * list Emit :=
  (create_user db from_user (default "" username) now,
   [emit_message Welcome]).

(** [_ensure_user]: the database after the call and the row returned. *)
Definition _ensure_user (db : Database) (user_id : Z)
    (username : option string) (now : string) : Database * option User :=
  match get_user db user_id with
  | Some user => (db, Some user)
  | None =>
      let db1 := create_user db user_id (default "" username) now in
      (db1, get_user db1 user_id)
  end.

(** [task_delete] *)
Definition task_delete (db : Database) (task_id : Z) : Database * list Emit :=
  match get_task db task_id with
  | Some task =>
      (delete_task db task_id,
       [emit_message (TaskDeleted (title task)); emit_answer None])
  | None => (db, [emit_answer None])
  end.

(** [reminder_done]: the completion button under a reminder. *)
Definition reminder_done (db : Database) (from_user task_id : Z)
    (now : string) : option (Database * list Emit) :=
  match get_task db task_id with
  | None => Some (db, [emit_answer (Some ReminderAlreadyDone)])
  | Some task =>
      if truthy (completed task)
      then Some (db, [emit_answer (Some ReminderAlreadyDone)])
      else
        match get_user db from_user with
        | None => None
        | Some user =>
            let '(xp_g, pts_g, hp_g) :=
              _calc_rewards (task_type task) (pepper_mode user) in
            let '(new_xp, new_lvl) :=
              level_up (xp user + xp_g) (level user) in
            let new_hp := Z.min 100 (hp user + hp_g) in
            let new_pts := points user + pts_g in
            let db1 := complete_task db task_id now in
            let db2 :=
              update_user db1 from_user
                [kw_xp new_xp; kw_level new_lvl; kw_hp new_hp;
                 kw_points new_pts] in
            Some (db2,
                  [emit_message (ReminderCompleted xp_g pts_g);
                   emit_answer (Some ReminderTick)])
        end
  end.

(** [reward_del]: deletes without looking the reward up. *)
Definition reward_del (db : Database) (rid : Z) : Database * list Emit :=
  (delete_reward db rid, [emit_message RewardDeleted; emit_answer None]).

(** [evening_summary_job] ([main.py]) on the ids [get_all_user_ids]
    returned, in the order it returned them. *)
Definition evening_summary_job (db : Database) (user_ids : list Z)
    (today : Z) : Database * list Out :=
  foldl (λ acc uid,
           let '(db1, outs) := _process_evening acc.1 uid today in
           (db1, acc.2 ++ outs))
        (db, []) user_ids.

(** ** Helpers ([utils.py])

    A [str] is the [string] of its code points; the helpers below are exact
    on texts whose code points are below 256, where the digits of [\d] are
    0 to 9 and the whitespace of [\s] and of [str.strip] is the set
    [is_space]. *)

Definition backslash : ascii := "092"%char.

(** The character class of [_MD2_SPECIAL]. *)
Definition md2_special (c : ascii) : bool :=
  bool_decide (c ∈ backslash :: String.list_ascii_of_string "_*[]()~`>#+-=|{}.!").

(** [_MD2_SPECIAL.sub(r'\\\1', text)] *)
Fixpoint escape_chars (s : string) : string :=
  match s with
  | EmptyString => EmptyString
  | String c s' =>
      if md2_special c then String backslash (String c (escape_chars s'))
      else String c (escape_chars s')
  end.

(** [escape_md]: [None] gives the empty text. *)
Definition escape_md (text : option string) : string :=
  match text with
  | None => EmptyString
  | Some s => escape_chars s
  end.

(** A text in which every special character is escaped. *)
Inductive md2_escaped : string → Prop :=
  | md2_escaped_nil : md2_escaped EmptyString
  | md2_escaped_plain c s :
      md2_special c = false → md2_escaped s → md2_escaped (String c s)
  | md2_escaped_pair c s :
      md2_special c = true → md2_escaped s →
      md2_escaped (String backslash (String c s)).

Definition is_space (c : ascii) : bool :=
  let n := N_of_ascii c in
  ((9 <=? n) && (n <=? 13) || (28 <=? n) && (n <=? 32)
   || (n =? 133) || (n =? 160))%N.

Definition is_digit (c : ascii) : bool :=
  let n := N_of_ascii c in ((48 <=? n) && (n <=? 57))%N.

Definition digit_value (c : ascii) : Z := Z.of_N (N_of_ascii c) - 48.

Fixpoint lstrip (s : list ascii) : list ascii :=
  match s with
  | c :: s' => if is_space c then lstrip s' else s
  | [] => []
  end.

(** [str.strip()] *)
Definition strip (s : list ascii) : list ascii :=
  reverse (lstrip (reverse (lstrip s))).

(** The separator class [[\s:\.]] of [_TIME_RE]. *)
Definition is_time_sep (c : ascii) : bool :=
  is_space c || bool_decide (c = ":"%char) || bool_decide (c = "."%char).

(** [parse_time]: [_TIME_RE = ^(\d{1,2})[\s:\.](\d{2})$] matched on the
    stripped text, then the range check. *)
Definition parse_time (text : string) : option (Z * Z) :=
  let checked (hour minute : Z) :=
    if (0 <=? hour) && (hour <=? 23) && (0 <=? minute) && (minute <=? 59)
    then Some (hour, minute) else None in
  match strip (String.list_ascii_of_string text) with
  | [h1; sep; m1; m2] =>
      if is_digit h1 && is_time_sep sep && is_digit m1 && is_digit m2
      then checked (digit_value h1) (10 * digit_value m1 + digit_value m2)
      else None
  | [h1; h2; sep; m1; m2] =>
      if is_digit h1 && is_digit h2 && is_time_sep sep
         && is_digit m1 && is_digit m2
      then checked (10 * digit_value h1 + digit_value h2)
                   (10 * digit_value m1 + digit_value m2)
      else None
  | _ => None
  end.

(** [f"{n:02d}"] *)
Definition format_02d (n : Z) : string :=
  let s := pretty n in
  if (String.length s <? 2)%nat then String "0" s else s.

(** [rem_str = f"{hour:02d}:{minute:02d}"] of [task_add_reminder]. *)
Definition rem_str (hour minute : Z) : string :=
  format_02d hour +:+ ":" +:+ format_02d minute.

(** ** Ideas ([database.py], [handlers.py]) *)

Record Category := mkCategory {
  category_user_id : Z;
  category_name : string;
  emoji : string;
  category_created_at : string
}.

Record Idea := mkIdea {
  idea_user_id : Z;
  category_id : Z;
  idea_title : string;
  status : string;
  idea_created_at : string
}.

Record IdeaBase := mkIdeaBase {
  idea_categories : gmap Z Category;
  ideas : gmap Z Idea
}.

Definition get_category (ib : IdeaBase) (cat_id : Z) : option Category :=
  idea_categories ib !! cat_id.

Definition get_idea (ib : IdeaBase) (idea_id : Z) : option Idea :=
  ideas ib !! idea_id.

(** [DELETE FROM ideas WHERE category_id = ?] then
    [DELETE FROM idea_categories WHERE id = ?] *)
Definition delete_category (ib : IdeaBase) (cat_id : Z) : IdeaBase :=
  mkIdeaBase (delete cat_id (idea_categories ib))
             (filter (λ kv : Z * Idea, category_id kv.2 ≠ cat_id) (ideas ib)).

(** [SELECT COUNT( * ) FROM ideas WHERE category_id = ?] *)
Definition count_ideas_in_category (ib : IdeaBase) (cat_id : Z) : nat :=
  length (filter (λ kv : Z * Idea, category_id kv.2 = cat_id)
            (map_to_list (ideas ib))).

(** [UPDATE ideas SET status = ? WHERE id = ?] *)
Definition update_idea_status (ib : IdeaBase) (idea_id : Z) (st : string)
    : IdeaBase :=
  mkIdeaBase (idea_categories ib)
    (alter (λ i, mkIdea (idea_user_id i) (category_id i) (idea_title i) st
                   (idea_created_at i))
       idea_id (ideas ib)).

Definition STATUS_CYCLE : gmap string string :=
  list_to_map [("new"%string, "wip"%string); ("wip"%string, "done"%string);
               ("done"%string, "new"%string)].

(** [idea_cycle_status]: the database after the press and the status it
    answers with; [None] when the idea is not found. *)
Definition idea_cycle_status (ib : IdeaBase) (idea_id : Z)
    : IdeaBase * option string :=
  match get_idea ib idea_id with
  | None => (ib, None)
  | Some idea =>
      let new_status := default "new"%string (STATUS_CYCLE !! status idea) in
      (update_idea_status ib idea_id new_status, Some new_status)
  end.

(** [cat_delete]: deletes the category when it is found. *)
Definition cat_delete (ib : IdeaBase) (cat_id : Z) : IdeaBase :=
  match get_category ib cat_id with
  | Some _ => delete_category ib cat_id
  | None => ib
  end.

(** ** Restoring reminders ([main.py], [restore_reminders])

    [py_int] stands for Python's [int] on a [str], [None] for its
    [ValueError].  A pending reminder is the APScheduler job [rem_<task id>];
    the jobs are a map from the task id, so [replace_existing] is [insert].
    Europe/Moscow has a fixed offset: two of its local times are ordered as
    their fields. *)

(** [s.split(":")] *)
Fixpoint split_colon (s : string) : list string :=
  match s with
  | EmptyString => [EmptyString]
  | String c s' =>
      if bool_decide (c = ":"%char) then EmptyString :: split_colon s'
      else match split_colon s' with
           | p :: ps => String c p :: ps
           | [] => [String c EmptyString]
           end
  end.

(** The [try] block: [int(parts[0]), int(parts[1])]; [None] when it raises
    [ValueError] or [IndexError]. *)
Definition parse_reminder (py_int : string → option Z) (reminder_time : string)
    : option (Z * Z) :=
  let parts := split_colon reminder_time in
  match parts !! 0%nat with
  | None => None
  | Some p0 =>
      match py_int p0 with
      | None => None
      | Some hour =>
          match parts !! 1%nat with
          | None => None
          | Some p1 =>
              match py_int p1 with
              | None => None
              | Some minute => Some (hour, minute)
              end
          end
      end
  end.

(** [datetime.now(tz)] *)
Record Moment := mkMoment {
  m_date : Z;
  m_hour : Z;
  m_minute : Z;
  m_second : Z;
  m_microsecond : Z
}.

(** [now.replace(hour=hour, minute=minute, second=0, microsecond=0)];
    [None] when it raises. *)
Definition replace_time (now : Moment) (hour minute : Z) : option Moment :=
  if (0 <=? hour) && (hour <=? 23) && (0 <=? minute) && (minute <=? 59)
  then Some (mkMoment (m_date now) hour minute 0 0)
  else None.

(** [a > b] on two moments of one zone. *)
Definition later (a b : Moment) : bool :=
  bool_decide
    (m_date b < m_date a
     ∨ m_date b = m_date a
       ∧ (m_hour b < m_hour a
          ∨ m_hour b = m_hour a
            ∧ (m_minute b < m_minute a
               ∨ m_minute b = m_minute a
                 ∧ (m_second b < m_second a
                    ∨ m_second b = m_second a
                      ∧ m_microsecond b < m_microsecond a)))).

(** The job [add_job(_send_reminder, DateTrigger(run_date=run_time),
    args=[bot, db, uid, t["id"]], id=f"rem_{t['id']}", ...)]. *)
Record Job := mkJob {
  run_date : Moment;
  job_user_id : Z;
  job_task_id : Z
}.

(** One pass of the inner loop up to [add_job]: [None] when it raises,
    [Some None] when the task is skipped. *)
Definition due_job (py_int : string → option Z) (now : Moment) (uid : Z)
    (t : task_row) : option (option Job) :=
  if truthy (completed t.2) || bool_decide (reminder_time t.2 = EmptyString)
  then Some None
  else
    match parse_reminder py_int (reminder_time t.2) with
    | None => Some None
    | Some (hour, minute) =>
        match replace_time now hour minute with
        | None => None
        | Some run_time =>
            if later run_time now
            then Some (Some (mkJob run_time uid t.1))
            else Some None
        end
    end.

Definition restore_task (py_int : string → option Z) (now : Moment) (uid : Z)
    (jobs : option (gmap Z Job)) (t : task_row) : option (gmap Z Job) :=
  match jobs with
  | None => None
  | Some jobs =>
      match due_job py_int now uid t with
      | None => None
      | Some None => Some jobs
      | Some (Some job) => Some (<[t.1 := job]> jobs)
      end
  end.

(** [restore_reminders] on the ids [get_all_user_ids] returned: the jobs
    afterwards, [None] when it raises. *)
Definition restore_reminders (py_int : string → option Z) (db : Database)
    (user_ids : list Z) (now : Moment) (jobs : gmap Z Job)
    : option (gmap Z Job) :=
  let today := m_date now in
  foldl (λ acc uid,
           foldl (restore_task py_int now uid) acc
                 (get_tasks_by_date db uid today))
        (Some jobs) user_ids.

(** The passes of the two loops of [restore_reminders], one after the
    other: the user id and the row. *)
Definition passes (db : Database) (now : Moment) (user_ids : list Z)
    : list (Z * task_row) :=
  user_ids ≫= λ uid, (uid,.) <$> get_tasks_by_date db uid (m_date now).

(** Python's [int] on two decimal digits. *)
Definition int_reads_two_digits (py_int : string → option Z) : Prop :=
  ∀ a b, is_digit a = true → is_digit b = true →
         py_int (String a (String b EmptyString))
         = Some (10 * digit_value a + digit_value b).

(** Every stored reminder time is empty or an in-range [rem_str], which is
    what [task_skip_reminder] and [task_add_reminder] store. *)
Definition reminders_well_formed (db : Database) : Prop :=
  ∀ i t, tasks db !! i = Some t →
         reminder_time t = EmptyString
         ∨ ∃ hour minute, 0 ≤ hour ≤ 23 ∧ 0 ≤ minute ≤ 59
                          ∧ reminder_time t = rem_str hour minute.

(** A reader of two decimal digits, to run the statements on. *)
Definition two_digit_int (s : string) : option Z :=
  match s with
  | String a (String b EmptyString) =>
      if is_digit a && is_digit b
      then Some (10 * digit_value a + digit_value b) else None
  | _ => None
  end.

(** ** Predicates of the statements *)

(** The bounds of the stats of one user. *)
Definition user_ok (u : User) : Prop :=
  1 ≤ level u ∧ 0 ≤ xp u < level u * 100 ∧ 0 ≤ hp u ≤ 100 ∧ 0 ≤ points u.

Definition db_ok (db : Database) : Prop :=
  ∀ uid u, get_user db uid = Some u → user_ok u.

(** One call of a handler or of the settlement that returns normally. *)
Inductive handler_step : Database → Database → Prop :=
  | step_cmd_start db from_user username now :
      handler_step db (cmd_start db from_user username now).1
  | step_ensure_user db user_id username now :
      handler_step db (_ensure_user db user_id username now).1
  | step_add_task db user_id title task_type reminder_time created_date rowid :
      handler_step db
        (add_task db user_id title task_type reminder_time created_date rowid).1
  | step_task_delete db task_id :
      handler_step db (task_delete db task_id).1
  | step_task_done db from_user task_id now db' outs :
      task_done db from_user task_id now = Some (db', outs) →
      handler_step db db'
  | step_reminder_done db from_user task_id now db' outs :
      reminder_done db from_user task_id now = Some (db', outs) →
      handler_step db db'
  | step_shop_buy db from_user item db' outs :
      shop_buy db from_user item = Some (db', outs) →
      handler_step db db'
  | step_add_reward db user_id title cost rowid :
      handler_step db (add_reward db user_id title cost rowid).1
  | step_reward_del db rid :
      handler_step db (reward_del db rid).1
  | step_reward_claim db from_user rid today now db' outs :
      reward_claim db from_user rid today now = Some (db', outs) →
      handler_step db db'
  | step_process_evening db uid today :
      handler_step db (_process_evening db uid today).1.

(** The write of [_process_evening] for [uid], computed from what database
    [seen] shows for that user and applied to [db]; with [seen = db] it is
    the run itself. *)
Definition apply_settlement (seen db : Database) (uid today : Z) : Database :=
  match get_tasks_by_date seen uid today, get_user seen uid with
  | _ :: _, Some user =>
      mark_tasks_penalized
        (update_user db uid
           (settle_kwargs
              (settle user (get_tasks_by_date seen uid today) today)))
        uid today
  | _, _ => db
  end.

(** The empty database the bot starts from. *)
Definition empty_db : Database := mkDatabase ∅ ∅ ∅.

(** ** Adding a reward ([handlers.py], [reward_add_cost])

    [py_int] is Python's [int] on a text, [None] for [ValueError]; [name] is
    what the dialogue collected before. *)
Definition reward_add_cost (py_int : string → option Z) (db : Database)
    (from_user : Z) (name text : string) (lastrowid : Z)
    : Database * list Emit :=
  match py_int text with
  | None => (db, [emit_message PositiveNumberWanted])
  | Some cost =>
      if cost <=? 0
      then (db, [emit_message PositiveNumberWanted])
      else ((add_reward db from_user name cost lastrowid).1,
            [emit_message (RewardAdded name cost)])
  end.

(** Every stored reward costs something. *)
Definition rewards_positive (db : Database) : Prop :=
  ∀ i r, rewards db !! i = Some r → 0 < cost r.

(** ** The whitelist ([database.py], [main.py], [handlers.py]) *)

(** The [whitelist] table by its primary key [user_id]; a row holds its
    [added_at]. *)
Abbreviation Whitelist := (gmap Z string).

(** [INSERT OR IGNORE INTO whitelist (user_id) VALUES (?)]; [added_at] is
    SQLite's [datetime('now')]. *)
Definition add_to_whitelist (wl : Whitelist) (user_id : Z)
    (added_at : string) : Whitelist :=
  match wl !! user_id with
  | Some _ => wl
  | None => <[user_id := added_at]> wl
  end.

(** [DELETE FROM whitelist WHERE user_id = ?] *)
Definition remove_from_whitelist (wl : Whitelist) (user_id : Z) : Whitelist :=
  delete user_id wl.

(** [SELECT 1 FROM whitelist WHERE user_id = ?] *)
Definition is_whitelisted (wl : Whitelist) (user_id : Z) : bool :=
  bool_decide (is_Some (wl !! user_id)).

(** [SELECT user_id FROM whitelist]: SQLite scans the table by its integer
    primary key. *)
Definition get_all_user_ids (wl : Whitelist) : list Z :=
  merge_sort Z.le (map_to_list wl).*1.

(** [WhitelistMiddleware.__call__]: whether the handler is called. *)
Definition WhitelistMiddleware (wl : Whitelist) (admin_id : Z)
    (event_from_user : option Z) : bool :=
  match event_from_user with
  | None => true
  | Some user_id =>
      if bool_decide (user_id = admin_id) then true
      else is_whitelisted wl user_id
  end.

(** [users_add_id]; [admin_id] is [ADMIN_ID] of the configuration. *)
Definition users_add_id (py_int : string → option Z) (admin_id : Z)
    (db : Database) (wl : Whitelist) (from_user : Z)
    (text added_at created_at : string) : Database * Whitelist * list Emit :=
  if bool_decide (from_user ≠ admin_id) then (db, wl, [])
  else
    match py_int (String.string_of_list_ascii
                    (strip (String.list_ascii_of_string text))) with
    | None => (db, wl, [emit_message NumericIdWanted])
    | Some uid =>
        (create_user db uid "" created_at, add_to_whitelist wl uid added_at,
         [emit_message (UserAdded uid)])
    end.

(** [users_del]; [uid] is the integer of the button's callback data. *)
Definition users_del (admin_id : Z) (db : Database) (wl : Whitelist)
    (from_user uid : Z) : Database * Whitelist * list Emit :=
  if bool_decide (from_user ≠ admin_id)
  then (db, wl, [emit_answer (Some NoAccess)])
  else (db, remove_from_whitelist wl uid,
        [emit_message (UserRemoved uid); emit_answer None]).

(** ** Creating a task with a reminder ([handlers.py])

    The texts of the menu buttons all hold a code point above 255, so on
    the texts modelled here [_cancel_if_menu] is false and the handlers
    start after it.  [name] and [task_type] are what the earlier steps of
    the dialogue collected. *)

(** [task_skip_reminder] *)
Definition task_skip_reminder (db : Database) (from_user : Z)
    (name task_type : string) (today lastrowid : Z)
    : Database * list Emit :=
  ((add_task db from_user name task_type None today lastrowid).1,
   [emit_message (TaskAdded name task_type EmptyString); emit_answer None]).

(** [task_add_reminder]: [scheduler] is the module's [_scheduler], [None]
    when it was never set; the [try] around the scheduling swallows what
    [replace] raises. *)
Definition task_add_reminder (db : Database) (scheduler : option (gmap Z Job))
    (from_user : Z) (name task_type text : string) (today : Z) (now : Moment)
    (lastrowid : Z) : Database * option (gmap Z Job) * list Emit :=
  match parse_time text with
  | None => (db, scheduler, [emit_message TimeFormatInvalid])
  | Some (hour, minute) =>
      let rem := rem_str hour minute in
      let '(db1, task_id) :=
        add_task db from_user name task_type (Some rem) today lastrowid in
      let scheduler1 :=
        match scheduler with
        | None => None
        | Some jobs =>
            match replace_time now hour minute with
            | None => Some jobs
            | Some run_time =>
                if later run_time now
                then Some (<[task_id := mkJob run_time from_user task_id]> jobs)
                else Some jobs
            end
        end in
      (db1, scheduler1, [emit_message (TaskAdded name task_type rem)])
  end.

(** ** The running bot *)

(** One event of the running bot that returns normally: a handler call or a
    settlement.  Tasks are created by the two handlers that end the task
    dialogue, rewards by [reward_add_cost]. *)
Inductive bot_step (py_int : string → option Z)
    : Database → Database → Prop :=
  | bot_cmd_start db from_user username now :
      bot_step py_int db (cmd_start db from_user username now).1
  | bot_ensure_user db user_id username now :
      bot_step py_int db (_ensure_user db user_id username now).1
  | bot_task_skip_reminder db from_user name task_type today rowid :
      bot_step py_int db
        (task_skip_reminder db from_user name task_type today rowid).1
  | bot_task_add_reminder db scheduler from_user name task_type text today
      now rowid :
      bot_step py_int db
        (task_add_reminder db scheduler from_user name task_type text today
           now rowid).1.1
  | bot_task_done db from_user task_id now db' outs :
      task_done db from_user task_id now = Some (db', outs) →
      bot_step py_int db db'
  | bot_task_delete db task_id :
      bot_step py_int db (task_delete db task_id).1
  | bot_reminder_done db from_user task_id now db' outs :
      reminder_done db from_user task_id now = Some (db', outs) →
      bot_step py_int db db'
  | bot_shop_buy db from_user item db' outs :
      shop_buy db from_user item = Some (db', outs) →
      bot_step py_int db db'
  | bot_reward_add_cost db from_user name text rowid :
      bot_step py_int db
        (reward_add_cost py_int db from_user name text rowid).1
  | bot_reward_claim db from_user rid today now db' outs :
      reward_claim db from_user rid today now = Some (db', outs) →
      bot_step py_int db db'
  | bot_reward_del db rid :
      bot_step py_int db (reward_del db rid).1
  | bot_process_evening db uid today :
      bot_step py_int db (_process_evening db uid today).1.

(** No row of [db'] is new, and none has another reminder time or cost
    than it has in [db]. *)
Definition rows_kept (db db' : Database) : Prop :=
  (∀ i t', tasks db' !! i = Some t' →
           ∃ t, tasks db !! i = Some t ∧ reminder_time t' = reminder_time t)
  ∧ (∀ i r', rewards db' !! i = Some r' →
             ∃ r, rewards db !! i = Some r ∧ cost r' = cost r).

(** ** More sample states *)

Module MoreExamples.

(** 12:00:00 on day 20. *)
Definition noon : Moment := mkMoment 20 12 0 0 0.

(** Two open tasks of user 1 on day 20: a reminder at 09:00 and one at
    22:30. *)
Definition two_reminders : Database :=
  mkDatabase {[ 1 := Examples.player 1 0 100 0 0 0 0 ]}
             {[ 7 := mkTask 1 "stretch" "wish" "09:00" 0 20 "" 0;
                9 := mkTask 1 "read" "important" "22:30" 0 20 "" 0 ]} ∅.

(** Two users, each with one open task: user 1 a focus task on day 20,
    user 2 an important task on day 21. *)
Definition two_players : Database :=
  mkDatabase {[ 1 := Examples.player 1 0 100 10 0 0 0;
                2 := Examples.player 2 30 60 4 1 0 2 ]}
             {[ 7 := Examples.focus_task 0 0;
                8 := mkTask 2 "call" "important" "" 0 21 "" 0 ]} ∅.

End MoreExamples.

(** * Properties *)

(** ** Store lemmas *)

Lemma get_user_update_user db uid kwargs v :
  kwargs ≠ [] →
  get_user (update_user db uid kwargs) v
  = if decide (uid = v) then set_columns kwargs <$> get_user db v
    else get_user db v.
Proof.
  intros Hne. unfold get_user, update_user.
  destruct kwargs as [|k kwargs]; [done|]. cbn [users].
  rewrite lookup_alter. case_decide; subst; done.
Qed.

Lemma tasks_update_user db uid kwargs :
  tasks (update_user db uid kwargs) = tasks db.
Proof. by destruct kwargs. Qed.

Lemma rewards_update_user db uid kwargs :
  rewards (update_user db uid kwargs) = rewards db.
Proof. by destruct kwargs. Qed.

(** ** The level-up loop *)

Section leveling.

Implicit Types (new_xp new_lvl : Z) (fuel : nat).

Lemma loop_bound_decreases new_xp new_lvl :
  new_lvl * 100 ≤ new_xp →
  (loop_bound (new_xp - new_lvl * 100) (new_lvl + 1)
   < loop_bound new_xp new_lvl)%nat.
Proof.
  intros Hguard. unfold loop_bound.
  destruct (Z.leb_spec 1 new_lvl), (Z.leb_spec 1 (new_lvl + 1)); lia.
Qed.

Lemma loop_bound_zero new_xp new_lvl :
  loop_bound new_xp new_lvl = 0%nat → new_xp < new_lvl * 100.
Proof.
  unfold loop_bound. destruct (Z.leb_spec 1 new_lvl); lia.
Qed.

(** Past the bound, more fuel changes nothing: the loop has exited. *)
Lemma level_loop_stable fuel :
  ∀ fuel' new_xp new_lvl,
    (loop_bound new_xp new_lvl ≤ fuel)%nat →
    (loop_bound new_xp new_lvl ≤ fuel')%nat →
    level_loop fuel new_xp new_lvl = level_loop fuel' new_xp new_lvl.
Proof.
  induction fuel as [|fuel IH]; intros [|fuel'] new_xp new_lvl Hn Hm;
    cbn [level_loop]; try done.
  - assert (new_xp < new_lvl * 100) by (apply loop_bound_zero; lia).
    destruct (Z.leb_spec (new_lvl * 100) new_xp); [lia | done].
  - assert (new_xp < new_lvl * 100) by (apply loop_bound_zero; lia).
    destruct (Z.leb_spec (new_lvl * 100) new_xp); [lia | done].
  - destruct (Z.leb_spec (new_lvl * 100) new_xp) as [Hg|Hg]; [|done].
    pose proof (loop_bound_decreases _ _ Hg). apply IH; lia.
Qed.

(** [level_up] satisfies the equation of the [while] loop on every pair of
    integers, so it is the loop run until its guard fails. *)
Lemma level_up_unfold new_xp new_lvl :
  level_up new_xp new_lvl
  = if new_lvl * 100 <=? new_xp
    then level_up (new_xp - new_lvl * 100) (new_lvl + 1)
    else (new_xp, new_lvl).
Proof.
  unfold level_up at 1.
  destruct (loop_bound new_xp new_lvl) as [|fuel] eqn:Hb; cbn [level_loop].
  - apply loop_bound_zero in Hb.
    destruct (Z.leb_spec (new_lvl * 100) new_xp); [lia | done].
  - destruct (Z.leb_spec (new_lvl * 100) new_xp) as [Hg|Hg]; [|done].
    pose proof (loop_bound_decreases _ _ Hg).
    apply level_loop_stable; lia.
Qed.

Lemma level_loop_exit fuel :
  ∀ new_xp new_lvl,
    (loop_bound new_xp new_lvl ≤ fuel)%nat →
    (level_loop fuel new_xp new_lvl).1
    < (level_loop fuel new_xp new_lvl).2 * 100.
Proof.
  induction fuel as [|fuel IH]; intros new_xp new_lvl Hb; cbn [level_loop].
  - cbn [fst snd]. apply loop_bound_zero. lia.
  - destruct (Z.leb_spec (new_lvl * 100) new_xp) as [Hg|Hg]; [|done].
    pose proof (loop_bound_decreases _ _ Hg). apply IH. lia.
Qed.

Lemma level_loop_keeps fuel :
  ∀ new_xp new_lvl,
    1 ≤ new_lvl → 0 ≤ new_xp →
    0 ≤ (level_loop fuel new_xp new_lvl).1
    ∧ new_lvl ≤ (level_loop fuel new_xp new_lvl).2.
Proof.
  induction fuel as [|fuel IH]; intros new_xp new_lvl Hl Hx;
    cbn [level_loop]; [cbn; lia|].
  destruct (Z.leb_spec (new_lvl * 100) new_xp) as [Hg|Hg]; [|cbn; lia].
  destruct (IH (new_xp - new_lvl * 100) (new_lvl + 1)); lia.
Qed.

(** On exit the guard is false, whatever the integers were. *)
Lemma level_up_exit new_xp new_lvl :
  (level_up new_xp new_lvl).1 < (level_up new_xp new_lvl).2 * 100.
Proof. by apply level_loop_exit. Qed.

Lemma level_up_bounds new_xp new_lvl :
  1 ≤ new_lvl → 0 ≤ new_xp →
  0 ≤ (level_up new_xp new_lvl).1 < (level_up new_xp new_lvl).2 * 100
  ∧ new_lvl ≤ (level_up new_xp new_lvl).2.
Proof.
  intros Hl Hx. pose proof (level_up_exit new_xp new_lvl).
  destruct (level_loop_keeps (loop_bound new_xp new_lvl) new_xp new_lvl Hl Hx).
  unfold level_up in *. lia.
Qed.

End leveling.

(** ** The reward table *)

Lemma int_of_float_times_1_5 (n : Z) :
  int_of_float (inject_Z n * (3 # 2))%Q = Z.quot (n * 3) 2.
Proof. reflexivity. Qed.

Lemma int_of_float_times_1 (n : Z) :
  int_of_float (inject_Z n * 1)%Q = n.
Proof.
  unfold int_of_float, Qmult, inject_Z. cbn [Qnum Qden].
  by rewrite Z.mul_1_r, Z.quot_1_r.
Qed.

Lemma calc_rewards_nonneg task_type pepper :
  0 ≤ (_calc_rewards task_type pepper).1.1.
Proof.
  unfold _calc_rewards.
  destruct (reward_table !! task_type) as [[[x p] h]|] eqn:Hl; cbn [default].
  - assert (0 ≤ x) as Hx.
    { apply (elem_of_list_to_map_2 (M := gmap string)) in Hl.
      repeat (apply elem_of_cons in Hl as [Hl|Hl]; [injection Hl as -> -> -> ->; lia|]).
      by apply elem_of_nil in Hl. }
    destruct (truthy pepper); cbn -[int_of_float Qmult inject_Z].
    + rewrite int_of_float_times_1_5. apply Z.quot_pos; lia.
    + by rewrite int_of_float_times_1.
  - destruct (truthy pepper); cbn -[int_of_float Qmult inject_Z].
    + by rewrite int_of_float_times_1_5.
    + by rewrite int_of_float_times_1.
Qed.

(** C6. For each of the categories focus, important and wish and for every
    pepper flag, [_calc_rewards] returns the fixed table
    focus = (50, 20, 0), important = (20, 10, 0), wish = (5, 2, 5); under
    pepper the xp and the points are multiplied by 1.5 and truncated toward
    zero and the heal is left alone; focus with pepper is (75, 30, 0). *)
Theorem calc_rewards_fixed_table (pepper : Z) :
  _calc_rewards "focus" pepper
    = (if truthy pepper then (Z.quot (50 * 3) 2, Z.quot (20 * 3) 2, 0)
       else (50, 20, 0))
  ∧ _calc_rewards "important" pepper
    = (if truthy pepper then (Z.quot (20 * 3) 2, Z.quot (10 * 3) 2, 0)
       else (20, 10, 0))
  ∧ _calc_rewards "wish" pepper
    = (if truthy pepper then (Z.quot (5 * 3) 2, Z.quot (2 * 3) 2, 5)
       else (5, 2, 5))
  ∧ (truthy pepper = true →
     _calc_rewards "focus" pepper = (75, 30, 0)
     ∧ _calc_rewards "important" pepper = (30, 15, 0)
     ∧ _calc_rewards "wish" pepper = (7, 3, 5)).
Proof.
  unfold _calc_rewards.
  destruct (truthy pepper); repeat split; try done; reflexivity.
Qed.

Lemma calc_rewards_fixed_table_witness :
  _calc_rewards "focus" 1 = (75, 30, 0)
  ∧ _calc_rewards "important" 1 = (30, 15, 0)
  ∧ _calc_rewards "wish" 1 = (7, 3, 5).
Proof.
  apply (calc_rewards_fixed_table 1). reflexivity.
Defined.

(** ** Task completion *)

Lemma task_done_open db from_user task_id now task user :
  get_task db task_id = Some task →
  truthy (completed task) = false →
  get_user db from_user = Some user →
  ∃ outs,
    task_done db from_user task_id now
    = Some (update_user (complete_task db task_id now) from_user
              (let '(xp_g, pts_g, hp_g) :=
                 _calc_rewards (task_type task) (pepper_mode user) in
               let '(new_xp, new_lvl) :=
                 level_up (xp user + xp_g) (level user) in
               [kw_xp new_xp; kw_level new_lvl;
                kw_hp (Z.min 100 (hp user + hp_g));
                kw_points (points user + pts_g)]),
            outs).
Proof.
  intros Ht Hc Hu. unfold task_done. rewrite Ht, Hc, Hu.
  destruct (_calc_rewards _ _) as [[xp_g pts_g] hp_g].
  destruct (level_up _ _) as [new_xp new_lvl]. eauto.
Qed.

(** C7. For a user with [level >= 1] and [xp >= 0], completing a task leaves
    [0 <= xp' < level' * 100] with [level' >= level], and so does the loop
    after any non-negative xp gain; level 1 with 80 xp and a focus grant of
    50 ends at level 2 with 30 xp; one grant can raise the level twice. *)
Theorem task_done_level_invariant :
  (∀ db from_user task_id now task user,
     get_task db task_id = Some task →
     truthy (completed task) = false →
     get_user db from_user = Some user →
     1 ≤ level user → 0 ≤ xp user →
     ∃ db' outs user',
       task_done db from_user task_id now = Some (db', outs)
       ∧ get_user db' from_user = Some user'
       ∧ 0 ≤ xp user' < level user' * 100
       ∧ level user ≤ level user')
  ∧ (∀ lvl xp0 gain,
       1 ≤ lvl → 0 ≤ xp0 → 0 ≤ gain →
       0 ≤ (level_up (xp0 + gain) lvl).1 < (level_up (xp0 + gain) lvl).2 * 100
       ∧ lvl ≤ (level_up (xp0 + gain) lvl).2)
  ∧ (∃ db' outs,
       task_done Examples.near_level_up 1 7 "21:00" = Some (db', outs)
       ∧ level <$> get_user db' 1 = Some 2
       ∧ xp <$> get_user db' 1 = Some 30)
  ∧ (∃ db' outs,
       task_done Examples.overfull 1 7 "21:00" = Some (db', outs)
       ∧ level <$> get_user db' 1 = Some 3
       ∧ xp <$> get_user db' 1 = Some 0).
Proof.
  split; [|split; [|split]].
  - intros db from_user task_id now task user Ht Hc Hu Hl Hx.
    destruct (task_done_open _ _ _ now _ _ Ht Hc Hu) as [outs ->].
    pose proof (calc_rewards_nonneg (task_type task) (pepper_mode user)) as Hg.
    destruct (_calc_rewards _ _) as [[xp_g pts_g] hp_g]. cbn [fst] in Hg.
    pose proof (level_up_bounds (xp user + xp_g) (level user) Hl
                  ltac:(lia)) as Hb.
    destruct (level_up _ _) as [new_xp new_lvl]. cbn [fst snd] in Hb.
    eexists _, outs, _. split; [done|].
    rewrite get_user_update_user by done. rewrite decide_True by done.
    unfold get_user in *. cbn [complete_task users]. rewrite Hu.
    split; [done|]. cbn. lia.
  - intros lvl xp0 gain Hl Hx Hg. apply level_up_bounds; lia.
  - eexists _, _. split; [vm_compute; reflexivity|]. by vm_compute.
  - eexists _, _. split; [vm_compute; reflexivity|]. by vm_compute.
Qed.

Lemma task_done_level_invariant_witness :
  ∃ db' outs user',
    task_done Examples.near_level_up 1 7 "21:00" = Some (db', outs)
    ∧ get_user db' 1 = Some user'
    ∧ 0 ≤ xp user' < level user' * 100
    ∧ 1 ≤ level user'.
Proof.
  apply (proj1 task_done_level_invariant Examples.near_level_up 1 7 "21:00"
           (Examples.focus_task 0 0) (Examples.player 1 80 100 0 0 0 0)).
  - reflexivity.
  - reflexivity.
  - reflexivity.
  - simpl. lia.
  - simpl. lia.
Defined.

(** ** Evening settlement *)

Lemma filter_fmap_stable {A} (P : A → Prop) `{!∀ x, Decision (P x)}
    (f : A → A) (l : list A) :
  (∀ x, P (f x) ↔ P x) → filter P (f <$> l) = f <$> filter P l.
Proof.
  intros Hf. induction l as [|x l IH]; [done|]. rewrite fmap_cons.
  destruct (decide (P x)) as [Hx|Hx].
  - rewrite (filter_cons_True P (f x)) by (by apply Hf).
    rewrite (filter_cons_True P x) by done. by rewrite IH, fmap_cons.
  - rewrite (filter_cons_False P (f x)) by (by rewrite Hf).
    by rewrite (filter_cons_False P x).
Qed.

Lemma filter_none {A} (P : A → Prop) `{!∀ x, Decision (P x)} (l : list A) :
  Forall (λ x, ¬ P x) l → filter P l = [].
Proof.
  induction 1 as [|x l Hx _ IH]; [done|]. by rewrite filter_cons_False.
Qed.

Section settlement.

Implicit Types (db : Database) (uid today : Z) (user : User) (r : task_row).

Lemma penalize_row_columns uid today (t : Task) :
  task_user_id (penalize_row uid today t) = task_user_id t
  ∧ created_date (penalize_row uid today t) = created_date t
  ∧ completed (penalize_row uid today t) = completed t
  ∧ task_type (penalize_row uid today t) = task_type t.
Proof. unfold penalize_row. by case_decide. Qed.

Lemma penalize_row_idemp uid today (t : Task) :
  penalize_row uid today (penalize_row uid today t) = penalize_row uid today t.
Proof.
  unfold penalize_row. by repeat case_decide.
Qed.

Lemma elem_of_get_tasks_by_date db uid today r :
  r ∈ get_tasks_by_date db uid today
  ↔ tasks db !! r.1 = Some r.2 ∧ on_date uid today r.
Proof.
  unfold get_tasks_by_date.
  rewrite merge_sort_Permutation, list_elem_of_filter, elem_of_map_to_list'.
  tauto.
Qed.

Lemma get_tasks_by_date_update_user db uid kwargs v today :
  get_tasks_by_date (update_user db uid kwargs) v today
  = get_tasks_by_date db v today.
Proof. unfold get_tasks_by_date. by rewrite tasks_update_user. Qed.

Lemma get_tasks_by_date_marked db uid today v d :
  get_tasks_by_date (mark_tasks_penalized db uid today) v d
  ≡ₚ penalize uid today <$> get_tasks_by_date db v d.
Proof.
  unfold get_tasks_by_date. rewrite !merge_sort_Permutation.
  cbn [mark_tasks_penalized tasks]. rewrite map_to_list_fmap.
  unfold penalize. rewrite filter_fmap_stable; [done|].
  intros [i t]. unfold on_date. cbn.
  destruct (penalize_row_columns uid today t) as (-> & -> & _). done.
Qed.

Lemma process_evening_idle db uid today :
  get_tasks_by_date db uid today = [] ∨ get_user db uid = None →
  _process_evening db uid today = (db, []).
Proof.
  unfold _process_evening. intros [-> | ->]; [done|].
  by destruct (get_tasks_by_date db uid today).
Qed.

Lemma process_evening_run db uid today user :
  get_tasks_by_date db uid today ≠ [] →
  get_user db uid = Some user →
  (_process_evening db uid today).1
  = mark_tasks_penalized
      (update_user db uid
         (settle_kwargs (settle user (get_tasks_by_date db uid today) today)))
      uid today.
Proof.
  unfold _process_evening. intros Hne ->.
  by destruct (get_tasks_by_date db uid today).
Qed.

Lemma get_user_process_evening db uid today user :
  get_tasks_by_date db uid today ≠ [] →
  get_user db uid = Some user →
  get_user (_process_evening db uid today).1 uid
  = Some (set_columns
            (settle_kwargs (settle user (get_tasks_by_date db uid today) today))
            user).
Proof.
  intros Hne Hu. rewrite (process_evening_run _ _ _ _ Hne Hu).
  change (get_user (mark_tasks_penalized ?d _ _) ?v) with (get_user d v).
  rewrite get_user_update_user by done. rewrite decide_True by done.
  by rewrite Hu.
Qed.

Lemma get_user_process_evening_other db uid today v :
  uid ≠ v →
  get_user (_process_evening db uid today).1 v = get_user db v.
Proof.
  intros Hv. unfold _process_evening.
  destruct (get_tasks_by_date db uid today); [done|].
  destruct (get_user db uid); [|done]. cbn [fst].
  change (get_user (mark_tasks_penalized ?d _ _) ?v) with (get_user d v).
  rewrite get_user_update_user by done. by rewrite decide_False.
Qed.

Lemma done_le_total (tasks : list task_row) :
  (length (filter is_completed tasks) ≤ length tasks)%nat.
Proof. apply length_filter. Qed.

(** [done == total] says that every task of the day is completed. *)
Lemma done_eq_total (tasks : list task_row) :
  length (filter is_completed tasks) = length tasks
  ↔ Forall is_completed tasks.
Proof.
  split.
  - intros Hlen. apply Forall_forall. intros r Hr.
    destruct (decide (is_completed r)) as [|Hn]; [done|].
    pose proof (length_filter_lt is_completed tasks r Hr Hn). lia.
  - induction 1 as [|r l Hr _ IH]; [done|].
    rewrite filter_cons_True by done. cbn. by rewrite IH.
Qed.

End settlement.

(** C10. The settlement never touches [level] or [xp]: for every database,
    user and date, after [_process_evening] every user row has the level and
    xp it had, and a row that differs at all differs only in hp, points,
    shield_active, pepper_mode, pepper_streak and last_perfect_date. *)
Theorem settlement_keeps_level_and_xp db uid today v :
  let db' := (_process_evening db uid today).1 in
  level <$> get_user db' v = level <$> get_user db v
  ∧ xp <$> get_user db' v = xp <$> get_user db v
  ∧ (get_user db' v = get_user db v
     ∨ ∃ user hp' points' shield' pepper' streak' perfect',
         v = uid ∧ get_user db v = Some user
         ∧ get_user db' v
           = Some (mkUser (username user) (level user) (xp user) hp' points'
                     shield' pepper' streak' perfect' (created_at user))).
Proof.
  cbv zeta. destruct (decide (uid = v)) as [<-|Hv].
  - destruct (decide (get_tasks_by_date db uid today = [])) as [He|Hne].
    { rewrite process_evening_idle by auto. auto. }
    destruct (get_user db uid) as [user|] eqn:Hu.
    2:{ rewrite process_evening_idle by auto. cbn [fst]. rewrite Hu. auto. }
    rewrite (get_user_process_evening _ _ _ _ Hne Hu).
    repeat split; try done. right. by eexists _, _, _, _, _, _, _.
  - rewrite get_user_process_evening_other by done. auto.
Qed.

(** C5. On a day with at least one task: when every task is completed
    ([done == total]) the run adds 1 to [pepper_streak] and sets
    [pepper_mode] to 1 if the new streak is at least 3, keeping it otherwise;
    when [done < total] it writes [pepper_streak = 0] and [pepper_mode = 0]
    whatever [pepper_mode] was. *)
Theorem settlement_streak db uid today user :
  get_user db uid = Some user →
  get_tasks_by_date db uid today ≠ [] →
  let tasks := get_tasks_by_date db uid today in
  let total := length tasks in
  let done := length (filter is_completed tasks) in
  (0 < total)%nat ∧ (done ≤ total)%nat
  ∧ ∃ user',
      get_user (_process_evening db uid today).1 uid = Some user'
      ∧ (done = total →
         pepper_streak user' = pepper_streak user + 1
         ∧ pepper_mode user'
           = if 3 <=? pepper_streak user + 1 then 1 else pepper_mode user)
      ∧ ((done < total)%nat →
         pepper_streak user' = 0 ∧ pepper_mode user' = 0).
Proof.
  intros Hu Hne. cbv zeta.
  split; [destruct (get_tasks_by_date db uid today); [done|cbn; lia]|].
  split; [apply done_le_total|].
  rewrite (get_user_process_evening _ _ _ _ Hne Hu). eexists. split; [done|].
  unfold settle. destruct (penalty_loop _ _) as [[sh hl] pl].
  split.
  - intros ->. rewrite Nat.eqb_refl. done.
  - intros Hlt. destruct (Nat.eqb_spec
      (length (filter is_completed (get_tasks_by_date db uid today)))
      (length (get_tasks_by_date db uid today))); [lia|done].
Qed.

Lemma settlement_streak_witness :
  ∃ user',
    get_user
      (_process_evening
         (mkDatabase {[ 1 := Examples.player 1 0 100 0 0 0 2 ]}
                     {[ 7 := Examples.focus_task 1 0 ]} ∅) 1 20).1 1
    = Some user'
    ∧ pepper_streak user' = 3 ∧ pepper_mode user' = 1.
Proof.
  destruct (settlement_streak
              (mkDatabase {[ 1 := Examples.player 1 0 100 0 0 0 2 ]}
                          {[ 7 := Examples.focus_task 1 0 ]} ∅)
              1 20 (Examples.player 1 0 100 0 0 0 2))
    as (_ & _ & user' & Hget & Hperfect & _).
  - reflexivity.
  - vm_compute. discriminate.
  - exists user'. split; [exact Hget|]. apply Hperfect. reflexivity.
Defined.

(** ** The shield *)

Lemma total_of_cons f (t : task_row) (l : list task_row) :
  total_of f (t :: l) = f t + total_of f l.
Proof. reflexivity. Qed.

Lemma total_of_app f (l k : list task_row) :
  total_of f (l ++ k) = total_of f l + total_of f k.
Proof.
  induction l as [|t l IH]; [done|].
  rewrite <- app_comm_cons, !total_of_cons, IH. lia.
Qed.

Lemma penalty_of_columns (t : task_row) :
  penalty_of t = (hp_penalty t, pts_penalty t).
Proof. unfold hp_penalty, pts_penalty. by destruct (penalty_of t). Qed.

(** Without a shield every penalty is applied. *)
Lemma penalty_loop_unshielded (l : list task_row) :
  ∀ h p,
    foldl penalty_step (false, h, p) l
    = (false, h + total_of hp_penalty l, p + total_of pts_penalty l).
Proof.
  induction l as [|t l IH]; intros h p; cbn [foldl].
  - unfold total_of. cbn. f_equal; [f_equal|]; lia.
  - unfold penalty_step at 2. rewrite penalty_of_columns. cbn [andb].
    rewrite IH, !total_of_cons. f_equal; [f_equal|]; lia.
Qed.

(** The shield stays up while no task has a positive hp penalty. *)
Lemma penalty_loop_shield_kept (l : list task_row) :
  Forall (λ t, hp_penalty t ≤ 0) l →
  ∀ h p,
    foldl penalty_step (true, h, p) l
    = (true, h + total_of hp_penalty l, p + total_of pts_penalty l).
Proof.
  induction 1 as [|t l Ht _ IH]; intros h p; cbn [foldl].
  - unfold total_of. cbn. f_equal; [f_equal|]; lia.
  - unfold penalty_step at 2. rewrite penalty_of_columns. cbn [andb].
    destruct (Z.ltb_spec 0 (hp_penalty t)); [lia|].
    rewrite IH, !total_of_cons. f_equal; [f_equal|]; lia.
Qed.

(** With the shield up, the first failed task with a positive hp penalty
    loses exactly that penalty, and every other penalty is applied. *)
Lemma penalty_loop_first_positive (pre post : list task_row) (t : task_row) :
  Forall (λ t, hp_penalty t ≤ 0) pre →
  0 < hp_penalty t →
  penalty_loop true (pre ++ t :: post)
  = (false,
     total_of hp_penalty pre + total_of hp_penalty post,
     total_of pts_penalty (pre ++ t :: post)).
Proof.
  intros Hpre Ht. unfold penalty_loop.
  rewrite foldl_app, (penalty_loop_shield_kept _ Hpre). cbn [foldl].
  unfold penalty_step at 2. rewrite penalty_of_columns. cbn [andb].
  destruct (Z.ltb_spec 0 (hp_penalty t)); [|lia].
  rewrite penalty_loop_unshielded, total_of_app, total_of_cons.
  f_equal; [f_equal|]; lia.
Qed.

(** The stored flag is cleared exactly when it was set and some hp was still
    lost in the run. *)
Lemma shield_now_cleared user tasks today :
  shield_now (settle user tasks today)
  = if truthy (shield_active user)
       && (0 <? total_hp_loss (settle user tasks today))
    then 0 else shield_active user.
Proof.
  unfold settle. destruct (penalty_loop _ _) as [[sh hl] pl].
  by destruct (_ =? _)%nat.
Qed.

(** C1, at the input where the code departs from it.  With the shield active
    and a single failed focus task the loop nullifies the 20 hp penalty and
    drops its local shield, so no hp is lost, yet the run stores
    [shield_active = 1]: the shield was used and is still there.  With two
    failed focus tasks the first penalty is nullified, the second applies,
    hp ends at 80 and the stored flag is 0. *)
Theorem shield_survives_single_nullified_penalty :
  let db := Examples.one_failure in
  let db' := (_process_evening db 1 20).1 in
  (filter is_failed (get_tasks_by_date db 1 20)).*1 = [7]
  ∧ penalty_loop true (filter is_failed (get_tasks_by_date db 1 20))
    = (false, 0, 5)
  ∧ hp <$> get_user db' 1 = Some 100
  ∧ shield_active <$> get_user db' 1 = Some 1
  ∧ let db2 := (_process_evening Examples.two_failures 1 20).1 in
    hp <$> get_user db2 1 = Some 80
    ∧ shield_active <$> get_user db2 1 = Some 0.
Proof. vm_compute. repeat split; reflexivity. Qed.

(** ** Running the settlement twice *)

Section second_run.

Implicit Types (db : Database) (uid today : Z) (user : User) (r : task_row).

Lemma set_columns_settle s user :
  set_columns (settle_kwargs s) user
  = mkUser (username user) (level user) (xp user) (new_hp s) (new_pts s)
      (shield_now s) (new_pepper s) (new_streak s)
      (new_last_perfect_date s) (created_at user).
Proof. reflexivity. Qed.

Lemma truthy_false n : truthy n = false ↔ n = 0.
Proof. unfold truthy. destruct (Z.eqb_spec n 0); naive_solver. Qed.

Lemma penalize_not_failed uid today r :
  on_date uid today r → ¬ is_failed (penalize uid today r).
Proof.
  destruct r as [i t]. unfold on_date, is_failed, penalize, penalize_row.
  cbn. intros [Hu Hd] [Hc Hp]. case_decide as Hdec.
  - cbn in Hp. done.
  - apply truthy_false in Hc. naive_solver.
Qed.

Lemma penalize_is_completed uid today r :
  is_completed (penalize uid today r) ↔ is_completed r.
Proof.
  destruct r as [i t]. unfold is_completed, penalize. cbn.
  by destruct (penalize_row_columns uid today t) as (_ & _ & -> & _).
Qed.

(** After the rows are marked, the selection of failed tasks is empty. *)
Lemma no_failed_after_mark db uid today :
  filter is_failed
    (get_tasks_by_date (mark_tasks_penalized db uid today) uid today) = [].
Proof.
  apply filter_none. rewrite get_tasks_by_date_marked, Forall_fmap.
  apply Forall_forall. intros r Hr.
  apply elem_of_get_tasks_by_date in Hr as [_ Hr].
  by apply penalize_not_failed.
Qed.

Lemma marked_rows_penalized db uid today r :
  r ∈ get_tasks_by_date (mark_tasks_penalized db uid today) uid today →
  truthy (completed r.2) = false → penalized r.2 = 1.
Proof.
  rewrite get_tasks_by_date_marked, list_elem_of_fmap.
  intros ([i t] & -> & Hr) Hc.
  apply elem_of_get_tasks_by_date in Hr as [_ [Hu Hd]].
  unfold penalize, penalize_row in *. cbn in *.
  case_decide as Hdec; [done|].
  apply truthy_false in Hc. naive_solver.
Qed.

Lemma length_marked db uid today :
  length (get_tasks_by_date (mark_tasks_penalized db uid today) uid today)
  = length (get_tasks_by_date db uid today).
Proof. by rewrite get_tasks_by_date_marked, length_fmap. Qed.

Lemma done_marked db uid today :
  length (filter is_completed
            (get_tasks_by_date (mark_tasks_penalized db uid today) uid today))
  = length (filter is_completed (get_tasks_by_date db uid today)).
Proof.
  rewrite get_tasks_by_date_marked.
  rewrite filter_fmap_stable by apply penalize_is_completed.
  by rewrite length_fmap.
Qed.

(** With nothing selected as failed the totals are 0 and the shield flag is
    written back as read. *)
Lemma settle_no_failed user (tasks : list task_row) today :
  filter is_failed tasks = [] →
  let s := settle user tasks today in
  failed s = [] ∧ total_hp_loss s = 0 ∧ total_pts_loss s = 0
  ∧ new_hp s = Z.max 0 (hp user) ∧ new_pts s = Z.max 0 (points user)
  ∧ shield_now s = shield_active user.
Proof.
  intros Hf. cbv zeta. unfold settle. rewrite Hf. cbn [penalty_loop foldl].
  destruct (_ =? _)%nat; cbn; rewrite ?Z.sub_0_r, andb_false_r; done.
Qed.

Lemma settle_hp_nonneg user (tasks : list task_row) today :
  0 ≤ new_hp (settle user tasks today)
  ∧ 0 ≤ new_pts (settle user tasks today).
Proof.
  unfold settle. destruct (penalty_loop _ _) as [[sh hl] pl].
  destruct (_ =? _)%nat; cbn; lia.
Qed.

End second_run.

(** C4. Settling the same user and date a second time applies no further
    penalty: after the first run every task of the date that is not completed
    has [penalized = 1], so the second run selects no failed task, its totals
    are 0, and hp and points stay as the first run left them. *)
Theorem second_settlement_no_penalty db uid today user :
  get_user db uid = Some user →
  let db1 := (_process_evening db uid today).1 in
  let db2 := (_process_evening db1 uid today).1 in
  (∀ r, r ∈ get_tasks_by_date db1 uid today →
        truthy (completed r.2) = false → penalized r.2 = 1)
  ∧ filter is_failed (get_tasks_by_date db1 uid today) = []
  ∧ (∀ user1, get_user db1 uid = Some user1 →
       let s := settle user1 (get_tasks_by_date db1 uid today) today in
       failed s = [] ∧ total_hp_loss s = 0 ∧ total_pts_loss s = 0)
  ∧ hp <$> get_user db2 uid = hp <$> get_user db1 uid
  ∧ points <$> get_user db2 uid = points <$> get_user db1 uid.
Proof.
  intros Hu. cbv zeta.
  destruct (decide (get_tasks_by_date db uid today = [])) as [He|Hne].
  { rewrite !(process_evening_idle db) by auto. cbn [fst]. rewrite He.
    repeat split; try done. by intros r ?%elem_of_nil. }
  pose proof (get_user_process_evening _ _ _ _ Hne Hu) as Hu1.
  rewrite (process_evening_run _ _ _ _ Hne Hu) in *.
  set (db1 := mark_tasks_penalized _ _ _) in *.
  assert (filter is_failed (get_tasks_by_date db1 uid today) = []) as Hnf
    by apply no_failed_after_mark.
  split; [intros r; apply marked_rows_penalized|].
  split; [done|].
  split.
  { intros user1 _.
    by destruct (settle_no_failed user1 _ today Hnf) as (? & ? & ? & _). }
  destruct (decide (get_tasks_by_date db1 uid today = [])) as [He1|Hne1].
  { by rewrite process_evening_idle by auto. }
  rewrite (get_user_process_evening _ _ _ _ Hne1 Hu1), Hu1.
  rewrite !set_columns_settle. cbn [fmap option_fmap option_map hp points].
  destruct (settle_no_failed
              (mkUser (username user) (level user) (xp user)
                 (new_hp (settle user (get_tasks_by_date db uid today) today))
                 (new_pts (settle user (get_tasks_by_date db uid today) today))
                 (shield_now (settle user (get_tasks_by_date db uid today) today))
                 (new_pepper (settle user (get_tasks_by_date db uid today) today))
                 (new_streak (settle user (get_tasks_by_date db uid today) today))
                 (new_last_perfect_date
                    (settle user (get_tasks_by_date db uid today) today))
                 (created_at user))
              (get_tasks_by_date db1 uid today) today Hnf)
    as (_ & _ & _ & -> & -> & _).
  cbn [hp points].
  destruct (settle_hp_nonneg user (get_tasks_by_date db uid today) today).
  split; f_equal; lia.
Qed.

Lemma second_settlement_no_penalty_witness :
  let db1 := (_process_evening Examples.two_failures 1 20).1 in
  let db2 := (_process_evening db1 1 20).1 in
  filter is_failed (get_tasks_by_date db1 1 20) = []
  ∧ hp <$> get_user db2 1 = hp <$> get_user db1 1
  ∧ points <$> get_user db2 1 = points <$> get_user db1 1.
Proof.
  destruct (second_settlement_no_penalty Examples.two_failures 1 20
              (Examples.player 1 0 100 0 1 0 0))
    as (_ & Hnone & _ & Hhp & Hpts).
  - reflexivity.
  - exact (conj Hnone (conj Hhp Hpts)).
Defined.

(** ** The shop *)

Lemma prices_catalog :
  prices !! "shield"%string = Some 50 ∧ prices !! "pepper"%string = Some 100.
Proof. split; reflexivity. Qed.

(** C9. For the shield (price 50) and the pepper potion (price 100) and a
    stored user: the purchase is refused exactly when [points < price], and
    then the database is returned as it was; otherwise points drop by the
    price, [shield_active] (shield) or [pepper_mode] (potion, whatever the
    streak) becomes 1, and nothing else in the database changes. *)
Theorem shop_buy_spec db from_user user (item : string) (price : Z) :
  get_user db from_user = Some user →
  (item = "shield"%string ∧ price = 50)
  ∨ (item = "pepper"%string ∧ price = 100) →
  let refused :=
    Some (db, [cb_answer (NotEnoughPoints price (points user))]) in
  let bought :=
    mkUser (username user) (level user) (xp user) (hp user)
      (points user - price)
      (if decide (item = "shield"%string) then 1 else shield_active user)
      (if decide (item = "pepper"%string) then 1 else pepper_mode user)
      (pepper_streak user) (last_perfect_date user) (created_at user) in
  (points user < price ↔ shop_buy db from_user item = refused)
  ∧ (price ≤ points user →
     ∃ db' text,
       shop_buy db from_user item
       = Some (db', [message_answer text; cb_answer BoughtAck])
       ∧ get_user db' from_user = Some bought
       ∧ (∀ v, v ≠ from_user → get_user db' v = get_user db v)
       ∧ tasks db' = tasks db ∧ rewards db' = rewards db).
Proof.
  intros Hu Hitem. cbv zeta. unfold shop_buy. rewrite Hu.
  destruct prices_catalog as [Hshield Hpepper].
  assert (default 0 (prices !! item) = price) as ->.
  { destruct Hitem as [[-> ->]|[-> ->]]; by rewrite ?Hshield, ?Hpepper. }
  destruct (Z.ltb_spec (points user) price) as [Hlt|Hge].
  { split; [done | lia]. }
  split.
  { split; [lia|]. by destruct Hitem as [[-> ->]|[-> ->]]. }
  intros _.
  destruct Hitem as [[-> ->]|[-> ->]];
    rewrite ?decide_True by done; rewrite ?decide_False by done;
    rewrite ?decide_True by done.
  all: eexists _, _; split; [done|].
  all: rewrite get_user_update_user by done; rewrite decide_True by done.
  all: rewrite Hu; split; [done|]; split;
    [intros v Hv; rewrite get_user_update_user by done;
     by rewrite decide_False | done].
Qed.

Lemma shop_buy_spec_witness :
  ∃ db' text,
    shop_buy (mkDatabase {[ 1 := Examples.player 1 0 100 120 0 0 0 ]} ∅ ∅)
      1 "pepper"
    = Some (db', [message_answer text; cb_answer BoughtAck])
    ∧ get_user db' 1 = Some (Examples.player 1 0 100 20 0 1 0).
Proof.
  destruct (shop_buy_spec
              (mkDatabase {[ 1 := Examples.player 1 0 100 120 0 0 0 ]} ∅ ∅)
              1 (Examples.player 1 0 100 120 0 0 0) "pepper" 100)
    as [_ Hbuy].
  - reflexivity.
  - right. split; reflexivity.
  - destruct Hbuy as (db' & text & Hrun & Hget & _); [simpl; lia|].
    exists db', text. split; [exact Hrun | exact Hget].
Defined.

(** ** The weekly reward gate *)

Lemma Qlt_bool_spec (a b : Q) : Qlt_bool a b = true ↔ (a < b)%Q.
Proof. unfold Qlt_bool, Qlt. apply Z.ltb_lt. Qed.

(** On floats that are numbers, [rate <= 80] is the negation of
    [rate > 80]. *)
Lemma Qle_bool_negb_lt (a b : Q) : Qle_bool a b = negb (Qlt_bool b a).
Proof. unfold Qle_bool, Qlt_bool. apply Z.leb_antisym. Qed.

(** [weekday] agrees with the calendar: 0001-01-01 (ordinal 1) was a Monday,
    2026-11-01 (ordinal 739921) a Sunday. *)
Example weekday_calendar : weekday 1 = 0 ∧ weekday 739921 = 6.
Proof. split; reflexivity. Qed.

Lemma can_claim_iff today (rate : Q) :
  can_claim today rate = true ↔ weekday today = 6 ∧ (inject_Z 80 < rate)%Q.
Proof.
  unfold can_claim. rewrite andb_true_iff, Z.eqb_eq, Qlt_bool_spec. done.
Qed.

Lemma reward_claim_unfold db from_user rid today now reward :
  get_reward db rid = Some reward →
  reward_claim db from_user rid today now
  = if can_claim today (get_week_completion_rate db from_user today)
    then
      match get_user db from_user with
      | None => None
      | Some user =>
          if points user <? cost reward
          then Some (db, [cb_answer (NotEnoughForReward (cost reward))])
          else
            Some (claim_reward
                    (update_user db from_user
                       [kw_points (points user - cost reward)])
                    rid now,
                  [message_answer (RewardReceived rid (cost reward));
                   cb_answer ReceivedAck])
      end
    else Some (db, [cb_answer ConditionsNotMet]).
Proof.
  intros Hr. unfold reward_claim, can_claim. rewrite Hr, Qle_bool_negb_lt.
  by destruct (weekday today =? 6), (Qlt_bool _ _).
Qed.

(** C8. The claim gate is open if and only if the day is Sunday
    ([weekday() == 6]) and the weekly rate is strictly above 80: closed on
    every other day whatever the rate, closed on Sunday at rate 80 or less.
    [reward_claim] checks the same two conditions, then the funds, and only
    then debits the cost and marks the reward claimed; a refusal leaves the
    database as it was. *)
Theorem claim_gate :
  (∀ today (rate : Q),
     (can_claim today rate = true
      ↔ weekday today = 6 ∧ (inject_Z 80 < rate)%Q)
     ∧ (weekday today ≠ 6 → can_claim today rate = false)
     ∧ ((rate <= inject_Z 80)%Q → can_claim today rate = false))
  ∧ (∀ db from_user rid today now reward user,
       get_reward db rid = Some reward →
       get_user db from_user = Some user →
       let rate := get_week_completion_rate db from_user today in
       (can_claim today rate = false →
        reward_claim db from_user rid today now
        = Some (db, [cb_answer ConditionsNotMet]))
       ∧ (can_claim today rate = true → points user < cost reward →
          reward_claim db from_user rid today now
          = Some (db, [cb_answer (NotEnoughForReward (cost reward))]))
       ∧ (can_claim today rate = true → cost reward ≤ points user →
          ∃ db',
            reward_claim db from_user rid today now
            = Some (db', [message_answer (RewardReceived rid (cost reward));
                          cb_answer ReceivedAck])
            ∧ points <$> get_user db' from_user
              = Some (points user - cost reward)
            ∧ get_reward db' rid = Some (set_claimed now reward)
            ∧ claimed <$> get_reward db' rid = Some 1)).
Proof.
  split.
  - intros today rate. split; [apply can_claim_iff|]. split.
    + intros Hd. apply not_true_is_false.
      rewrite can_claim_iff. by intros [? _].
    + intros Hle. apply not_true_is_false.
      rewrite can_claim_iff. intros [_ Hlt]. by apply Qlt_not_le in Hlt.
  - intros db from_user rid today now reward user Hr Hu. cbv zeta.
    rewrite (reward_claim_unfold _ _ _ _ _ _ Hr), Hu.
    split; [by intros ->|]. split.
    + intros -> Hlt.
      destruct (Z.ltb_spec (points user) (cost reward)) as [?|?]; [done|lia].
    + intros -> Hge.
      destruct (Z.ltb_spec (points user) (cost reward)); [lia|].
      eexists. split; [done|].
      change (get_user (claim_reward ?d _ _) ?v) with (get_user d v).
      rewrite get_user_update_user by done. rewrite decide_True by done.
      rewrite Hu. split; [done|].
      unfold get_reward in *. cbn [claim_reward rewards].
      rewrite rewards_update_user, lookup_alter, decide_True by done.
      by rewrite Hr.
Qed.

Lemma claim_gate_witness :
  ∃ db',
    reward_claim Examples.sunday_all_done 1 3 739921 "21:30"
    = Some (db', [message_answer (RewardReceived 3 40); cb_answer ReceivedAck])
    ∧ points <$> get_user db' 1 = Some 20
    ∧ get_reward db' 3 = Some (mkReward 1 "cinema" 40 1 "21:30")
    ∧ claimed <$> get_reward db' 3 = Some 1.
Proof.
  refine (proj2 (proj2 (proj2 claim_gate Examples.sunday_all_done 1 3
                          739921 "21:30" (mkReward 1 "cinema" 40 0 "")
                          (Examples.player 1 0 100 60 0 0 0) _ _)) _ _).
  - reflexivity.
  - reflexivity.
  - vm_compute. reflexivity.
  - simpl. lia.
Defined.

(** ** The weekly completion rate *)

Lemma elem_of_week_rows db uid today (r : task_row) :
  r ∈ week_rows db uid today
  ↔ tasks db !! r.1 = Some r.2 ∧ task_user_id r.2 = uid
    ∧ today - 7 ≤ created_date r.2 ≤ today.
Proof.
  unfold week_rows, in_week.
  rewrite list_elem_of_filter, elem_of_map_to_list'. tauto.
Qed.

(** No row selected: [total] is 0 and the rate is [0.0]. *)
Lemma week_rate_no_rows db uid today :
  week_rows db uid today = [] → get_week_completion_rate db uid today = 0%Q.
Proof. unfold get_week_completion_rate. by intros ->. Qed.

(** C3, at the input where the code departs from it.  On day 20 the seven
    days up to and including today are the days 14 to 20.  The user's only
    task was created on day 13, so that window holds no task and the rate
    should be 0; the query goes back to [today - 7], selects the task of
    day 13, and the rate is 100. *)
Theorem week_rate_reaches_eighth_day :
  let db := Examples.week_old in
  let today := 20 in
  (∀ r : task_row, r ∈ map_to_list (tasks db) →
                   ¬ (today - 6 ≤ created_date r.2 ≤ today))
  ∧ (week_rows db 1 today).*1 = [7]
  ∧ get_week_completion_rate db 1 today = (100 # 1)%Q.
Proof.
  cbv zeta. split; [|split; reflexivity].
  intros r Hr. apply elem_of_map_to_list' in Hr.
  cbn [Examples.week_old tasks] in Hr.
  apply lookup_singleton_Some in Hr as [_ <-]. cbn. lia.
Qed.

(** ** Repeated invocation *)

(** C2, at the input where the code departs from it.  A user with streak 1
    and no pepper mode whose single task of the day is completed is settled
    twice for that day.  The first run counts the day: streak 2, pepper mode
    0, and it records the day in [last_perfect_date].  The second run, same
    user and date, finds [done == total] again and counts the same day once
    more: streak 3 and pepper mode 1, although no task row has changed. *)
Lemma second_settlement_bumps_streak :
  let db1 := (_process_evening Examples.perfect_day 1 20).1 in
  let db2 := (_process_evening db1 1 20).1 in
  pepper_streak <$> get_user db1 1 = Some 2
  ∧ pepper_mode <$> get_user db1 1 = Some 0
  ∧ last_perfect_date <$> get_user db1 1 = Some (Some 20)
  ∧ tasks db2 = tasks db1
  ∧ pepper_streak <$> get_user db2 1 = Some 3
  ∧ pepper_mode <$> get_user db2 1 = Some 1
  ∧ get_user db2 1 ≠ get_user db1 1.
Proof. vm_compute. repeat split; try reflexivity. discriminate. Qed.

Section repeated.

Implicit Types (db : Database) (uid today : Z) (user : User) (r : task_row).

Lemma task_done_closed db from_user task_id now :
  (get_task db task_id = None
   ∨ ∃ task, get_task db task_id = Some task
             ∧ truthy (completed task) = true) →
  task_done db from_user task_id now
  = Some (db, [cb_answer TaskDoneOrMissing]).
Proof.
  unfold task_done. intros [-> | (task & -> & ->)]; done.
Qed.

Lemma task_done_marks_completed db from_user task_id now db' outs :
  task_done db from_user task_id now = Some (db', outs) →
  get_task db' task_id = None
  ∨ ∃ task, get_task db' task_id = Some task
            ∧ truthy (completed task) = true.
Proof.
  unfold task_done.
  destruct (get_task db task_id) as [task|] eqn:Ht.
  2:{ intros [= <- _]. auto. }
  destruct (truthy (completed task)) eqn:Hc.
  { intros [= <- _]. eauto. }
  destruct (get_user db from_user) as [user|]; [|done].
  destruct (_calc_rewards _ _) as [[xp_g pts_g] hp_g].
  destruct (level_up _ _) as [new_xp new_lvl].
  intros [= <- _]. right. exists (set_completed now task).
  unfold get_task in *. cbn [tasks].
  by rewrite lookup_alter, decide_True, Ht by done.
Qed.

Lemma send_reminder_closed db user_id task_id :
  (get_task db task_id = None
   ∨ ∃ task, get_task db task_id = Some task
             ∧ truthy (completed task) = true) →
  _send_reminder db user_id task_id = (db, []).
Proof.
  unfold _send_reminder. intros [-> | (task & -> & ->)]; done.
Qed.

Lemma penalize_rows_twice uid today (m : gmap Z Task) :
  penalize_row uid today <$> (penalize_row uid today <$> m)
  = penalize_row uid today <$> m.
Proof.
  apply map_eq. intros i. rewrite !lookup_fmap.
  destruct (m !! i) as [t|]; [|done]. cbn. by rewrite penalize_row_idemp.
Qed.

Lemma settle_streak_fields user (tasks : list task_row) today :
  let perfect :=
    (length (filter is_completed tasks) =? length tasks)%nat in
  let s := settle user tasks today in
  new_streak s = (if perfect then pepper_streak user + 1 else 0)
  ∧ new_pepper s
    = (if perfect
       then (if 3 <=? pepper_streak user + 1 then 1 else pepper_mode user)
       else 0)
  ∧ new_last_perfect_date s
    = (if perfect then Some today else last_perfect_date user).
Proof.
  cbv zeta. unfold settle. destruct (penalty_loop _ _) as [[sh hl] pl].
  by destruct (_ =? _)%nat.
Qed.

(** The second of two runs on the same user and date. *)
Lemma second_run db uid today user :
  get_tasks_by_date db uid today ≠ [] →
  get_user db uid = Some user →
  let tasks0 := get_tasks_by_date db uid today in
  let perfect :=
    (length (filter is_completed tasks0) =? length tasks0)%nat in
  let db1 := (_process_evening db uid today).1 in
  let db2 := (_process_evening db1 uid today).1 in
  ∃ user1,
    get_user db1 uid = Some user1
    ∧ tasks db2 = tasks db1
    ∧ get_user db2 uid
      = Some (mkUser (username user1) (level user1) (xp user1) (hp user1)
                (points user1) (shield_active user1)
                (if perfect
                 then (if 3 <=? pepper_streak user1 + 1 then 1
                       else pepper_mode user1)
                 else pepper_mode user1)
                (if perfect then pepper_streak user1 + 1
                 else pepper_streak user1)
                (last_perfect_date user1) (created_at user1)).
Proof.
  intros Hne Hu. cbv zeta.
  pose proof (get_user_process_evening _ _ _ _ Hne Hu) as Hu1.
  rewrite (process_evening_run _ _ _ _ Hne Hu) in *.
  set (s0 := settle user (get_tasks_by_date db uid today) today) in *.
  set (db0 := update_user db uid (settle_kwargs s0)) in *.
  assert (get_tasks_by_date db0 uid today = get_tasks_by_date db uid today)
    as Hsame by apply get_tasks_by_date_update_user.
  pose proof (length_marked db0 uid today) as Hlen.
  pose proof (done_marked db0 uid today) as Hdone.
  pose proof (no_failed_after_mark db0 uid today) as Hnf.
  rewrite Hsame in Hlen, Hdone.
  set (db1 := mark_tasks_penalized db0 uid today) in *.
  assert (get_tasks_by_date db1 uid today ≠ []) as Hne1.
  { intros He. rewrite He in Hlen.
    by destruct (get_tasks_by_date db uid today). }
  set (user1 := set_columns (settle_kwargs s0) user) in *.
  exists user1. split; [exact Hu1|]. split.
  { rewrite (process_evening_run _ _ _ _ Hne1 Hu1).
    cbn [mark_tasks_penalized tasks]. rewrite tasks_update_user.
    subst db1. cbn [mark_tasks_penalized tasks].
    apply penalize_rows_twice. }
  rewrite (get_user_process_evening _ _ _ _ Hne1 Hu1).
  rewrite (set_columns_settle _ user1).
  destruct (settle_no_failed user1 _ today Hnf) as (_ & _ & _ & -> & -> & ->).
  destruct (settle_streak_fields user1 (get_tasks_by_date db1 uid today) today)
    as (-> & -> & ->).
  rewrite Hlen, Hdone.
  destruct (settle_hp_nonneg user (get_tasks_by_date db uid today) today)
    as [Hhp Hpts].
  destruct (settle_streak_fields user (get_tasks_by_date db uid today) today)
    as (Hs & Hp & Hd).
  fold s0 in Hhp, Hpts, Hs, Hp, Hd.
  assert (hp user1 = new_hp s0) as Hhp1 by done.
  assert (points user1 = new_pts s0) as Hpts1 by done.
  assert (last_perfect_date user1 = new_last_perfect_date s0) as Hd1 by done.
  assert (pepper_mode user1 = new_pepper s0) as Hp1 by done.
  assert (pepper_streak user1 = new_streak s0) as Hs1 by done.
  rewrite !Z.max_r by lia.
  do 2 f_equal.
  - destruct (_ =? _)%nat; [done|]. by rewrite Hp1, Hp.
  - destruct (_ =? _)%nat; [done|]. by rewrite Hs1, Hs.
  - rewrite Hd1, Hd. by destruct (_ =? _)%nat.
Qed.

End repeated.

Lemma rewards_process_evening db uid today :
  rewards (_process_evening db uid today).1 = rewards db.
Proof.
  unfold _process_evening.
  destruct (get_tasks_by_date db uid today); [done|].
  destruct (get_user db uid); [|done].
  cbn [fst mark_tasks_penalized rewards]. apply rewards_update_user.
Qed.

(** What a repeated call does.  Task completion and reminders re-check
    [completed] before acting: [task_done] on a completed or missing task
    answers and changes nothing, so a second [task_done] after a first one
    changes nothing, and [_send_reminder] for a completed or missing task
    sends nothing and changes nothing.  A second settlement for the same
    user and date leaves the task rows, the rewards and all other users as
    the first run left them, and leaves the user's username, level, xp, hp,
    points, shield_active, last_perfect_date and created_at unchanged; on a
    day with an uncompleted task (or no task) the whole user row is
    unchanged.  The streak branch alone has no guard: on a day whose tasks
    are all completed the second run adds 1 to pepper_streak again and sets
    pepper_mode to 1 once that streak reaches 3. *)
Theorem repeated_invocation :
  (∀ db from_user task_id now,
     (get_task db task_id = None
      ∨ ∃ task, get_task db task_id = Some task
                ∧ truthy (completed task) = true) →
     task_done db from_user task_id now
     = Some (db, [cb_answer TaskDoneOrMissing]))
  ∧ (∀ db from_user task_id now db' outs now',
       task_done db from_user task_id now = Some (db', outs) →
       task_done db' from_user task_id now'
       = Some (db', [cb_answer TaskDoneOrMissing]))
  ∧ (∀ db user_id task_id,
       (get_task db task_id = None
        ∨ ∃ task, get_task db task_id = Some task
                  ∧ truthy (completed task) = true) →
       _send_reminder db user_id task_id = (db, []))
  ∧ (∀ db uid today,
       let tasks0 := get_tasks_by_date db uid today in
       let total := length tasks0 in
       let done := length (filter is_completed tasks0) in
       let db1 := (_process_evening db uid today).1 in
       let db2 := (_process_evening db1 uid today).1 in
       tasks db2 = tasks db1
       ∧ rewards db2 = rewards db1
       ∧ (∀ v, v ≠ uid → get_user db2 v = get_user db1 v)
       ∧ ∀ user1,
           get_user db1 uid = Some user1 →
           ∃ user2,
             get_user db2 uid = Some user2
             ∧ username user2 = username user1
             ∧ level user2 = level user1
             ∧ xp user2 = xp user1
             ∧ hp user2 = hp user1
             ∧ points user2 = points user1
             ∧ shield_active user2 = shield_active user1
             ∧ last_perfect_date user2 = last_perfect_date user1
             ∧ created_at user2 = created_at user1
             ∧ ((done < total)%nat ∨ total = 0%nat → user2 = user1)
             ∧ ((0 < total)%nat → done = total →
                pepper_streak user2 = pepper_streak user1 + 1
                ∧ pepper_mode user2
                  = if 3 <=? pepper_streak user1 + 1 then 1
                    else pepper_mode user1)).
Proof.
  split; [apply task_done_closed|].
  split.
  { intros db from_user task_id now db' outs now' Hrun.
    apply task_done_closed. by eapply task_done_marks_completed. }
  split; [apply send_reminder_closed|].
  intros db uid today. cbv zeta.
  split; [|split; [by rewrite !rewards_process_evening|split]].
  - destruct (decide (get_tasks_by_date db uid today = [])) as [He|Hne].
    { by rewrite !(process_evening_idle db) by auto. }
    destruct (get_user db uid) as [user|] eqn:Hu.
    2:{ by rewrite !(process_evening_idle db) by auto. }
    by destruct (second_run db uid today user Hne Hu) as (? & _ & ? & _).
  - intros v Hv. by rewrite get_user_process_evening_other.
  - destruct (decide (get_tasks_by_date db uid today = [])) as [He|Hne].
    { rewrite !(process_evening_idle db) by auto. cbn [fst].
      intros user1 Hu1. exists user1. rewrite He. cbn.
      repeat split; try done; lia. }
    destruct (get_user db uid) as [user|] eqn:Hu.
    2:{ rewrite !(process_evening_idle db) by auto. cbn [fst].
        intros user1 Hu1. congruence. }
    destruct (second_run db uid today user Hne Hu) as (user1 & Hu1 & _ & Hu2).
    intros ? [= <-]%(eq_trans (eq_sym Hu1)).
    eexists. split; [exact Hu2|]. cbn.
    do 8 (split; [done|]). split.
    + intros [Hlt|Hz].
      * destruct (Nat.eqb_spec
          (length (filter is_completed (get_tasks_by_date db uid today)))
          (length (get_tasks_by_date db uid today))); [lia|].
        by destruct user1.
      * by destruct (get_tasks_by_date db uid today).
    + intros _ ->. by rewrite Nat.eqb_refl.
Qed.

Lemma repeated_invocation_witness :
  task_done
    (mkDatabase {[ 1 := Examples.player 2 30 100 20 0 0 0 ]}
                {[ 7 := Examples.focus_task 1 0 ]} ∅) 1 7 "22:00"
  = Some (mkDatabase {[ 1 := Examples.player 2 30 100 20 0 0 0 ]}
                     {[ 7 := Examples.focus_task 1 0 ]} ∅,
          [cb_answer TaskDoneOrMissing]).
Proof.
  apply (proj1 repeated_invocation).
  right. exists (Examples.focus_task 1 0). split; reflexivity.
Defined.

(** * Further properties of the engine *)

(** ** Amounts are never negative *)

Lemma reward_table_nonneg task_type (x p h : Z) :
  reward_table !! task_type = Some (x, p, h) → 0 ≤ x ∧ 0 ≤ p ∧ 0 ≤ h.
Proof.
  intros Hl. apply (elem_of_list_to_map_2 (M := gmap string)) in Hl.
  repeat (apply elem_of_cons in Hl as [Hl|Hl];
          [injection Hl as -> -> -> ->; lia|]).
  by apply elem_of_nil in Hl.
Qed.

Lemma calc_rewards_gains_nonneg task_type pepper :
  0 ≤ (_calc_rewards task_type pepper).1.1
  ∧ 0 ≤ (_calc_rewards task_type pepper).1.2
  ∧ 0 ≤ (_calc_rewards task_type pepper).2.
Proof.
  unfold _calc_rewards.
  destruct (reward_table !! task_type) as [[[x p] h]|] eqn:Hl; cbn [default].
  - destruct (reward_table_nonneg _ _ _ _ Hl) as (Hx & Hp & Hh).
    destruct (truthy pepper); cbn -[int_of_float Qmult inject_Z];
      rewrite ?int_of_float_times_1_5, ?int_of_float_times_1;
      repeat split; try done; apply Z.quot_pos; lia.
  - destruct (truthy pepper); cbn -[int_of_float Qmult inject_Z];
      rewrite ?int_of_float_times_1_5, ?int_of_float_times_1; done.
Qed.

Lemma penalty_of_nonneg (t : task_row) :
  0 ≤ hp_penalty t ∧ 0 ≤ pts_penalty t.
Proof.
  unfold hp_penalty, pts_penalty, penalty_of.
  destruct (penalty_table !! task_type t.2) as [[h p]|] eqn:Hl; cbn; [|done].
  apply (elem_of_list_to_map_2 (M := gmap string)) in Hl.
  repeat (apply elem_of_cons in Hl as [Hl|Hl];
          [injection Hl as _ -> ->; lia|]).
  by apply elem_of_nil in Hl.
Qed.

Lemma total_of_nonneg f (l : list task_row) :
  (∀ t, 0 ≤ f t) → 0 ≤ total_of f l.
Proof.
  intros Hf. induction l as [|t l IH]; [done|].
  rewrite total_of_cons. specialize (Hf t). lia.
Qed.

(** What the loop has added when it ends, from any accumulator. *)
Lemma penalty_loop_totals (l : list task_row) :
  ∀ (sh : bool) (h p : Z),
    let r := foldl penalty_step (sh, h, p) l in
    r.2 = p + total_of pts_penalty l
    ∧ h ≤ r.1.2 ≤ h + total_of hp_penalty l
    ∧ (sh = false → r.1.2 = h + total_of hp_penalty l).
Proof.
  induction l as [|t l IH]; intros sh h p; cbn [foldl].
  - unfold total_of. cbn. lia.
  - cbv zeta. rewrite !total_of_cons.
    destruct (penalty_of_nonneg t) as [Hh Hp].
    pose proof (total_of_nonneg hp_penalty l (λ t, proj1 (penalty_of_nonneg t))).
    unfold penalty_step at 2 4 6 8. rewrite penalty_of_columns.
    destruct (sh && (0 <? hp_penalty t)) eqn:Hsh.
    + destruct (IH false (h + 0) (p + pts_penalty t)) as (-> & Hb & He).
      split; [lia|]. split; [lia|].
      intros ->. done.
    + destruct (IH sh (h + hp_penalty t) (p + pts_penalty t)) as (-> & Hb & He).
      split; [lia|]. split; [lia|].
      intros ->. rewrite He by done. lia.
Qed.

Lemma settle_fields user (tasks : list task_row) today :
  let s := settle user tasks today in
  let r := penalty_loop (truthy (shield_active user)) (filter is_failed tasks) in
  failed s = filter is_failed tasks
  ∧ total_hp_loss s = r.1.2
  ∧ total_pts_loss s = r.2
  ∧ new_hp s = Z.max 0 (hp user - r.1.2)
  ∧ new_pts s = Z.max 0 (points user - r.2).
Proof.
  cbv zeta. unfold settle. destruct (penalty_loop _ _) as [[sh hl] pl].
  by destruct (_ =? _)%nat.
Qed.

(** The settlement charges every failed task its points penalty, shield or
    not; the hp it charges lies between 0 and the sum of the hp penalties of
    the failed tasks and is that sum when no shield is active; hp and points
    are lowered by these totals and stop at 0. *)
Theorem settle_charges user (tasks : list task_row) today :
  let s := settle user tasks today in
  failed s = filter is_failed tasks
  ∧ total_pts_loss s = total_of pts_penalty (failed s)
  ∧ 0 ≤ total_hp_loss s ≤ total_of hp_penalty (failed s)
  ∧ (truthy (shield_active user) = false →
     total_hp_loss s = total_of hp_penalty (failed s))
  ∧ new_hp s = Z.max 0 (hp user - total_hp_loss s)
  ∧ new_pts s = Z.max 0 (points user - total_pts_loss s)
  ∧ (0 ≤ hp user → 0 ≤ new_hp s ≤ hp user)
  ∧ (0 ≤ points user → 0 ≤ new_pts s ≤ points user).
Proof.
  cbv zeta.
  destruct (settle_fields user tasks today) as (-> & -> & -> & -> & ->).
  unfold penalty_loop.
  destruct (penalty_loop_totals (filter is_failed tasks)
              (truthy (shield_active user)) 0 0) as (Hp & Hh & Hsh).
  pose proof (total_of_nonneg pts_penalty (filter is_failed tasks)
                (λ t, proj2 (penalty_of_nonneg t))).
  rewrite Hp. repeat split; try lia.
  intros Hoff. rewrite Hoff in *. rewrite Hsh by done. lia.
Qed.

Lemma settle_charges_witness :
  let s := settle (Examples.player 1 0 100 7 0 0 0)
             [(7, Examples.focus_task 0 0); (9, Examples.focus_task 0 0)] 20 in
  total_hp_loss s = 40 ∧ total_pts_loss s = 10
  ∧ 0 ≤ new_hp s ≤ 100 ∧ 0 ≤ new_pts s ≤ 7.
Proof.
  destruct (settle_charges (Examples.player 1 0 100 7 0 0 0)
              [(7, Examples.focus_task 0 0); (9, Examples.focus_task 0 0)] 20)
    as (_ & Hpts & _ & Hhp & _ & _ & Hh & Hp).
  split; [apply Hhp; reflexivity|].
  split; [exact Hpts|].
  split; [apply Hh; simpl; lia | apply Hp; simpl; lia].
Defined.

(** ** The bounds of the stats *)

Lemma db_ok_update_user db uid kwargs :
  db_ok db →
  (∀ u, get_user db uid = Some u → user_ok u → user_ok (set_columns kwargs u)) →
  db_ok (update_user db uid kwargs).
Proof.
  intros Hok Hset v u. destruct kwargs as [|k kwargs]; [apply Hok|].
  rewrite get_user_update_user by done. case_decide as Hv.
  - subst v. destruct (get_user db uid) as [u0|] eqn:Hu; [|done].
    intros [= <-]. apply Hset; [done|]. by eapply Hok.
  - apply Hok.
Qed.

Lemma db_ok_same_users db db' :
  users db' = users db → db_ok db → db_ok db'.
Proof. unfold db_ok, get_user. by intros ->. Qed.

Lemma db_ok_create_user db uid name now :
  db_ok db → db_ok (create_user db uid name now).
Proof.
  intros Hok. unfold create_user.
  destruct (users db !! uid) eqn:Hu; [done|].
  intros v u. unfold get_user. cbn [users].
  rewrite lookup_insert. case_decide.
  - intros [= <-]. unfold user_ok, default_user. cbn. lia.
  - apply Hok.
Qed.

Lemma db_ok_completion db from_user task_id now task user :
  db_ok db →
  get_user db from_user = Some user →
  db_ok
    (update_user (complete_task db task_id now) from_user
       (let '(xp_g, pts_g, hp_g) :=
          _calc_rewards (task_type task) (pepper_mode user) in
        let '(new_xp, new_lvl) := level_up (xp user + xp_g) (level user) in
        [kw_xp new_xp; kw_level new_lvl; kw_hp (Z.min 100 (hp user + hp_g));
         kw_points (points user + pts_g)])).
Proof.
  intros Hok Hu.
  pose proof (calc_rewards_gains_nonneg (task_type task) (pepper_mode user))
    as (Hx & Hp & Hh).
  destruct (_calc_rewards _ _) as [[xp_g pts_g] hp_g]. cbn [fst snd] in *.
  destruct (Hok _ _ Hu) as (Hl & Hxp & Hhp & Hpts).
  pose proof (level_up_bounds (xp user + xp_g) (level user) Hl ltac:(lia))
    as Hb.
  destruct (level_up _ _) as [new_xp new_lvl]. cbn [fst snd] in Hb.
  apply db_ok_update_user; [by apply (db_ok_same_users db)|].
  intros u Hu'. change (get_user (complete_task db task_id now) from_user)
    with (get_user db from_user) in Hu'.
  rewrite Hu in Hu'. injection Hu' as <-. intros _.
  unfold user_ok. cbn. lia.
Qed.

Lemma handler_step_keeps_bounds db db' :
  db_ok db → handler_step db db' → db_ok db'.
Proof.
  intros Hok Hstep. destruct Hstep.
  - by apply db_ok_create_user.
  - unfold _ensure_user. destruct (get_user db user_id); [done|].
    by apply db_ok_create_user.
  - by apply (db_ok_same_users db).
  - unfold task_delete. destruct (get_task db task_id); [|done].
    by apply (db_ok_same_users db).
  - unfold task_done in H.
    destruct (get_task db task_id) as [task|]; [|by injection H as <- _].
    destruct (truthy (completed task)); [by injection H as <- _|].
    destruct (get_user db from_user) as [user|] eqn:Hu; [|done].
    pose proof (db_ok_completion db from_user task_id now task user Hok Hu)
      as Hdone.
    destruct (_calc_rewards _ _) as [[xp_g pts_g] hp_g].
    destruct (level_up _ _) as [new_xp new_lvl].
    by injection H as <- _.
  - unfold reminder_done in H.
    destruct (get_task db task_id) as [task|]; [|by injection H as <- _].
    destruct (truthy (completed task)); [by injection H as <- _|].
    destruct (get_user db from_user) as [user|] eqn:Hu; [|done].
    pose proof (db_ok_completion db from_user task_id now task user Hok Hu)
      as Hdone.
    destruct (_calc_rewards _ _) as [[xp_g pts_g] hp_g].
    destruct (level_up _ _) as [new_xp new_lvl].
    by injection H as <- _.
  - unfold shop_buy in H.
    destruct (get_user db from_user) as [user|] eqn:Hu; [|done].
    destruct (Z.ltb_spec (points user) (default 0 (prices !! item)));
      [by injection H as <- _|].
    assert (0 ≤ default 0 (prices !! item)) as Hprice.
    { destruct (prices !! item) as [price|] eqn:Hl; cbn; [|done].
      apply (elem_of_list_to_map_2 (M := gmap string)) in Hl.
      repeat (apply elem_of_cons in Hl as [Hl|Hl];
              [injection Hl as _ ->; lia|]).
      by apply elem_of_nil in Hl. }
    set (price := default 0 (prices !! item)) in *. clearbody price.
    repeat case_decide; injection H as <- _; try done.
    all: match goal with
         | |- db_ok (mkDatabase (alter (set_columns ?kw) ?u _) _ _) =>
             change (db_ok (update_user db u kw))
         end.
    all: apply db_ok_update_user; [done|].
    all: intros u Hu'; rewrite Hu in Hu'; injection Hu' as <-.
    all: unfold user_ok; cbn; lia.
  - by apply (db_ok_same_users db).
  - by apply (db_ok_same_users db).
  - unfold reward_claim in H.
    destruct (get_reward db rid) as [reward|]; [|by injection H as <- _].
    destruct (negb _ || _); [by injection H as <- _|].
    destruct (get_user db from_user) as [user|] eqn:Hu; [|done].
    destruct (Z.ltb_spec (points user) (cost reward));
      [by injection H as <- _|].
    injection H as <- _.
    apply (db_ok_same_users
             (update_user db from_user [kw_points (points user - cost reward)]));
      [done|].
    apply db_ok_update_user; [done|].
    intros u Hu'. rewrite Hu in Hu'. injection Hu' as <-.
    unfold user_ok. cbn. lia.
  - unfold _process_evening.
    destruct (get_tasks_by_date db uid today) as [|r l] eqn:Ht; [done|].
    destruct (get_user db uid) as [user|] eqn:Hu; [|done]. cbn [fst].
    apply (db_ok_same_users
             (update_user db uid (settle_kwargs (settle user (r :: l) today))));
      [done|].
    apply db_ok_update_user; [done|].
    intros u Hu'. rewrite Hu in Hu'. injection Hu' as <-.
    intros (Hl & Hxp & Hhp & Hpts). rewrite set_columns_settle.
    destruct (settle_hp_nonneg user (r :: l) today) as [Hh0 Hp0].
    destruct (settle_fields user (r :: l) today) as (_ & _ & _ & Hh & _).
    destruct (penalty_loop_totals (filter is_failed (r :: l))
                (truthy (shield_active user)) 0 0) as (_ & Hloss & _).
    unfold penalty_loop in Hh. unfold user_ok. cbn. lia.
Qed.

(** Whatever sequence of handler calls and settlements runs, starting from
    the empty database or from any database within bounds, every user row
    keeps [level >= 1], [0 <= xp < level * 100], [0 <= hp <= 100] and
    [points >= 0]. *)
Theorem stats_stay_in_bounds db db' :
  db_ok empty_db
  ∧ (db_ok db → rtc handler_step db db' → db_ok db').
Proof.
  split; [by intros uid u ?|].
  intros Hok Hrun. induction Hrun as [|db db1 db2 Hstep _ IH]; [done|].
  apply IH. by eapply handler_step_keeps_bounds.
Qed.

Lemma stats_stay_in_bounds_witness :
  db_ok (_process_evening
           (cmd_start empty_db 1 (Some "ann"%string) "09:00").1 1 20).1.
Proof.
  apply (proj2 (stats_stay_in_bounds empty_db _)).
  - apply (proj1 (stats_stay_in_bounds empty_db empty_db)).
  - eapply rtc_l; [apply step_cmd_start|].
    eapply rtc_l; [apply step_process_evening|]. apply rtc_refl.
Defined.

(** ** What the settlement does to the task rows *)

Lemma tasks_process_evening db uid today :
  tasks (_process_evening db uid today).1 = tasks db
  ∨ (get_tasks_by_date db uid today ≠ [] ∧ is_Some (get_user db uid)
     ∧ tasks (_process_evening db uid today).1
       = penalize_row uid today <$> tasks db).
Proof.
  destruct (decide (get_tasks_by_date db uid today = [])) as [He|Hne].
  { left. by rewrite process_evening_idle by auto. }
  destruct (get_user db uid) as [user|] eqn:Hu.
  2:{ left. by rewrite process_evening_idle by auto. }
  right. split; [done|]. split; [done|].
  rewrite (process_evening_run _ _ _ _ Hne Hu).
  cbn [mark_tasks_penalized tasks]. by rewrite tasks_update_user.
Qed.

(** The settlement of [uid] for [today] never adds or removes a task row and
    never changes a column other than [penalized]; a row of another user or
    another date, or a completed row, is left exactly as it was; a row whose
    [penalized] changes was an uncompleted row of [uid] and [today] and now
    has [penalized = 1]. *)
Theorem settlement_task_frame db uid today i :
  let db' := (_process_evening db uid today).1 in
  (λ t, (task_user_id t, title t, task_type t, reminder_time t, completed t,
         created_date t, completed_at t)) <$> tasks db' !! i
  = (λ t, (task_user_id t, title t, task_type t, reminder_time t, completed t,
           created_date t, completed_at t)) <$> tasks db !! i
  ∧ (∀ t, tasks db !! i = Some t →
          task_user_id t ≠ uid ∨ created_date t ≠ today ∨ completed t ≠ 0 →
          tasks db' !! i = Some t)
  ∧ (∀ t t', tasks db !! i = Some t → tasks db' !! i = Some t' →
             penalized t' ≠ penalized t →
             penalized t' = 1 ∧ task_user_id t = uid ∧ created_date t = today
             ∧ completed t = 0).
Proof.
  cbv zeta.
  destruct (tasks_process_evening db uid today) as [->|(_ & _ & ->)].
  { repeat split; try done; congruence. }
  rewrite lookup_fmap. destruct (tasks db !! i) as [t0|]; cbn.
  2:{ repeat split; try done. }
  split; [|split].
  - unfold penalize_row. by case_decide.
  - intros t [= <-] Hno. unfold penalize_row.
    rewrite decide_False; [done|]. intros (? & ? & ?). by destruct Hno as [?|[?|?]].
  - intros t t' [= <-] [= <-] Hp. unfold penalize_row in *.
    case_decide as Hm; [|done]. by destruct Hm as (? & ? & ?).
Qed.

Lemma settlement_task_frame_witness :
  tasks (_process_evening
           (mkDatabase {[ 1 := Examples.player 1 0 100 0 0 0 0 ]}
                       {[ 7 := Examples.focus_task 1 0;
                          9 := Examples.focus_task 0 0 ]} ∅) 1 20).1 !! 7
  = Some (Examples.focus_task 1 0).
Proof.
  refine (proj1 (proj2 (settlement_task_frame
            (mkDatabase {[ 1 := Examples.player 1 0 100 0 0 0 0 ]}
                        {[ 7 := Examples.focus_task 1 0;
                           9 := Examples.focus_task 0 0 ]} ∅) 1 20 7))
            (Examples.focus_task 1 0) _ _).
  - reflexivity.
  - right. right. simpl. lia.
Defined.

(** ** Settlements of different users *)

#[local] Instance by_id_total : Total by_id.
Proof. intros a b. unfold by_id. lia. Qed.

#[local] Instance by_id_transitive : Transitive by_id.
Proof. intros a b c. unfold by_id. lia. Qed.

Lemma get_tasks_by_date_sorted db uid today :
  Sorted by_id (get_tasks_by_date db uid today).
Proof. apply Sorted_merge_sort, _. Qed.

(** [ORDER BY id] and the primary key fix the list that is read: marking
    rows changes the rows in place and nothing else. *)
Lemma get_tasks_by_date_marked_eq db uid today v d :
  get_tasks_by_date (mark_tasks_penalized db uid today) v d
  = penalize uid today <$> get_tasks_by_date db v d.
Proof.
  apply (Sorted_unique_strong by_id).
  - intros x1 x2 Hx1 Hx2 H12 H21.
    rewrite <- get_tasks_by_date_marked in Hx2.
    apply elem_of_get_tasks_by_date in Hx1 as [Hx1 _].
    apply elem_of_get_tasks_by_date in Hx2 as [Hx2 _].
    destruct x1 as [i1 t1], x2 as [i2 t2]. unfold by_id in *. cbn in *.
    assert (i1 = i2) as -> by lia. congruence.
  - apply get_tasks_by_date_sorted.
  - apply (Sorted_fmap _ by_id by_id); [|apply get_tasks_by_date_sorted].
    by intros [i1 t1] [i2 t2].
  - apply get_tasks_by_date_marked.
Qed.

Lemma get_tasks_by_date_process_evening_other db u1 d1 u2 d2 :
  u1 ≠ u2 →
  get_tasks_by_date (_process_evening db u1 d1).1 u2 d2
  = get_tasks_by_date db u2 d2.
Proof.
  intros Hne. unfold _process_evening.
  destruct (get_tasks_by_date db u1 d1); [done|].
  destruct (get_user db u1); [|done]. cbn [fst].
  rewrite get_tasks_by_date_marked_eq, get_tasks_by_date_update_user.
  rewrite <- (list_fmap_id (get_tasks_by_date db u2 d2)) at 2.
  apply Forall_fmap_ext_1, Forall_forall. intros [i t] Hr.
  apply elem_of_get_tasks_by_date in Hr as [_ [Hu _]]. cbn in Hu.
  unfold penalize, penalize_row. cbn.
  rewrite decide_False; [done|]. intros (? & _). congruence.
Qed.

Lemma process_evening_apply db uid today :
  (_process_evening db uid today).1 = apply_settlement db db uid today.
Proof.
  unfold _process_evening, apply_settlement.
  destruct (get_tasks_by_date db uid today); [done|].
  by destruct (get_user db uid).
Qed.

Lemma process_evening_apply_after db u1 d1 u2 d2 :
  u1 ≠ u2 →
  (_process_evening (_process_evening db u1 d1).1 u2 d2).1
  = apply_settlement db (apply_settlement db db u1 d1) u2 d2.
Proof.
  intros Hne. rewrite process_evening_apply.
  rewrite <- (process_evening_apply db u1 d1).
  unfold apply_settlement at 1 2.
  rewrite get_tasks_by_date_process_evening_other by done.
  by rewrite get_user_process_evening_other by done.
Qed.

Lemma penalize_row_commute u1 d1 u2 d2 (t : Task) :
  penalize_row u1 d1 (penalize_row u2 d2 t)
  = penalize_row u2 d2 (penalize_row u1 d1 t).
Proof. unfold penalize_row. by repeat case_decide. Qed.

Lemma mark_update_commute db u1 d1 k1 u2 d2 k2 :
  u1 ≠ u2 →
  mark_tasks_penalized
    (update_user (mark_tasks_penalized (update_user db u1 k1) u1 d1) u2 k2)
    u2 d2
  = mark_tasks_penalized
      (update_user (mark_tasks_penalized (update_user db u2 k2) u2 d2) u1 k1)
      u1 d1.
Proof.
  intros Hne.
  assert (∀ m : gmap Z Task,
            penalize_row u2 d2 <$> (penalize_row u1 d1 <$> m)
            = penalize_row u1 d1 <$> (penalize_row u2 d2 <$> m)) as Htasks.
  { intros m. apply map_eq. intros i. rewrite !lookup_fmap.
    destruct (m !! i); [|done]. cbn. by rewrite penalize_row_commute. }
  destruct k1 as [|a1 k1], k2 as [|a2 k2];
    cbn [update_user]; unfold mark_tasks_penalized;
    cbn [users tasks rewards]; rewrite Htasks; [done..|].
  by rewrite alter_alter_ne.
Qed.

Lemma process_evening_commute db u1 d1 u2 d2 :
  u1 ≠ u2 →
  (_process_evening (_process_evening db u1 d1).1 u2 d2).1
  = (_process_evening (_process_evening db u2 d2).1 u1 d1).1.
Proof.
  intros Hne.
  rewrite process_evening_apply_after by done.
  rewrite (process_evening_apply_after db u2 d2 u1 d1) by done.
  unfold apply_settlement.
  destruct (get_tasks_by_date db u1 d1) eqn:H1,
           (get_tasks_by_date db u2 d2) eqn:H2;
    destruct (get_user db u1), (get_user db u2); try done.
  by apply mark_update_commute.
Qed.

(** Settling two different users, for any two dates, gives the same database
    in either order. *)
Theorem settlements_commute db u1 d1 u2 d2 :
  u1 ≠ u2 →
  (_process_evening (_process_evening db u1 d1).1 u2 d2).1
  = (_process_evening (_process_evening db u2 d2).1 u1 d1).1.
Proof. apply process_evening_commute. Qed.

Lemma settlements_commute_witness :
  (_process_evening (_process_evening MoreExamples.two_players 1 20).1 2 21).1
  = (_process_evening (_process_evening MoreExamples.two_players 2 21).1 1 20).1.
Proof. apply settlements_commute. lia. Defined.

Lemma evening_summary_job_db db user_ids today :
  (evening_summary_job db user_ids today).1
  = foldl (λ d uid, (_process_evening d uid today).1) db user_ids.
Proof.
  unfold evening_summary_job. generalize (@nil Out).
  revert db. induction user_ids as [|uid l IH]; intros db outs; [done|].
  cbn [foldl fst snd].
  destruct (_process_evening db uid today) as [db1 o]. apply IH.
Qed.

Lemma settle_all_permutation today (l k : list Z) :
  l ≡ₚ k → NoDup l →
  ∀ db,
    foldl (λ d uid, (_process_evening d uid today).1) db l
    = foldl (λ d uid, (_process_evening d uid today).1) db k.
Proof.
  induction 1 as [|x l k _ IH|x y l|l k m Hlk IH1 Hkm IH2]; intros Hnd db.
  - done.
  - apply NoDup_cons in Hnd as [_ Hnd]. cbn. by apply IH.
  - apply NoDup_cons in Hnd as [Hy _]. cbn.
    rewrite (process_evening_commute db y today x today); [done|].
    intros ->. apply Hy. by left.
  - rewrite IH1 by done. apply IH2. by rewrite <- Hlk.
Qed.

Lemma settle_all_other today (l : list Z) v :
  v ∉ l →
  ∀ db,
    get_user (foldl (λ d uid, (_process_evening d uid today).1) db l) v
    = get_user db v
    ∧ get_tasks_by_date
        (foldl (λ d uid, (_process_evening d uid today).1) db l) v today
      = get_tasks_by_date db v today.
Proof.
  induction l as [|u l IH]; intros Hv db; [done|].
  apply not_elem_of_cons in Hv as [Hu Hv]. cbn [foldl].
  destruct (IH Hv (_process_evening db u today).1) as [-> ->].
  rewrite get_user_process_evening_other by done.
  by rewrite get_tasks_by_date_process_evening_other by done.
Qed.

Lemma get_user_process_evening_seen db1 db2 v today :
  get_user db1 v = get_user db2 v →
  get_tasks_by_date db1 v today = get_tasks_by_date db2 v today →
  get_user (_process_evening db1 v today).1 v
  = get_user (_process_evening db2 v today).1 v.
Proof.
  intros Hu Ht.
  destruct (decide (get_tasks_by_date db2 v today = [])) as [He|Hne].
  { rewrite !process_evening_idle by (rewrite ?Ht; auto). done. }
  destruct (get_user db2 v) as [user|] eqn:Hu2.
  2:{ rewrite !process_evening_idle by (rewrite ?Hu; auto). cbn. congruence. }
  rewrite (get_user_process_evening db2 v today user) by done.
  rewrite (get_user_process_evening db1 v today user) by (by rewrite ?Ht).
  by rewrite Ht.
Qed.

Lemma settle_all_seen today (l : list Z) v db :
  NoDup l → v ∈ l →
  get_user (foldl (λ d uid, (_process_evening d uid today).1) db l) v
  = get_user (_process_evening db v today).1 v.
Proof.
  intros Hnd Hv. apply list_elem_of_split in Hv as (l1 & l2 & ->).
  apply NoDup_app in Hnd as (_ & Hl1 & Hnd).
  apply NoDup_cons in Hnd as [Hl2 _].
  rewrite foldl_app. cbn [foldl].
  destruct (settle_all_other today l2 v Hl2
              (_process_evening
                 (foldl (λ d uid, (_process_evening d uid today).1) db l1)
                 v today).1) as [-> _].
  assert (v ∉ l1) as Hv1 by (intros ?; by eapply Hl1; [|left]).
  destruct (settle_all_other today l1 v Hv1 db) as [Hu Ht].
  by apply get_user_process_evening_seen.
Qed.

(** The evening job settles every listed user as a lone settlement of the
    starting database would, leaves the users that are not listed alone, and
    ends in the same database whatever order the ids come in. *)
Theorem evening_job_settles_each_user db (user_ids : list Z) today :
  NoDup user_ids →
  let db' := (evening_summary_job db user_ids today).1 in
  (∀ k, k ≡ₚ user_ids → (evening_summary_job db k today).1 = db')
  ∧ (∀ v, v ∈ user_ids →
          get_user db' v = get_user (_process_evening db v today).1 v)
  ∧ (∀ v, v ∉ user_ids → get_user db' v = get_user db v).
Proof.
  intros Hnd. cbv zeta. rewrite !evening_summary_job_db.
  split; [|split].
  - intros k Hk. rewrite evening_summary_job_db.
    symmetry. by apply settle_all_permutation.
  - intros v Hv. by apply settle_all_seen.
  - intros v Hv. by destruct (settle_all_other today user_ids v Hv db).
Qed.

Lemma evening_job_settles_each_user_witness :
  get_user (evening_summary_job Examples.two_failures [2; 1] 20).1 1
  = get_user (_process_evening Examples.two_failures 1 20).1 1.
Proof.
  refine (proj1 (proj2 (evening_job_settles_each_user
                          Examples.two_failures [2; 1] 20 _)) 1 _).
  - apply NoDup_cons. split; [|apply NoDup_singleton].
    intros Hin. apply list_elem_of_singleton in Hin. discriminate.
  - right. left.
Defined.

(** ** The life of a task *)

(** A successful [task_done] sets [completed = 1] and [completed_at] on the
    task and leaves its other columns, [penalized] included, alone; it adds
    the points and the heal (capped at 100) of [_calc_rewards] to the caller,
    whoever owns the task, runs the level loop on the xp, and changes no
    other task, user, reward or column. *)
Theorem task_done_effect db from_user task_id now task user :
  get_task db task_id = Some task →
  truthy (completed task) = false →
  get_user db from_user = Some user →
  let gain := _calc_rewards (task_type task) (pepper_mode user) in
  ∃ db' outs,
    task_done db from_user task_id now = Some (db', outs)
    ∧ get_task db' task_id
      = Some (mkTask (task_user_id task) (title task) (task_type task)
                (reminder_time task) 1 (created_date task) now
                (penalized task))
    ∧ (∀ i, i ≠ task_id → get_task db' i = get_task db i)
    ∧ rewards db' = rewards db
    ∧ (∀ v, v ≠ from_user → get_user db' v = get_user db v)
    ∧ get_user db' from_user
      = Some (mkUser (username user)
                (level_up (xp user + gain.1.1) (level user)).2
                (level_up (xp user + gain.1.1) (level user)).1
                (Z.min 100 (hp user + gain.2))
                (points user + gain.1.2)
                (shield_active user) (pepper_mode user) (pepper_streak user)
                (last_perfect_date user) (created_at user)).
Proof.
  intros Ht Hc Hu. cbv zeta.
  destruct (task_done_open _ _ _ now _ _ Ht Hc Hu) as [outs ->].
  destruct (_calc_rewards _ _) as [[xp_g pts_g] hp_g].
  destruct (level_up _ _) as [new_xp new_lvl].
  eexists _, outs. split; [done|].
  unfold get_task in *. rewrite tasks_update_user, rewards_update_user.
  cbn [complete_task tasks rewards].
  split; [by rewrite lookup_alter, decide_True, Ht by done|].
  split; [intros i Hi; by rewrite lookup_alter, decide_False by done|].
  split; [done|].
  split.
  - intros v Hv. rewrite get_user_update_user by done.
    by rewrite decide_False by done.
  - rewrite get_user_update_user by done. rewrite decide_True by done.
    unfold get_user in *. cbn [complete_task users]. by rewrite Hu.
Qed.

Lemma task_done_effect_witness :
  ∃ db' outs,
    task_done (mkDatabase {[ 1 := Examples.player 1 0 98 0 0 1 0 ]}
                          {[ 7 := mkTask 2 "walk" "wish" "" 0 20 "" 1 ]} ∅)
              1 7 "18:00"
    = Some (db', outs)
    ∧ get_task db' 7 = Some (mkTask 2 "walk" "wish" "" 1 20 "18:00" 1)
    ∧ get_user db' 1 = Some (Examples.player 1 7 100 3 0 1 0).
Proof.
  destruct (task_done_effect
              (mkDatabase {[ 1 := Examples.player 1 0 98 0 0 1 0 ]}
                          {[ 7 := mkTask 2 "walk" "wish" "" 0 20 "" 1 ]} ∅)
              1 7 "18:00" (mkTask 2 "walk" "wish" "" 0 20 "" 1)
              (Examples.player 1 0 98 0 0 1 0))
    as (db' & outs & Hrun & Htask & _ & _ & _ & Huser).
  - reflexivity.
  - reflexivity.
  - reflexivity.
  - exists db', outs. split; [exact Hrun|]. split; [exact Htask|exact Huser].
Defined.

(** The completion button under a reminder does to the database exactly what
    [task_done] does, refusals and the missing-user error included. *)
Theorem reminder_done_as_task_done db from_user task_id now :
  fst <$> reminder_done db from_user task_id now
  = fst <$> task_done db from_user task_id now.
Proof.
  unfold reminder_done, task_done.
  destruct (get_task db task_id) as [task|]; [|done].
  destruct (truthy (completed task)); [done|].
  destruct (get_user db from_user) as [user|]; [|done].
  destruct (_calc_rewards _ _) as [[xp_g pts_g] hp_g].
  by destruct (level_up _ _).
Qed.

Lemma get_tasks_by_date_keys db uid today (r1 r2 : task_row) :
  r1 ∈ get_tasks_by_date db uid today →
  r2 ∈ get_tasks_by_date db uid today →
  r1.1 = r2.1 → r1 = r2.
Proof.
  intros [H1 _]%elem_of_get_tasks_by_date [H2 _]%elem_of_get_tasks_by_date.
  destruct r1, r2. cbn in *. intros ->. congruence.
Qed.

(** A task added under an id above every id of the table, which is what
    AUTOINCREMENT assigns, is read back as the last task of its user and
    date, open and unpenalized; the lists of other users and dates, the users
    and the rewards are as before. *)
Theorem add_task_appends db user_id title0 task_type0 reminder created rowid :
  (∀ i, is_Some (tasks db !! i) → i < rowid) →
  let row := mkTask user_id title0 task_type0 (default "" reminder) 0 created
               "" 0 in
  let db' :=
    (add_task db user_id title0 task_type0 reminder created rowid).1 in
  get_task db' rowid = Some row
  ∧ is_failed (rowid, row)
  ∧ get_tasks_by_date db' user_id created
    = get_tasks_by_date db user_id created ++ [(rowid, row)]
  ∧ (∀ v d, v ≠ user_id ∨ d ≠ created →
            get_tasks_by_date db' v d = get_tasks_by_date db v d)
  ∧ users db' = users db ∧ rewards db' = rewards db.
Proof.
  intros Hmax. cbv zeta. cbn [add_task fst].
  assert (tasks db !! rowid = None) as Hfresh.
  { destruct (tasks db !! rowid) eqn:E; [|done].
    specialize (Hmax rowid). rewrite E in Hmax.
    pose proof (Hmax ltac:(done)). lia. }
  set (row := mkTask _ _ _ _ _ _ _ _).
  set (db' := mkDatabase _ _ _).
  assert (∀ v d r, r ∈ get_tasks_by_date db' v d
                   ↔ r ∈ get_tasks_by_date db v d
                     ∨ (r = (rowid, row) ∧ v = user_id ∧ d = created))
    as Hmem.
  { intros v d [i t]. rewrite !elem_of_get_tasks_by_date. unfold on_date.
    cbn [db' tasks fst snd]. rewrite lookup_insert_Some. split.
    - intros [[[Hi Ht]|[Hi Ht]] [Hv Hd]]; [right|by left].
      subst i t. by cbn in Hv, Hd.
    - intros [[Ht [Hv Hd]]|[Heq [Hv Hd]]].
      + split; [right; split; [|done]|done]. intros <-. congruence.
      + injection Heq as -> ->. subst v d. by split; [left|]. }
  split; [apply lookup_insert_eq|]. split; [done|]. split; [|split; [|done]].
  - apply (Sorted_unique_strong by_id).
    + intros x1 x2 Hx1 Hx2 H12 H21.
      assert (x2 ∈ get_tasks_by_date db' user_id created) as Hx2'.
      { apply Hmem. apply elem_of_app in Hx2 as [?|Hx2]; [by left|right].
        by apply list_elem_of_singleton in Hx2. }
      apply (get_tasks_by_date_keys db' user_id created); [done..|].
      unfold by_id in *. lia.
    + apply get_tasks_by_date_sorted.
    + apply Sorted.StronglySorted_Sorted, StronglySorted_app_2.
      * intros [i t] x2 [Hi _]%elem_of_get_tasks_by_date
          ->%list_elem_of_singleton. unfold by_id. cbn in *.
        assert (i < rowid) by (apply Hmax; by rewrite Hi). lia.
      * apply Sorted_StronglySorted; [apply _|].
        apply get_tasks_by_date_sorted.
      * repeat constructor.
    + apply NoDup_Permutation.
      * unfold get_tasks_by_date. rewrite merge_sort_Permutation.
        apply NoDup_filter, NoDup_map_to_list.
      * apply NoDup_app. split; [|split; [|apply NoDup_singleton]].
        -- unfold get_tasks_by_date. rewrite merge_sort_Permutation.
           apply NoDup_filter, NoDup_map_to_list.
        -- intros [i t] [Hi _]%elem_of_get_tasks_by_date
             [= -> ->]%list_elem_of_singleton. cbn in Hi. congruence.
      * intros r. rewrite Hmem, elem_of_app, list_elem_of_singleton.
        split; [intros [?|[? _]]; auto | intros [?|?]; auto].
  - intros v d Hvd. apply (Sorted_unique_strong by_id).
    + intros x1 x2 Hx1 Hx2 H12 H21.
      assert (x2 ∈ get_tasks_by_date db' v d) as Hx2' by (apply Hmem; by left).
      apply (get_tasks_by_date_keys db' v d); [done..|].
      unfold by_id in *. lia.
    + apply get_tasks_by_date_sorted.
    + apply get_tasks_by_date_sorted.
    + apply NoDup_Permutation.
      * unfold get_tasks_by_date. rewrite merge_sort_Permutation.
        apply NoDup_filter, NoDup_map_to_list.
      * unfold get_tasks_by_date. rewrite merge_sort_Permutation.
        apply NoDup_filter, NoDup_map_to_list.
      * intros r. rewrite Hmem.
        split; [intros [?|(_ & ? & ?)]; [done|by destruct Hvd] | auto].
Qed.

Lemma add_task_appends_witness :
  get_tasks_by_date
    (add_task Examples.near_level_up 1 "call mum" "wish" None 20 8).1 1 20
  = get_tasks_by_date Examples.near_level_up 1 20
    ++ [(8, mkTask 1 "call mum" "wish" "" 0 20 "" 0)].
Proof.
  refine (proj1 (proj2 (proj2 (add_task_appends Examples.near_level_up 1
                                 "call mum" "wish" None 20 8 _)))).
  intros i [t Ht]. cbn [Examples.near_level_up tasks] in Ht.
  apply lookup_singleton_Some in Ht as [<- _]. lia.
Defined.

(** After [task_delete] the task is gone and every other row, user and
    reward is as before: it is read by no later task list, so no settlement
    penalizes it; [task_done] on it is refused without any reward and a
    reminder for it sends nothing. *)
Theorem task_delete_effect db task_id :
  let db' := (task_delete db task_id).1 in
  get_task db' task_id = None
  ∧ (∀ i, i ≠ task_id → get_task db' i = get_task db i)
  ∧ users db' = users db ∧ rewards db' = rewards db
  ∧ (∀ v d (r : task_row),
       r ∈ get_tasks_by_date db' v d
       ↔ r ∈ get_tasks_by_date db v d ∧ r.1 ≠ task_id)
  ∧ (∀ u now, task_done db' u task_id now
              = Some (db', [cb_answer TaskDoneOrMissing]))
  ∧ (∀ u, _send_reminder db' u task_id = (db', [])).
Proof.
  cbv zeta.
  assert (tasks (task_delete db task_id).1 = delete task_id (tasks db)
          ∧ users (task_delete db task_id).1 = users db
          ∧ rewards (task_delete db task_id).1 = rewards db) as (Ht & Hu & Hr).
  { unfold task_delete, get_task.
    destruct (tasks db !! task_id) eqn:E; [done|].
    cbn [fst]. by rewrite delete_id. }
  assert (get_task (task_delete db task_id).1 task_id = None) as Hgone.
  { unfold get_task. by rewrite Ht, lookup_delete_eq. }
  split; [done|].
  split; [intros i Hi; unfold get_task; by rewrite Ht, lookup_delete_ne|].
  split; [done|]. split; [done|]. split; [|split].
  - intros v d [i t]. rewrite !elem_of_get_tasks_by_date, Ht.
    rewrite lookup_delete_Some. cbn. split.
    + intros [[? ?] ?]. done.
    + intros [[? ?] ?]. done.
  - intros u now. apply task_done_closed. by left.
  - intros u. apply send_reminder_closed. by left.
Qed.

(** ** Rewards *)

Lemma elem_of_get_rewards db v i :
  i ∈ get_rewards db v
  ↔ ∃ r, rewards db !! i = Some r ∧ reward_user_id r = v ∧ claimed r = 0.
Proof.
  unfold get_rewards.
  rewrite merge_sort_Permutation, list_elem_of_fmap. split.
  - intros ([j r] & -> & Hr). apply list_elem_of_filter in Hr as [Hp Hr].
    apply elem_of_map_to_list in Hr. by exists r.
  - intros (r & Hr & Hp). exists (i, r). split; [done|].
    apply list_elem_of_filter. split; [done|]. by apply elem_of_map_to_list.
Qed.

Lemma week_rate_same_tasks db db' uid today :
  tasks db' = tasks db →
  get_week_completion_rate db' uid today
  = get_week_completion_rate db uid today.
Proof.
  intros Ht. unfold get_week_completion_rate, week_rows. by rewrite Ht.
Qed.

(** A claim that goes through takes the reward off the list of unclaimed
    rewards and leaves every other reward on the list it was on. *)
Theorem reward_claim_delists db from_user rid today now reward user :
  get_reward db rid = Some reward →
  get_user db from_user = Some user →
  can_claim today (get_week_completion_rate db from_user today) = true →
  cost reward ≤ points user →
  ∃ db' outs,
    reward_claim db from_user rid today now = Some (db', outs)
    ∧ ∀ v i, i ∈ get_rewards db' v ↔ i ∈ get_rewards db v ∧ i ≠ rid.
Proof.
  intros Hr Hu Hgate Hfunds.
  rewrite (reward_claim_unfold _ _ _ _ _ _ Hr), Hgate, Hu.
  destruct (Z.ltb_spec (points user) (cost reward)); [lia|].
  eexists _, _. split; [done|]. intros v i.
  rewrite !elem_of_get_rewards. cbn [claim_reward rewards].
  rewrite rewards_update_user. unfold get_reward in Hr. split.
  - intros (r & Hl & Hv & Hc). apply lookup_alter_Some in Hl.
    destruct Hl as [(-> & r0 & _ & ->)|[Hne Hl]]; [done|].
    split; [by exists r|done].
  - intros [(r & Hl & Hv & Hc) Hne]. exists r.
    by rewrite lookup_alter_ne.
Qed.

Lemma reward_claim_delists_witness :
  ∃ db' outs,
    reward_claim Examples.sunday_all_done 1 3 739921 "21:30"
    = Some (db', outs)
    ∧ ∀ v i, i ∈ get_rewards db' v
             ↔ i ∈ get_rewards Examples.sunday_all_done v ∧ i ≠ 3.
Proof.
  apply (reward_claim_delists Examples.sunday_all_done 1 3 739921 "21:30"
           (mkReward 1 "cinema" 40 0 "") (Examples.player 1 0 100 60 0 0 0)).
  - reflexivity.
  - reflexivity.
  - vm_compute. reflexivity.
  - simpl. lia.
Defined.

(** [reward_claim] does not read [claimed]: with the gate open and funds for
    two, claiming the same reward twice in a row goes through twice and
    debits the cost twice. *)
Theorem reward_claim_twice db from_user rid today now now' reward user :
  get_reward db rid = Some reward →
  get_user db from_user = Some user →
  can_claim today (get_week_completion_rate db from_user today) = true →
  cost reward ≤ points user →
  cost reward ≤ points user - cost reward →
  ∃ db1 db2,
    reward_claim db from_user rid today now
    = Some (db1, [message_answer (RewardReceived rid (cost reward));
                  cb_answer ReceivedAck])
    ∧ claimed <$> get_reward db1 rid = Some 1
    ∧ reward_claim db1 from_user rid today now'
      = Some (db2, [message_answer (RewardReceived rid (cost reward));
                    cb_answer ReceivedAck])
    ∧ points <$> get_user db2 from_user
      = Some (points user - cost reward - cost reward).
Proof.
  intros Hr Hu Hgate Hfunds Hfunds2.
  rewrite (reward_claim_unfold _ _ _ _ _ _ Hr), Hgate, Hu.
  destruct (Z.ltb_spec (points user) (cost reward)); [lia|].
  set (db1 := claim_reward _ _ _).
  assert (get_reward db1 rid = Some (set_claimed now reward)) as Hr1.
  { unfold get_reward in *. cbn [db1 claim_reward rewards].
    by rewrite rewards_update_user, lookup_alter, decide_True, Hr by done. }
  assert (get_user db1 from_user
          = Some (set_columns [kw_points (points user - cost reward)] user))
    as Hu1.
  { change (get_user db1 from_user)
      with (get_user (update_user db from_user
                        [kw_points (points user - cost reward)]) from_user).
    rewrite get_user_update_user by done.
    by rewrite decide_True, Hu by done. }
  assert (tasks db1 = tasks db) as Ht1 by done.
  exists db1. eexists. split; [done|]. split; [by rewrite Hr1|].
  rewrite (reward_claim_unfold _ _ _ _ _ _ Hr1).
  rewrite (week_rate_same_tasks db db1) by done. rewrite Hgate, Hu1.
  cbn [set_claimed cost set_columns foldl set_column points].
  destruct (Z.ltb_spec (points user - cost reward) (cost reward)); [lia|].
  split; [done|].
  change (get_user (claim_reward ?d _ _) ?v) with (get_user d v).
  rewrite get_user_update_user by done.
  by rewrite decide_True, Hu1 by done.
Qed.

Lemma reward_claim_twice_witness :
  ∃ db1 db2,
    reward_claim
      (mkDatabase {[ 1 := Examples.player 1 0 100 90 0 0 0 ]}
                  {[ 7 := mkTask 1 "write report" "focus" "" 1 739921 "" 0 ]}
                  {[ 3 := mkReward 1 "cinema" 40 0 "" ]})
      1 3 739921 "21:30"
    = Some (db1, [message_answer (RewardReceived 3 40); cb_answer ReceivedAck])
    ∧ claimed <$> get_reward db1 3 = Some 1
    ∧ reward_claim db1 1 3 739921 "21:31"
      = Some (db2, [message_answer (RewardReceived 3 40);
                    cb_answer ReceivedAck])
    ∧ points <$> get_user db2 1 = Some (90 - 40 - 40).
Proof.
  apply (reward_claim_twice
           (mkDatabase {[ 1 := Examples.player 1 0 100 90 0 0 0 ]}
                       {[ 7 := mkTask 1 "write report" "focus" "" 1 739921 "" 0 ]}
                       {[ 3 := mkReward 1 "cinema" 40 0 "" ]})
           1 3 739921 "21:30" "21:31"
           (mkReward 1 "cinema" 40 0 "") (Examples.player 1 0 100 90 0 0 0)).
  - reflexivity.
  - reflexivity.
  - vm_compute. reflexivity.
  - simpl. lia.
  - simpl. lia.
Defined.

(** The list of unclaimed rewards follows [add_reward] and [reward_del]: a
    reward added under an unused id appears on its owner's list and on no
    other, and [reward_del] takes the id off every list, whoever asks. *)
Theorem reward_list_add_del db user_id title0 cost0 rowid :
  rewards db !! rowid = None →
  let db1 := (add_reward db user_id title0 cost0 rowid).1 in
  let db2 := (reward_del db1 rowid).1 in
  (∀ v i, i ∈ get_rewards db1 v
          ↔ i ∈ get_rewards db v ∨ (i = rowid ∧ v = user_id))
  ∧ (∀ v i, i ∈ get_rewards db2 v ↔ i ∈ get_rewards db v)
  ∧ db2 = db
  ∧ (∀ rid v, rid ∉ get_rewards (reward_del db rid).1 v).
Proof.
  intros Hfresh. cbv zeta. unfold reward_del, delete_reward, add_reward.
  cbn [fst users tasks rewards].
  assert (delete rowid (<[rowid:=mkReward user_id title0 cost0 0 ""]> (rewards db))
          = rewards db) as Hback.
  { rewrite delete_insert_eq. by apply delete_id. }
  split; [|split; [|split]].
  - intros v i. rewrite !elem_of_get_rewards. cbn [rewards]. split.
    + intros (r & Hl & Hv & Hc). apply lookup_insert_Some in Hl.
      destruct Hl as [[<- <-]|[Hne Hl]]; [by right|]. left. by exists r.
    + intros [(r & Hl & Hv & Hc)|[-> ->]].
      * exists r. rewrite lookup_insert_ne; [done|]. intros <-. congruence.
      * eexists. by rewrite lookup_insert_eq.
  - intros v i. rewrite !elem_of_get_rewards. cbn [rewards]. by rewrite Hback.
  - cbn [users tasks]. rewrite Hback. by destruct db.
  - intros rid v. rewrite elem_of_get_rewards. cbn [rewards].
    intros (r & Hl & _). by rewrite lookup_delete_eq in Hl.
Qed.

Lemma reward_list_add_del_witness :
  4 ∈ get_rewards (add_reward Examples.sunday_all_done 1 "concert" 70 4).1 1
  ∧ (reward_del (add_reward Examples.sunday_all_done 1 "concert" 70 4).1 4).1
    = Examples.sunday_all_done.
Proof.
  destruct (reward_list_add_del Examples.sunday_all_done 1 "concert" 70 4)
    as (Hadd & _ & Hdel & _); [reflexivity|].
  split; [|exact Hdel]. apply Hadd. right. split; reflexivity.
Defined.

(** ** Registration *)

(** [cmd_start] and [_ensure_user] never touch a user that is already
    stored: the database is returned as it was and [_ensure_user] hands back
    the stored row.  For an unknown id they store the default row (level 1,
    xp 0, hp 100, no points, no items) under that id and change nothing
    else; [_ensure_user] always returns the row that is stored afterwards. *)
Theorem registration_keeps_progress db user_id username0 now :
  let started := (cmd_start db user_id username0 now).1 in
  let ensured := _ensure_user db user_id username0 now in
  ensured.1 = started
  ∧ ensured.2 = get_user started user_id
  ∧ is_Some ensured.2
  ∧ (is_Some (get_user db user_id) → started = db)
  ∧ (get_user db user_id = None →
     get_user started user_id
     = Some (mkUser (default "" username0) 1 0 100 0 0 0 0 None now))
  ∧ (∀ v, v ≠ user_id → get_user started v = get_user db v)
  ∧ tasks started = tasks db ∧ rewards started = rewards db.
Proof.
  cbv zeta. unfold _ensure_user, cmd_start, create_user, get_user.
  cbn [fst snd].
  destruct (users db !! user_id) as [u|] eqn:Hu; cbn [fst snd users].
  - rewrite Hu. by repeat split.
  - rewrite !lookup_insert_eq.
    repeat split; try done; try (by intros [? ?]).
    intros v Hv. by rewrite lookup_insert_ne.
Qed.

Lemma registration_keeps_progress_witness :
  (cmd_start Examples.overfull 1 (Some "ann2"%string) "10:00").1
  = Examples.overfull.
Proof.
  refine (proj1 (proj2 (proj2 (proj2 (registration_keeps_progress
            Examples.overfull 1 (Some "ann2"%string) "10:00")))) _).
  eexists. reflexivity.
Defined.

(** ** The shop, any item *)

(** [shop_buy] never touches a task, a reward or another user, whatever the
    item.  An item that is not in the catalog costs 0: for a stored user
    with non-negative points the call answers as a purchase and changes
    nothing at all. *)
Theorem shop_buy_frame db from_user (item : string) user :
  get_user db from_user = Some user →
  ∃ db' outs,
    shop_buy db from_user item = Some (db', outs)
    ∧ tasks db' = tasks db ∧ rewards db' = rewards db
    ∧ (∀ v, v ≠ from_user → get_user db' v = get_user db v)
    ∧ (item ≠ "shield"%string → item ≠ "pepper"%string →
       db' = db
       ∧ (0 ≤ points user → outs = [cb_answer BoughtAck])).
Proof.
  intros Hu. unfold shop_buy. rewrite Hu.
  destruct (Z.ltb_spec (points user) (default 0 (prices !! item))) as [Hlt|Hge].
  { eexists _, _. split; [done|]. repeat split; try done.
    intros Hok. exfalso.
    assert (prices !! item = None) as Hnone.
    { destruct (prices !! item) as [price|] eqn:Hl; [|done].
      apply (elem_of_list_to_map_2 (M := gmap string)) in Hl.
      repeat (apply elem_of_cons in Hl as [Hl|Hl];
              [injection Hl as -> _; done|]).
      by apply elem_of_nil in Hl. }
    rewrite Hnone in Hlt. cbn in Hlt. lia. }
  repeat case_decide; eexists _, _; (split; [done|]);
    rewrite ?tasks_update_user, ?rewards_update_user;
    (split; [done|]); (split; [done|]); split; try done.
  all: intros v Hv; rewrite get_user_update_user by done.
  all: by rewrite decide_False.
Qed.

Lemma shop_buy_frame_witness :
  ∃ db' outs,
    shop_buy Examples.near_level_up 1 "sword" = Some (db', outs)
    ∧ db' = Examples.near_level_up ∧ outs = [cb_answer BoughtAck].
Proof.
  destruct (shop_buy_frame Examples.near_level_up 1 "sword"
              (Examples.player 1 80 100 0 0 0 0))
    as (db' & outs & Hrun & _ & _ & _ & Hunknown).
  - reflexivity.
  - exists db', outs. split; [exact Hrun|].
    destruct Hunknown as [Hdb Houts]; [discriminate|discriminate|].
    split; [exact Hdb|]. apply Houts. simpl. lia.
Defined.

(** ** MarkdownV2 escaping ([utils.py]) *)

Lemma escape_chars_app (s1 s2 : string) :
  escape_chars (s1 +:+ s2) = escape_chars s1 +:+ escape_chars s2.
Proof.
  induction s1 as [|c s1 IH]; simpl; [done|].
  destruct (md2_special c); simpl; by rewrite IH.
Qed.

Lemma escape_chars_escaped (s : string) : md2_escaped (escape_chars s).
Proof.
  induction s as [|c s IH]; cbn; [constructor|].
  destruct (md2_special c) eqn:Hc; by constructor.
Qed.

Lemma escape_chars_inj (s1 : string) :
  ∀ s2, escape_chars s1 = escape_chars s2 → s1 = s2.
Proof.
  assert (md2_special backslash = true) as Hb by reflexivity.
  induction s1 as [|c1 s1 IH]; intros [|c2 s2]; cbn.
  - done.
  - by destruct (md2_special c2).
  - by destruct (md2_special c1).
  - destruct (md2_special c1) eqn:H1, (md2_special c2) eqn:H2;
      intros [= ]; subst; try congruence.
    + f_equal. by apply IH.
    + f_equal. by apply IH.
Qed.

(** [escape_md] leaves no special character unescaped, loses nothing (two
    different texts never escape to the same text), can be applied piece by
    piece, and returns a text without special characters as it is. *)
Theorem escape_md_sound (s1 s2 : string) :
  md2_escaped (escape_md (Some s1))
  ∧ (escape_md (Some s1) = escape_md (Some s2) → s1 = s2)
  ∧ escape_md (Some (s1 +:+ s2))
    = escape_md (Some s1) +:+ escape_md (Some s2)
  ∧ (Forall (λ c, md2_special c = false) (String.list_ascii_of_string s1) →
     escape_md (Some s1) = s1).
Proof.
  cbn [escape_md]. split; [apply escape_chars_escaped|].
  split; [apply escape_chars_inj|]. split; [apply escape_chars_app|].
  induction s1 as [|c s1 IH]; cbn; [done|].
  intros [Hc Hs]%Forall_cons. rewrite Hc. f_equal. by apply IH.
Qed.

Lemma escape_md_sound_witness :
  escape_md (Some "buy milk"%string) = "buy milk"%string.
Proof.
  apply (escape_md_sound "buy milk" "").
  vm_compute. repeat constructor.
Defined.

(** ** Reminder times ([utils.py]) *)

Lemma parse_time_rem_str_all :
  forallb (λ hour,
             forallb (λ minute,
                        bool_decide (parse_time (rem_str hour minute)
                                     = Some (hour, minute)))
                     (seqZ 0 60))
          (seqZ 0 24) = true.
Proof. vm_compute. reflexivity. Qed.

Lemma parse_time_checked text hour minute :
  parse_time text = Some (hour, minute) → 0 ≤ hour ≤ 23 ∧ 0 ≤ minute ≤ 59.
Proof.
  unfold parse_time.
  assert (∀ h m,
            (if (0 <=? h) && (h <=? 23) && (0 <=? m) && (m <=? 59)
             then Some (h, m) else None) = Some (hour, minute) →
            0 ≤ hour ≤ 23 ∧ 0 ≤ minute ≤ 59) as Hchecked.
  { intros h m. destruct (_ && _) eqn:Hb; [|done]. intros [= <- <-].
    repeat (apply andb_true_iff in Hb as [Hb ?]). lia. }
  destruct (strip _) as [|c1 [|c2 [|c3 [|c4 [|c5 [|c6 l]]]]]]; try done.
  - destruct (_ && _); [apply Hchecked|done].
  - destruct (_ && _); [apply Hchecked|done].
Qed.

(** Whatever [parse_time] returns is an hour from 0 to 23 and a minute from
    0 to 59, and every such time can be entered: the text [HH:MM] that
    [task_add_reminder] renders for it is accepted and gives it back. *)
Theorem parse_time_range text hour minute :
  (parse_time text = Some (hour, minute) →
   0 ≤ hour ≤ 23 ∧ 0 ≤ minute ≤ 59)
  ∧ (0 ≤ hour ≤ 23 → 0 ≤ minute ≤ 59 →
     parse_time (rem_str hour minute) = Some (hour, minute)).
Proof.
  split; [apply parse_time_checked|].
  - intros Hh Hm. pose proof parse_time_rem_str_all as Hall.
    rewrite forallb_forall in Hall.
    assert (hour ∈ seqZ 0 24) as Hin by (apply elem_of_seqZ; lia).
    apply list_elem_of_In, Hall in Hin. rewrite forallb_forall in Hin.
    assert (minute ∈ seqZ 0 60) as Hin' by (apply elem_of_seqZ; lia).
    apply list_elem_of_In, Hin in Hin'. by apply bool_decide_eq_true in Hin'.
Qed.

Lemma parse_time_range_witness :
  parse_time (rem_str 7 5) = Some (7, 5).
Proof. apply (parse_time_range "" 7 5); lia. Defined.

(** ** Ideas *)

Lemma status_cycle_values (st : string) :
  default "new"%string (STATUS_CYCLE !! st)
  = (if decide (st = "new"%string) then "wip"
     else if decide (st = "wip"%string) then "done"
     else "new")%string.
Proof.
  destruct (STATUS_CYCLE !! st) as [nxt|] eqn:Hl.
  - apply (elem_of_list_to_map_2 (M := gmap string)) in Hl.
    repeat (apply elem_of_cons in Hl as [Hl|Hl];
            [by injection Hl as -> ->|]).
    by apply elem_of_nil in Hl.
  - repeat case_decide; subst; try done; by vm_compute in Hl.
Qed.

(** Pressing an idea moves its status along new, wip, done and back to new;
    three presses bring a stored idea with one of these statuses back to the
    database it started from; an idea with any other status goes to [new];
    after a press the status is always one of the three, and no other idea
    or category has changed. *)
Theorem idea_status_cycle ib idea_id idea :
  get_idea ib idea_id = Some idea →
  let press := λ b, (idea_cycle_status b idea_id).1 in
  status <$> get_idea (press ib) idea_id
  = Some (if decide (status idea = "new"%string) then "wip"
          else if decide (status idea = "wip"%string) then "done"
          else "new")%string
  ∧ (status idea ∈ ["new"; "wip"; "done"]%string →
     press (press (press ib)) = ib)
  ∧ (∀ i, i ≠ idea_id → get_idea (press ib) i = get_idea ib i)
  ∧ idea_categories (press ib) = idea_categories ib.
Proof.
  intros Hi. cbv beta zeta.
  assert (∀ b i0,
            get_idea b idea_id = Some i0 →
            (idea_cycle_status b idea_id).1
            = mkIdeaBase (idea_categories b)
                (<[idea_id := mkIdea (idea_user_id i0) (category_id i0)
                                (idea_title i0)
                                (default "new"%string
                                   (STATUS_CYCLE !! status i0))
                                (idea_created_at i0)]> (ideas b))) as Hpress.
  { intros b i0 Hb. unfold idea_cycle_status. rewrite Hb. cbn [fst].
    unfold update_idea_status. f_equal. unfold get_idea in Hb.
    apply map_eq. intros j. rewrite lookup_alter, lookup_insert.
    case_decide; subst; [by rewrite Hb|done]. }
  rewrite (Hpress ib idea Hi), status_cycle_values.
  split; [unfold get_idea; cbn [ideas]; by rewrite lookup_insert_eq|].
  split; [|split; [|done]].
  - intros Hst. destruct idea as [u c t st cr]. cbn [status] in *.
    cbn [idea_user_id category_id idea_title idea_created_at].
    set (st1 := if decide (st = "new"%string) then "wip"%string
                else if decide (st = "wip"%string) then "done"%string
                else "new"%string).
    set (ib1 := mkIdeaBase _ (<[idea_id := mkIdea u c t st1 cr]> _)).
    assert (get_idea ib1 idea_id = Some (mkIdea u c t st1 cr)) as H1
      by apply lookup_insert_eq.
    rewrite (Hpress ib1 _ H1), status_cycle_values.
    cbn [ib1 ideas idea_categories idea_user_id category_id idea_title status
         idea_created_at].
    set (st2 := if decide (st1 = "new"%string) then "wip"%string
                else if decide (st1 = "wip"%string) then "done"%string
                else "new"%string).
    set (ib2 := mkIdeaBase _ (<[idea_id := mkIdea u c t st2 cr]> _)).
    assert (get_idea ib2 idea_id = Some (mkIdea u c t st2 cr)) as H2
      by apply lookup_insert_eq.
    rewrite (Hpress ib2 _ H2), status_cycle_values.
    cbn [ib2 ideas idea_categories idea_user_id category_id idea_title status
         idea_created_at].
    rewrite !insert_insert_eq.
    destruct ib as [cats ids]. cbn [ideas idea_categories] in *. f_equal.
    apply insert_id. unfold get_idea in Hi. cbn in Hi. rewrite Hi.
    subst st2 st1.
    repeat (apply elem_of_cons in Hst as [->|Hst]; [done|]).
    by apply elem_of_nil in Hst.
  - intros i Hne. unfold get_idea. cbn [ideas].
    by rewrite lookup_insert_ne.
Qed.

Lemma idea_status_cycle_witness :
  let ib := mkIdeaBase {[ 1 := mkCategory 1 "garden" "x" "" ]}
                       {[ 4 := mkIdea 1 1 "plant a tree" "wip" "" ]} in
  (idea_cycle_status
     (idea_cycle_status (idea_cycle_status ib 4).1 4).1 4).1 = ib.
Proof.
  refine (proj1 (proj2 (idea_status_cycle
            (mkIdeaBase {[ 1 := mkCategory 1 "garden" "x" "" ]}
                        {[ 4 := mkIdea 1 1 "plant a tree" "wip" "" ]})
            4 (mkIdea 1 1 "plant a tree" "wip" "") _)) _).
  - reflexivity.
  - right. left.
Defined.

(** Deleting a category deletes exactly its ideas with it: afterwards the
    category is gone, no idea points to it, and every other category and
    every idea of another category, with its count, is as before. *)
Theorem delete_category_cascades ib cat_id :
  let ib' := delete_category ib cat_id in
  get_category ib' cat_id = None
  ∧ count_ideas_in_category ib' cat_id = 0%nat
  ∧ (∀ i idea, get_idea ib' i = Some idea
               ↔ get_idea ib i = Some idea ∧ category_id idea ≠ cat_id)
  ∧ (∀ c, c ≠ cat_id →
          get_category ib' c = get_category ib c
          ∧ count_ideas_in_category ib' c = count_ideas_in_category ib c).
Proof.
  cbv zeta. unfold get_category, get_idea, delete_category.
  cbn [idea_categories ideas].
  assert (∀ i idea,
            filter (λ kv : Z * Idea, category_id kv.2 ≠ cat_id) (ideas ib) !! i
            = Some idea
            ↔ ideas ib !! i = Some idea ∧ category_id idea ≠ cat_id) as Hl.
  { intros i idea. by rewrite map_lookup_filter_Some. }
  split; [apply lookup_delete_eq|]. split; [|split; [done|]].
  - unfold count_ideas_in_category. cbn [ideas].
    apply length_zero_iff_nil, filter_none, Forall_forall.
    intros [i idea] Hin%elem_of_map_to_list. apply Hl in Hin as [_ Hne]. done.
  - intros c Hc. split; [by apply lookup_delete_ne|].
    unfold count_ideas_in_category. cbn [ideas].
    apply Permutation_length, NoDup_Permutation.
    + apply NoDup_filter, NoDup_map_to_list.
    + apply NoDup_filter, NoDup_map_to_list.
    + intros [i idea]. rewrite !list_elem_of_filter, !elem_of_map_to_list, Hl.
      cbn. split; [tauto|]. intros [-> ?]. done.
Qed.

(** ** Restoring reminders *)

Lemma rem_str_shape_all :
  forallb (λ hour,
    forallb (λ minute,
      match rem_str hour minute with
      | String a (String b (String sep (String c (String d EmptyString)))) =>
          is_digit a && is_digit b && bool_decide (sep = ":"%char)
          && is_digit c && is_digit d
          && (10 * digit_value a + digit_value b =? hour)
          && (10 * digit_value c + digit_value d =? minute)
      | _ => false
      end) (seqZ 0 60)) (seqZ 0 24) = true.
Proof. vm_compute. reflexivity. Qed.

Lemma rem_str_shape hour minute :
  0 ≤ hour ≤ 23 → 0 ≤ minute ≤ 59 →
  ∃ a b c d,
    rem_str hour minute
    = String a (String b (String ":" (String c (String d EmptyString))))
    ∧ is_digit a = true ∧ is_digit b = true
    ∧ is_digit c = true ∧ is_digit d = true
    ∧ 10 * digit_value a + digit_value b = hour
    ∧ 10 * digit_value c + digit_value d = minute.
Proof.
  intros Hh Hm. pose proof rem_str_shape_all as Hall.
  rewrite forallb_forall in Hall.
  assert (hour ∈ seqZ 0 24) as Hin by (apply elem_of_seqZ; lia).
  apply list_elem_of_In, Hall in Hin. rewrite forallb_forall in Hin.
  assert (minute ∈ seqZ 0 60) as Hin' by (apply elem_of_seqZ; lia).
  apply list_elem_of_In, Hin in Hin'.
  destruct (rem_str hour minute) as [|a [|b [|sep [|c [|d [|e s]]]]]];
    try done.
  apply andb_true_iff in Hin' as [Hin' Hmin].
  apply andb_true_iff in Hin' as [Hin' Hhour].
  apply andb_true_iff in Hin' as [Hin' Hd].
  apply andb_true_iff in Hin' as [Hin' Hc].
  apply andb_true_iff in Hin' as [Hin' Hsep].
  apply andb_true_iff in Hin' as [Ha Hb].
  apply bool_decide_eq_true in Hsep as ->.
  exists a, b, c, d. repeat split; try done; lia.
Qed.

Lemma digit_not_colon (c : ascii) :
  is_digit c = true → bool_decide (c = ":"%char) = false.
Proof.
  intros Hc. apply bool_decide_eq_false. intros ->. by vm_compute in Hc.
Qed.

(** What [task_add_reminder] stores is read back as the same time. *)
Lemma parse_reminder_rem_str py_int hour minute :
  int_reads_two_digits py_int →
  0 ≤ hour ≤ 23 → 0 ≤ minute ≤ 59 →
  parse_reminder py_int (rem_str hour minute) = Some (hour, minute).
Proof.
  intros Hint Hh Hm.
  destruct (rem_str_shape hour minute Hh Hm)
    as (a & b & c & d & -> & Ha & Hb & Hc & Hd & <- & <-).
  assert (split_colon
            (String a (String b (String ":" (String c (String d EmptyString)))))
          = [String a (String b EmptyString);
             String c (String d EmptyString)]) as Hsplit.
  { cbn [split_colon]. rewrite (digit_not_colon a), (digit_not_colon b),
      (digit_not_colon c), (digit_not_colon d) by done. reflexivity. }
  unfold parse_reminder. rewrite Hsplit. cbn. by rewrite !Hint.
Qed.

Section restore.

Variable py_int : string → option Z.
Variable db : Database.
Variable now : Moment.

Implicit Types (p : Z * task_row) (jobs : gmap Z Job).

Lemma restore_reminders_flat user_ids (acc : option (gmap Z Job)) :
  foldl (λ acc uid,
           foldl (restore_task py_int now uid) acc
                 (get_tasks_by_date db uid (m_date now)))
        acc user_ids
  = foldl (λ acc p, restore_task py_int now p.1 acc p.2) acc (passes db now user_ids).
Proof.
  revert acc. induction user_ids as [|uid l IH]; intros acc; [done|].
  unfold passes. cbn [foldl mbind list_bind]. rewrite foldl_app, <- IH.
  f_equal. generalize (get_tasks_by_date db uid (m_date now)). clear.
  intros rows. revert acc. induction rows as [|r rows IH]; intros acc; [done|].
  cbn. apply IH.
Qed.

Lemma elem_of_passes user_ids p :
  p ∈ passes db now user_ids
  ↔ p.1 ∈ user_ids ∧ tasks db !! p.2.1 = Some p.2.2
    ∧ task_user_id p.2.2 = p.1 ∧ created_date p.2.2 = m_date now.
Proof.
  unfold passes. rewrite list_elem_of_bind. split.
  - intros (uid & Hp & Huid). apply list_elem_of_fmap in Hp as (r & -> & Hr).
    apply elem_of_get_tasks_by_date in Hr as (? & ? & ?). done.
  - intros (Huid & Ht & Hu & Hd). exists p.1. split; [|done].
    apply list_elem_of_fmap. exists p.2. split; [by destruct p|].
    by apply elem_of_get_tasks_by_date.
Qed.

Lemma passes_keys user_ids p q :
  p ∈ passes db now user_ids → q ∈ passes db now user_ids → p.2.1 = q.2.1 → p = q.
Proof.
  intros (_ & Hp & Hpu & _)%elem_of_passes (_ & Hq & Hqu & _)%elem_of_passes.
  destruct p as [u [i t]], q as [v [k s]]. cbn in *. intros ->.
  assert (t = s) as -> by congruence. congruence.
Qed.

Lemma restore_passes (L : list (Z * task_row)) jobs :
  (∀ p, p ∈ L → due_job py_int now p.1 p.2 ≠ None) →
  (∀ p q, p ∈ L → q ∈ L → p.2.1 = q.2.1 → p = q) →
  ∃ jobs',
    foldl (λ acc p, restore_task py_int now p.1 acc p.2) (Some jobs) L
    = Some jobs'
    ∧ ∀ i,
        (∀ p job, p ∈ L → p.2.1 = i →
                  due_job py_int now p.1 p.2 = Some (Some job) →
                  jobs' !! i = Some job)
        ∧ ((∀ p, p ∈ L → p.2.1 = i →
                 due_job py_int now p.1 p.2 = Some None) →
           jobs' !! i = jobs !! i).
Proof.
  induction L as [|p L IH] using rev_ind; intros Htotal Hkeys.
  { exists jobs. split; [done|]. intros i. split; [|done].
    by intros p job ?%elem_of_nil. }
  destruct IH as (jobs1 & Hrun & Hjobs1).
  { intros q Hq. apply Htotal, elem_of_app. by left. }
  { intros q1 q2 H1 H2. apply Hkeys; apply elem_of_app; by left. }
  rewrite foldl_app, Hrun. cbn [foldl restore_task].
  assert (p ∈ L ++ [p]) as Hp
    by (apply elem_of_app; right; by apply list_elem_of_singleton).
  destruct (due_job py_int now p.1 p.2) as [[job|]|] eqn:Hdue;
    [| |by destruct (Htotal p Hp)].
  - eexists. split; [done|]. intros i. split.
    + intros q job' Hq Hi Hq'. destruct (decide (p.2.1 = i)) as [Hpi|Hpi].
      * assert (q = p) as -> by (apply Hkeys; [done..|congruence]).
        rewrite Hpi, lookup_insert_eq. congruence.
      * rewrite lookup_insert_ne by done.
        apply elem_of_app in Hq as [Hq|Hq%list_elem_of_singleton];
          [|congruence].
        by apply (Hjobs1 i) with q.
    + intros Hskip. destruct (decide (p.2.1 = i)) as [Hpi|Hpi].
      * specialize (Hskip p Hp Hpi). congruence.
      * rewrite lookup_insert_ne by done. apply Hjobs1.
        intros q Hq. apply Hskip, elem_of_app. by left.
  - exists jobs1. split; [done|]. intros i. split.
    + intros q job' Hq Hi Hq'.
      apply elem_of_app in Hq as [Hq|Hq%list_elem_of_singleton];
        [|congruence].
      by apply (Hjobs1 i) with q.
    + intros Hskip. apply Hjobs1.
      intros q Hq. apply Hskip, elem_of_app. by left.
Qed.

Lemma passes_due_or_not (L : list (Z * task_row)) i :
  (∀ p, p ∈ L → due_job py_int now p.1 p.2 ≠ None) →
  (∃ p job, p ∈ L ∧ p.2.1 = i
            ∧ due_job py_int now p.1 p.2 = Some (Some job))
  ∨ (∀ p, p ∈ L → p.2.1 = i → due_job py_int now p.1 p.2 = Some None).
Proof.
  induction L as [|q L IH]; intros Htotal.
  { right. by intros p ?%elem_of_nil. }
  destruct IH as [(p & job & Hp & Hi & Hd)|Hnone].
  { intros p Hp. apply Htotal. by right. }
  { left. exists p, job. split; [by right|done]. }
  destruct (decide (q.2.1 = i)) as [Hq|Hq].
  - destruct (due_job py_int now q.1 q.2) as [[job|]|] eqn:Hd.
    + left. exists q, job. split; [by left|done].
    + right. intros p [->|Hp]%elem_of_cons; [done|by apply Hnone].
    + destruct (Htotal q); [by left|done].
  - right. intros p [->|Hp]%elem_of_cons; [done|by apply Hnone].
Qed.

End restore.

Lemma two_digit_int_reads : int_reads_two_digits two_digit_int.
Proof. intros a b Ha Hb. unfold two_digit_int. by rewrite Ha, Hb. Qed.

Lemma rem_str_not_empty hour minute :
  0 ≤ hour ≤ 23 → 0 ≤ minute ≤ 59 → rem_str hour minute ≠ EmptyString.
Proof.
  intros Hh Hm. by destruct (rem_str_shape hour minute Hh Hm)
    as (a & b & c & d & -> & _).
Qed.

Lemma due_job_rem_str py_int now uid i (t : Task) hour minute :
  int_reads_two_digits py_int →
  0 ≤ hour ≤ 23 → 0 ≤ minute ≤ 59 →
  reminder_time t = rem_str hour minute →
  due_job py_int now uid (i, t)
  = if negb (truthy (completed t))
       && later (mkMoment (m_date now) hour minute 0 0) now
    then Some (Some (mkJob (mkMoment (m_date now) hour minute 0 0) uid i))
    else Some None.
Proof.
  intros Hint Hh Hm Hr. unfold due_job. cbn [fst snd]. rewrite Hr.
  rewrite (bool_decide_eq_false_2 _ (rem_str_not_empty _ _ Hh Hm)).
  rewrite parse_reminder_rem_str by done.
  destruct (truthy (completed t)); [done|]. cbn [orb negb andb].
  unfold replace_time.
  destruct (Z.leb_spec 0 hour), (Z.leb_spec hour 23),
    (Z.leb_spec 0 minute), (Z.leb_spec minute 59); try lia.
  cbn [andb]. by destruct (later _ _).
Qed.

Lemma due_job_no_time py_int now uid i (t : Task) :
  reminder_time t = EmptyString → due_job py_int now uid (i, t) = Some None.
Proof.
  intros Hr. unfold due_job. cbn [fst snd]. rewrite Hr.
  rewrite bool_decide_eq_true_2 by done. by rewrite orb_true_r.
Qed.

Lemma due_job_never_raises py_int db now uid i (t : Task) :
  int_reads_two_digits py_int → reminders_well_formed db →
  tasks db !! i = Some t → due_job py_int now uid (i, t) ≠ None.
Proof.
  intros Hint Hwf Ht. destruct (Hwf i t Ht) as [Hr|(h & m & Hh & Hm & Hr)].
  - by rewrite due_job_no_time.
  - rewrite (due_job_rem_str py_int now uid i t h m) by done.
    by destruct (_ && _).
Qed.

Lemma restore_reminders_due py_int db user_ids now jobs i t hour minute :
  int_reads_two_digits py_int →
  reminders_well_formed db →
  tasks db !! i = Some t →
  task_user_id t ∈ user_ids → created_date t = m_date now →
  0 ≤ hour ≤ 23 → 0 ≤ minute ≤ 59 →
  reminder_time t = rem_str hour minute →
  ∃ jobs',
    restore_reminders py_int db user_ids now jobs = Some jobs'
    ∧ jobs' !! i
      = if negb (truthy (completed t))
           && later (mkMoment (m_date now) hour minute 0 0) now
        then Some (mkJob (mkMoment (m_date now) hour minute 0 0)
                     (task_user_id t) i)
        else jobs !! i.
Proof.
  intros Hint Hwf Ht Hu Hd Hh Hm Hr. unfold restore_reminders. cbv zeta.
  rewrite restore_reminders_flat.
  assert (∀ p, p ∈ passes db now user_ids →
               due_job py_int now p.1 p.2 ≠ None) as Htotal.
  { intros [u [k s]] (_ & Hs & _)%elem_of_passes.
    by apply (due_job_never_raises py_int db). }
  destruct (restore_passes py_int now (passes db now user_ids) jobs Htotal
              (passes_keys db now user_ids)) as (jobs' & Hrun & Hjobs').
  exists jobs'. split; [done|].
  assert ((task_user_id t, (i, t)) ∈ passes db now user_ids) as Hp
    by by apply elem_of_passes.
  pose proof (due_job_rem_str py_int now (task_user_id t) i t hour minute
                Hint Hh Hm Hr) as Hdue.
  destruct (_ && _).
  - by apply (Hjobs' i) with (task_user_id t, (i, t)).
  - apply Hjobs'. intros q Hq Hi.
    by rewrite (passes_keys db now user_ids q _ Hq Hp Hi).
Qed.

(** With the reminder times the handlers store, [restore_reminders] never
    raises.  Afterwards a task of a listed user and of today that is open
    and whose time is still ahead has exactly the job at that time, with its
    user and its id; a completed task or one whose time has passed, and every
    task without a time, of another day or of a user that is not listed,
    keeps whatever job was registered under its id.  Restoring again changes
    nothing. *)
Theorem restore_reminders_pending py_int db user_ids now jobs :
  int_reads_two_digits py_int →
  reminders_well_formed db →
  ∃ jobs',
    restore_reminders py_int db user_ids now jobs = Some jobs'
    ∧ (∀ i t hour minute,
         tasks db !! i = Some t →
         task_user_id t ∈ user_ids → created_date t = m_date now →
         0 ≤ hour ≤ 23 → 0 ≤ minute ≤ 59 →
         reminder_time t = rem_str hour minute →
         jobs' !! i
         = if negb (truthy (completed t))
              && later (mkMoment (m_date now) hour minute 0 0) now
           then Some (mkJob (mkMoment (m_date now) hour minute 0 0)
                        (task_user_id t) i)
           else jobs !! i)
    ∧ (∀ i,
         (∀ t, tasks db !! i = Some t →
               task_user_id t ∉ user_ids ∨ created_date t ≠ m_date now
               ∨ reminder_time t = EmptyString) →
         jobs' !! i = jobs !! i)
    ∧ restore_reminders py_int db user_ids now jobs' = Some jobs'.
Proof.
  intros Hint Hwf. unfold restore_reminders. cbv zeta.
  rewrite restore_reminders_flat.
  assert (∀ p, p ∈ passes db now user_ids →
               due_job py_int now p.1 p.2 ≠ None) as Htotal.
  { intros [u [i t]] (_ & Ht & _)%elem_of_passes.
    by apply (due_job_never_raises py_int db). }
  destruct (restore_passes py_int now (passes db now user_ids) jobs Htotal
              (passes_keys db now user_ids)) as (jobs' & Hrun & Hjobs').
  exists jobs'. split; [done|]. split; [|split].
  - intros i t hour minute Ht Hu Hd Hh Hm Hr.
    assert ((task_user_id t, (i, t)) ∈ passes db now user_ids) as Hp
      by by apply elem_of_passes.
    pose proof (due_job_rem_str py_int now (task_user_id t) i t hour minute
                  Hint Hh Hm Hr) as Hdue.
    destruct (_ && _).
    + by apply (Hjobs' i) with (task_user_id t, (i, t)).
    + apply Hjobs'. intros q Hq Hi.
      by rewrite (passes_keys db now user_ids q _ Hq Hp Hi).
  - intros i Hi. apply Hjobs'.
    intros [u [k t]] (Hu & Ht & Htu & Hd)%elem_of_passes Hk.
    cbn in *. subst k u.
    destruct (Hi t Ht) as [?|[?|Hr]]; [done..|].
    by apply due_job_no_time.
  - rewrite restore_reminders_flat.
    destruct (restore_passes py_int now (passes db now user_ids) jobs' Htotal
                (passes_keys db now user_ids)) as (jobs2 & -> & Hjobs2).
    f_equal. apply map_eq. intros i.
    destruct (passes_due_or_not py_int now (passes db now user_ids) i Htotal)
      as [(p & job & Hp & Hi & Hdue)|Hnone].
    + rewrite (proj1 (Hjobs2 i) p job) by done.
      by rewrite (proj1 (Hjobs' i) p job).
    + by apply Hjobs2.
Qed.

Lemma restore_reminders_pending_witness :
  ∃ jobs',
    restore_reminders two_digit_int MoreExamples.two_reminders [1]
      MoreExamples.noon ∅
    = Some jobs'
    ∧ jobs' !! 9 = Some (mkJob (mkMoment 20 22 30 0 0) 1 9)
    ∧ jobs' !! 7 = None
    ∧ restore_reminders two_digit_int MoreExamples.two_reminders [1]
        MoreExamples.noon jobs'
      = Some jobs'.
Proof.
  destruct (restore_reminders_pending two_digit_int MoreExamples.two_reminders
              [1] MoreExamples.noon ∅)
    as (jobs' & Hrun & Hdue & _ & Hagain).
  - apply two_digit_int_reads.
  - intros i t Ht. right.
    cbn [MoreExamples.two_reminders tasks] in Ht.
    apply lookup_insert_Some in Ht as [[<- <-]|[_ Ht]].
    + exists 9, 0. split; [lia|]. split; [lia|]. reflexivity.
    + apply lookup_singleton_Some in Ht as [<- <-].
      exists 22, 30. split; [lia|]. split; [lia|]. reflexivity.
  - exists jobs'. split; [exact Hrun|]. split; [|split; [|exact Hagain]].
    + apply (Hdue 9 (mkTask 1 "read" "important" "22:30" 0 20 "" 0) 22 30);
        try reflexivity; try lia. left.
    + apply (Hdue 7 (mkTask 1 "stretch" "wish" "09:00" 0 20 "" 0) 9 0);
        try reflexivity; try lia. left.
Defined.

(** ** A reminder from creation to restart *)

Lemma reminders_well_formed_add db user_id title0 task_type0 reminder created
    rowid :
  reminders_well_formed db →
  (reminder = None
   ∨ ∃ hour minute, 0 ≤ hour ≤ 23 ∧ 0 ≤ minute ≤ 59
                    ∧ reminder = Some (rem_str hour minute)) →
  reminders_well_formed
    (add_task db user_id title0 task_type0 reminder created rowid).1.
Proof.
  intros Hwf Hrem i t. cbn [add_task fst tasks].
  intros [[<- <-]|[_ Ht]]%lookup_insert_Some; [|by eapply Hwf].
  cbn [reminder_time]. destruct Hrem as [->|(h & m & Hh & Hm & ->)].
  - by left.
  - right. by exists h, m.
Qed.

(** A text that [parse_time] rejects changes nothing.  An accepted text
    stores the task with the reminder time rendered as [HH:MM] and keeps all
    stored times well formed; with a scheduler the job is registered when
    the time is still ahead, and it is the very job that a restart, which
    loses all jobs and restores them from the database, registers again.
    Without a scheduler no job is registered until such a restart. *)
Theorem task_add_reminder_survives_restart py_int db scheduler from_user
    name task_type0 text now rowid user_ids :
  int_reads_two_digits py_int →
  reminders_well_formed db →
  from_user ∈ user_ids →
  let today := m_date now in
  let r := task_add_reminder db scheduler from_user name task_type0 text
             today now rowid in
  match parse_time text with
  | None => r = (db, scheduler, [emit_message TimeFormatInvalid])
  | Some (hour, minute) =>
      let job := mkJob (mkMoment today hour minute 0 0) from_user rowid in
      let ahead := later (mkMoment today hour minute 0 0) now in
      get_task r.1.1 rowid
      = Some (mkTask from_user name task_type0 (rem_str hour minute) 0 today
                "" 0)
      ∧ reminders_well_formed r.1.1
      ∧ r.1.2
        = (λ jobs, if ahead then <[rowid := job]> jobs else jobs)
          <$> scheduler
      ∧ ∃ restored,
          restore_reminders py_int r.1.1 user_ids now ∅ = Some restored
          ∧ restored !! rowid = if ahead then Some job else None
  end.
Proof.
  intros Hint Hwf Hu. cbv zeta. unfold task_add_reminder.
  destruct (parse_time text) as [[hour minute]|] eqn:Hparse; [|done].
  destruct (parse_time_checked text hour minute Hparse) as [Hh Hm].
  cbn [add_task fst snd].
  set (db1 := mkDatabase _ _ _).
  set (row := mkTask _ _ _ _ _ _ _ _).
  assert (tasks db1 !! rowid = Some row) as Hrow by apply lookup_insert_eq.
  assert (reminders_well_formed db1) as Hwf1.
  { apply (reminders_well_formed_add db from_user name task_type0
             (Some (rem_str hour minute)) (m_date now) rowid Hwf).
    right. by exists hour, minute. }
  split; [done|]. split; [done|]. split.
  - destruct scheduler as [jobs|]; [|done]. cbn.
    unfold replace_time.
    destruct (Z.leb_spec 0 hour), (Z.leb_spec hour 23),
      (Z.leb_spec 0 minute), (Z.leb_spec minute 59); try lia.
    cbn [andb]. by destruct (later _ _).
  - destruct (restore_reminders_due py_int db1 user_ids now ∅ rowid row hour
                minute Hint Hwf1 Hrow Hu eq_refl Hh Hm eq_refl)
      as (restored & Hrun & Hdue).
    exists restored. split; [done|]. rewrite Hdue.
    cbn [row completed task_user_id]. by destruct (later _ _).
Qed.

Lemma two_reminders_well_formed :
  reminders_well_formed MoreExamples.two_reminders.
Proof.
  intros i t Ht. right.
  cbn [MoreExamples.two_reminders tasks] in Ht.
  apply lookup_insert_Some in Ht as [[<- <-]|[_ Ht]].
  - exists 9, 0. split; [lia|]. split; [lia|]. reflexivity.
  - apply lookup_singleton_Some in Ht as [<- <-].
    exists 22, 30. split; [lia|]. split; [lia|]. reflexivity.
Qed.

Lemma task_add_reminder_survives_restart_witness :
  let r := task_add_reminder MoreExamples.two_reminders (Some ∅) 1 "gym"
             "focus" " 23.15 " 20 MoreExamples.noon 10 in
  get_task r.1.1 10 = Some (mkTask 1 "gym" "focus" "23:15" 0 20 "" 0)
  ∧ r.1.2 = Some {[ 10 := mkJob (mkMoment 20 23 15 0 0) 1 10 ]}
  ∧ ∃ restored,
      restore_reminders two_digit_int r.1.1 [1] MoreExamples.noon ∅
      = Some restored
      ∧ restored !! 10 = Some (mkJob (mkMoment 20 23 15 0 0) 1 10).
Proof.
  pose proof (task_add_reminder_survives_restart two_digit_int
                MoreExamples.two_reminders (Some ∅) 1 "gym" "focus" " 23.15 "
                MoreExamples.noon 10 [1] two_digit_int_reads
                two_reminders_well_formed) as H.
  destruct H as (Htask & _ & Hjobs & restored & Hrun & Hjob); [left|].
  cbv zeta. split; [exact Htask|]. split; [exact Hjobs|].
  exists restored. split; [exact Hrun|exact Hjob].
Defined.

(** ** Reward costs *)

Lemma reward_claim_charges db u rid today now db2 outs user :
  rewards_positive db →
  get_user db u = Some user →
  reward_claim db u rid today now = Some (db2, outs) →
  rewards_positive db2
  ∧ (db2 = db
     ∨ ∃ reward user2,
         get_reward db rid = Some reward
         ∧ get_user db2 u = Some user2
         ∧ points user2 = points user - cost reward
         ∧ points user2 < points user).
Proof.
  intros Hpos Hu. unfold reward_claim.
  destruct (get_reward db rid) as [reward|] eqn:Hr;
    [|intros [= <- _]; split; [done|by left]].
  cbv zeta. rewrite Hu.
  destruct (_ || _); [intros [= <- _]; split; [done|by left]|].
  destruct (points user <? cost reward);
    [intros [= <- _]; split; [done|by left]|].
  intros [= <- _]. split.
  - intros i r. unfold claim_reward, update_user. cbn [rewards].
    rewrite lookup_alter.
    destruct (decide (i = rid)) as [->|Hne].
    + rewrite decide_True by done.
      destruct (rewards db !! rid) as [r0|] eqn:H0; [|done].
      intros [= <-]. cbn. by apply (Hpos rid).
    + rewrite decide_False by done. apply Hpos.
  - right. exists reward, (set_columns [kw_points (points user - cost reward)] user).
    split; [done|]. split.
    + unfold get_user in *. cbn [claim_reward update_user users].
      rewrite lookup_alter, decide_True by done. by rewrite Hu.
    + cbn. pose proof (Hpos rid reward Hr). lia.
Qed.

(** [reward_add_cost] stores a reward only for a text that reads as a
    positive integer, under the cost read; anything else leaves the database
    as it is.  So when every stored reward has a positive cost this is still
    so afterwards, and then a claim never raises the points: it either
    changes nothing or lowers them by the cost of the reward. *)
Theorem reward_add_cost_positive py_int db from_user name text rowid :
  rewards_positive db →
  let db' := (reward_add_cost py_int db from_user name text rowid).1 in
  rewards_positive db'
  ∧ (db' = db
     ∨ ∃ c, py_int text = Some c ∧ 0 < c
            ∧ get_reward db' rowid = Some (mkReward from_user name c 0 ""))
  ∧ ∀ u rid today now db2 outs user,
      get_user db' u = Some user →
      reward_claim db' u rid today now = Some (db2, outs) →
      rewards_positive db2
      ∧ (db2 = db'
         ∨ ∃ reward user2,
             get_reward db' rid = Some reward
             ∧ get_user db2 u = Some user2
             ∧ points user2 = points user - cost reward
             ∧ points user2 < points user).
Proof.
  intros Hpos. cbv zeta.
  assert (rewards_positive
            (reward_add_cost py_int db from_user name text rowid).1
          ∧ ((reward_add_cost py_int db from_user name text rowid).1 = db
             ∨ ∃ c, py_int text = Some c ∧ 0 < c
                    ∧ get_reward
                        (reward_add_cost py_int db from_user name text rowid).1
                        rowid
                      = Some (mkReward from_user name c 0 ""))) as [Hpos' Hor].
  { unfold reward_add_cost.
    destruct (py_int text) as [c|]; [|split; [done|by left]].
    destruct (Z.leb_spec c 0); [split; [done|by left]|].
    cbn [add_reward fst]. split.
    - intros i r. cbn [rewards].
      intros [[<- <-]|[_ Hr]]%lookup_insert_Some; [done|by eapply Hpos].
    - right. exists c. split; [done|]. split; [done|].
      apply lookup_insert_eq. }
  split; [done|]. split; [done|].
  intros u rid today now db2 outs user Hu Hclaim.
  by apply (reward_claim_charges _ u rid today now db2 outs user).
Qed.

Lemma reward_add_cost_positive_witness :
  let db' := (reward_add_cost two_digit_int Examples.sunday_all_done 1
                "cinema" "40" 5).1 in
  rewards_positive db'
  ∧ get_reward db' 5 = Some (mkReward 1 "cinema" 40 0 "").
Proof.
  assert (rewards_positive Examples.sunday_all_done) as Hpos.
  { intros i r Hr. cbn [Examples.sunday_all_done rewards] in Hr.
    apply lookup_singleton_Some in Hr as [_ <-]. reflexivity. }
  destruct (reward_add_cost_positive two_digit_int Examples.sunday_all_done 1
              "cinema" "40" 5 Hpos) as (Hpos' & Hor & _).
  cbv zeta. split; [exact Hpos'|]. reflexivity.
Defined.

(** ** The whitelist *)

Lemma elem_of_get_all_user_ids (wl : Whitelist) v :
  v ∈ get_all_user_ids wl ↔ is_Some (wl !! v).
Proof.
  unfold get_all_user_ids. rewrite merge_sort_Permutation.
  rewrite list_elem_of_fmap. split.
  - intros ([k a] & -> & Hin%elem_of_map_to_list). by exists a.
  - intros [a Ha]. exists (v, a). split; [done|].
    by apply elem_of_map_to_list.
Qed.

Lemma NoDup_get_all_user_ids (wl : Whitelist) : NoDup (get_all_user_ids wl).
Proof.
  unfold get_all_user_ids. rewrite merge_sort_Permutation.
  apply NoDup_fst_map_to_list.
Qed.

Lemma is_whitelisted_add (wl : Whitelist) uid added_at v :
  is_whitelisted (add_to_whitelist wl uid added_at) v
  = bool_decide (v = uid) || is_whitelisted wl v.
Proof.
  unfold is_whitelisted, add_to_whitelist.
  destruct (decide (v = uid)) as [->|Hv].
  - rewrite (bool_decide_eq_true_2 (uid = uid)) by done. cbn.
    apply bool_decide_eq_true.
    destruct (wl !! uid) as [a|] eqn:Hu; cbv beta iota; [by rewrite Hu|].
    rewrite lookup_insert_eq. by eexists.
  - rewrite (bool_decide_eq_false_2 (v = uid)) by done. cbn.
    destruct (wl !! uid); cbv beta iota; [done|]. by rewrite lookup_insert_ne.
Qed.

Lemma is_whitelisted_remove (wl : Whitelist) uid v :
  is_whitelisted (remove_from_whitelist wl uid) v
  = negb (bool_decide (v = uid)) && is_whitelisted wl v.
Proof.
  unfold is_whitelisted, remove_from_whitelist.
  destruct (decide (v = uid)) as [->|Hv].
  - rewrite (bool_decide_eq_true_2 (uid = uid)) by done. cbn.
    apply bool_decide_eq_false. rewrite lookup_delete_eq. by intros [? ?].
  - rewrite (bool_decide_eq_false_2 (v = uid)) by done. cbn.
    by rewrite lookup_delete_ne.
Qed.

(** Only the administrator changes the whitelist: [users_add_id] and
    [users_del] pressed by anyone else leave the database and the whitelist
    as they are.  The administrator passes the middleware whatever the
    whitelist holds.  An id the administrator adds passes it from then on and
    has a user row, the row it had if there was one; an id the administrator
    removes is let through no longer, unless it is the administrator's own,
    while its rows stay in the database.  Nobody else's access changes. *)
Theorem whitelist_access py_int admin_id db wl from_user text uid added_at
    created_at :
  WhitelistMiddleware wl admin_id (Some admin_id) = true
  ∧ (from_user ≠ admin_id →
     (users_add_id py_int admin_id db wl from_user text added_at
        created_at).1 = (db, wl)
     ∧ (users_del admin_id db wl from_user uid).1 = (db, wl))
  ∧ (py_int (String.string_of_list_ascii
               (strip (String.list_ascii_of_string text))) = Some uid →
     let r := (users_add_id py_int admin_id db wl admin_id text added_at
                 created_at).1 in
     WhitelistMiddleware r.2 admin_id (Some uid) = true
     ∧ get_user r.1 uid
       = Some (default (default_user "" created_at) (get_user db uid))
     ∧ ∀ v, v ≠ uid →
            WhitelistMiddleware r.2 admin_id (Some v)
            = WhitelistMiddleware wl admin_id (Some v)
            ∧ get_user r.1 v = get_user db v)
  ∧ (let r := (users_del admin_id db wl admin_id uid).1 in
     r.1 = db
     ∧ WhitelistMiddleware r.2 admin_id (Some uid) = bool_decide (uid = admin_id)
     ∧ (uid ∉ get_all_user_ids r.2)
     ∧ ∀ v, v ≠ uid →
            WhitelistMiddleware r.2 admin_id (Some v)
            = WhitelistMiddleware wl admin_id (Some v)).
Proof.
  split; [|split; [|split]].
  - cbn. by rewrite bool_decide_eq_true_2.
  - intros Hne. unfold users_add_id, users_del.
    by rewrite !bool_decide_eq_true_2.
  - intros Hint. cbv zeta. unfold users_add_id.
    rewrite bool_decide_eq_false_2 by (by intros ?). rewrite Hint.
    cbn [fst snd WhitelistMiddleware]. split; [|split].
    + rewrite is_whitelisted_add, (bool_decide_eq_true_2 (uid = uid)) by done.
      by destruct (bool_decide _).
    + unfold create_user, get_user.
      destruct (users db !! uid) as [u|] eqn:Hu; [done|].
      cbn [users]. by rewrite lookup_insert_eq.
    + intros v Hv. split.
      * rewrite is_whitelisted_add, (bool_decide_eq_false_2 (v = uid)) by done.
        done.
      * unfold create_user, get_user.
        destruct (users db !! uid); [done|].
        cbn [users]. by rewrite lookup_insert_ne.
  - cbv zeta. unfold users_del.
    rewrite bool_decide_eq_false_2 by (by intros ?).
    cbn [fst snd WhitelistMiddleware]. split; [done|]. split; [|split].
    + rewrite is_whitelisted_remove, (bool_decide_eq_true_2 (uid = uid))
        by done.
      by destruct (bool_decide _).
    + rewrite elem_of_get_all_user_ids. unfold remove_from_whitelist.
      rewrite lookup_delete_eq. by intros [? ?].
    + intros v Hv.
      by rewrite is_whitelisted_remove, (bool_decide_eq_false_2 (v = uid)).
Qed.

Lemma whitelist_access_witness :
  let r := (users_add_id two_digit_int 1 MoreExamples.two_players ∅ 1 " 42 "
              "t1" "t2").1 in
  WhitelistMiddleware r.2 1 (Some 42) = true
  ∧ get_user r.1 42 = Some (default_user "" "t2")
  ∧ WhitelistMiddleware ∅ 1 (Some 42) = false
  ∧ (users_add_id two_digit_int 1 MoreExamples.two_players ∅ 42 " 43 "
       "t1" "t2").1 = (MoreExamples.two_players, ∅).
Proof.
  destruct (whitelist_access two_digit_int 1 MoreExamples.two_players ∅ 42
              " 42 " 42 "t1" "t2") as (_ & Hother & Hadd & _).
  destruct Hadd as (Hpass & Hrow & _); [reflexivity|].
  cbv zeta. split; [exact Hpass|]. split; [exact Hrow|].
  split; [reflexivity|].
  destruct (whitelist_access two_digit_int 1 MoreExamples.two_players ∅ 42
              " 43 " 42 "t1" "t2") as (_ & Hother' & _).
  apply Hother'. lia.
Defined.

(** The evening job settles exactly the users of the whitelist: a listed
    user ends as after a lone settlement of the starting database, a user
    that is not listed, the administrator included, keeps the row and
    today's tasks as they were. *)
Theorem evening_job_follows_whitelist db wl today v :
  let db' := (evening_summary_job db (get_all_user_ids wl) today).1 in
  get_user db' v
  = (if is_whitelisted wl v
     then get_user (_process_evening db v today).1 v
     else get_user db v)
  ∧ (is_whitelisted wl v = false →
     get_tasks_by_date db' v today = get_tasks_by_date db v today).
Proof.
  cbv zeta. rewrite evening_summary_job_db. unfold is_whitelisted.
  case_bool_decide as Hv.
  - split; [|done]. apply settle_all_seen.
    + apply NoDup_get_all_user_ids.
    + by apply elem_of_get_all_user_ids.
  - assert (v ∉ get_all_user_ids wl) as Hnot
      by by rewrite elem_of_get_all_user_ids.
    destruct (settle_all_other today (get_all_user_ids wl) v Hnot db)
      as [Hu Ht].
    split; [done|]. by intros _.
Qed.

(** ** What every reachable database satisfies *)

Lemma kept_alter {A B} (g : A → B) (f : A → A) (m : gmap Z A) id :
  (∀ x, g (f x) = g x) →
  ∀ i y, alter f id m !! i = Some y → ∃ x, m !! i = Some x ∧ g y = g x.
Proof.
  intros Hf i y. rewrite lookup_alter. case_decide; subst.
  - destruct (m !! i) as [x|]; [|done]. intros [= <-]. by exists x.
  - intros Hy. by exists y.
Qed.

Lemma kept_fmap {A B} (g : A → B) (f : A → A) (m : gmap Z A) :
  (∀ x, g (f x) = g x) →
  ∀ i y, (f <$> m) !! i = Some y → ∃ x, m !! i = Some x ∧ g y = g x.
Proof.
  intros Hf i y. rewrite lookup_fmap.
  destruct (m !! i) as [x|]; [|done]. intros [= <-]. by exists x.
Qed.

Lemma kept_delete {A B} (g : A → B) (m : gmap Z A) id :
  ∀ i y, delete id m !! i = Some y → ∃ x, m !! i = Some x ∧ g y = g x.
Proof. intros i y [_ Hy]%lookup_delete_Some. by exists y. Qed.

Lemma kept_same {A B} (g : A → B) (m : gmap Z A) :
  ∀ i y, m !! i = Some y → ∃ x, m !! i = Some x ∧ g y = g x.
Proof. intros i y Hy. by exists y. Qed.

Lemma rows_kept_ok db db' :
  rows_kept db db' →
  reminders_well_formed db ∧ rewards_positive db →
  reminders_well_formed db' ∧ rewards_positive db'.
Proof.
  intros [Ht Hr] [Hwf Hpos]. split.
  - intros i t' [t [Hi Heq]]%Ht. rewrite Heq. by apply (Hwf i).
  - intros i r' [r [Hi Heq]]%Hr. rewrite Heq. by apply (Hpos i).
Qed.

Lemma rows_kept_create_user db uid name now :
  rows_kept db (create_user db uid name now).
Proof.
  unfold create_user.
  destruct (users db !! uid); split; apply kept_same.
Qed.

Lemma rows_kept_completion db from_user task_id now kwargs :
  rows_kept db (update_user (complete_task db task_id now) from_user kwargs).
Proof.
  split.
  - rewrite tasks_update_user. cbn [complete_task tasks]. by apply kept_alter.
  - rewrite rewards_update_user. apply kept_same.
Qed.

Lemma rows_kept_update_user db uid kwargs :
  rows_kept db (update_user db uid kwargs).
Proof.
  split.
  - rewrite tasks_update_user. apply kept_same.
  - rewrite rewards_update_user. apply kept_same.
Qed.

Lemma rows_kept_refl db : rows_kept db db.
Proof. split; apply kept_same. Qed.

Lemma rewards_positive_add_cost py_int db from_user name text rowid :
  rewards_positive db →
  rewards_positive (reward_add_cost py_int db from_user name text rowid).1.
Proof.
  intros Hpos. unfold reward_add_cost.
  destruct (py_int text) as [c|]; [|done].
  destruct (Z.leb_spec c 0); [done|].
  cbn [add_reward fst]. intros i r. cbn [rewards].
  intros [[<- <-]|[_ Hr]]%lookup_insert_Some; [done|by eapply Hpos].
Qed.

Lemma bot_step_keeps_rows py_int db db' :
  reminders_well_formed db ∧ rewards_positive db →
  bot_step py_int db db' →
  reminders_well_formed db' ∧ rewards_positive db'.
Proof.
  intros Hok Hstep. destruct Hstep.
  - revert Hok. apply rows_kept_ok, rows_kept_create_user.
  - revert Hok. apply rows_kept_ok. unfold _ensure_user.
    destruct (get_user db user_id);
      [apply rows_kept_refl|apply rows_kept_create_user].
  - destruct Hok as [Hwf Hpos]. split; [|done].
    apply reminders_well_formed_add; [done|by left].
  - destruct Hok as [Hwf Hpos]. unfold task_add_reminder.
    destruct (parse_time text) as [[hour minute]|] eqn:Hparse; [|done].
    destruct (parse_time_checked text hour minute Hparse) as [Hh Hm].
    split; [|done].
    apply (reminders_well_formed_add db _ _ _ (Some (rem_str hour minute))
             _ _ Hwf).
    right. by exists hour, minute.
  - revert Hok. apply rows_kept_ok. unfold task_done in H.
    destruct (get_task db task_id) as [task|];
      [|injection H as <- _; apply rows_kept_refl].
    destruct (truthy (completed task));
      [injection H as <- _; apply rows_kept_refl|].
    destruct (get_user db from_user) as [user|]; [|done].
    destruct (_calc_rewards _ _) as [[xp_g pts_g] hp_g].
    destruct (level_up _ _) as [new_xp new_lvl].
    pose proof (rows_kept_completion db from_user task_id now
                  [kw_xp new_xp; kw_level new_lvl;
                   kw_hp (Z.min 100 (hp user + hp_g));
                   kw_points (points user + pts_g)]) as Hkept.
    by injection H as <- _.
  - revert Hok. apply rows_kept_ok. unfold task_delete.
    destruct (get_task db task_id); [|apply rows_kept_refl].
    split; [apply kept_delete|apply kept_same].
  - revert Hok. apply rows_kept_ok. unfold reminder_done in H.
    destruct (get_task db task_id) as [task|];
      [|injection H as <- _; apply rows_kept_refl].
    destruct (truthy (completed task));
      [injection H as <- _; apply rows_kept_refl|].
    destruct (get_user db from_user) as [user|]; [|done].
    destruct (_calc_rewards _ _) as [[xp_g pts_g] hp_g].
    destruct (level_up _ _) as [new_xp new_lvl].
    pose proof (rows_kept_completion db from_user task_id now
                  [kw_xp new_xp; kw_level new_lvl;
                   kw_hp (Z.min 100 (hp user + hp_g));
                   kw_points (points user + pts_g)]) as Hkept.
    by injection H as <- _.
  - revert Hok. apply rows_kept_ok. unfold shop_buy in H.
    destruct (get_user db from_user) as [user|]; [|done]. cbv zeta in H.
    pose proof (rows_kept_update_user db from_user
                  [kw_points (points user - default 0 (prices !! item));
                   kw_shield_active 1]) as Hshield.
    pose proof (rows_kept_update_user db from_user
                  [kw_points (points user - default 0 (prices !! item));
                   kw_pepper_mode 1]) as Hpepper.
    destruct (_ <? _); [injection H as <- _; apply rows_kept_refl|].
    repeat case_decide; injection H as <- _;
      first [apply rows_kept_refl|done].
  - destruct Hok as [Hwf Hpos]. split; [|by apply rewards_positive_add_cost].
    unfold reward_add_cost. destruct (py_int text) as [c|]; [|done].
    by destruct (c <=? 0).
  - revert Hok. apply rows_kept_ok. unfold reward_claim in H.
    destruct (get_reward db rid) as [reward|];
      [|injection H as <- _; apply rows_kept_refl].
    cbv zeta in H.
    destruct (negb _ || _); [injection H as <- _; apply rows_kept_refl|].
    destruct (get_user db from_user) as [user|]; [|done].
    destruct (_ <? _); [injection H as <- _; apply rows_kept_refl|].
    assert (rows_kept db
              (claim_reward
                 (update_user db from_user
                    [kw_points (points user - cost reward)]) rid now))
      as Hkept.
    { split; cbn [claim_reward tasks rewards].
      - rewrite tasks_update_user. apply kept_same.
      - rewrite rewards_update_user. by apply kept_alter. }
    by injection H as <- _.
  - revert Hok. apply rows_kept_ok.
    split; [apply kept_same|apply kept_delete].
  - revert Hok. apply rows_kept_ok.
    destruct (tasks_process_evening db uid today) as [Ht|(_ & _ & Ht)];
      split; rewrite ?Ht, ?rewards_process_evening;
      try apply kept_same.
    apply kept_fmap. intros t. unfold penalize_row. by case_decide.
Qed.

(** From the empty database, whatever events the bot handles, every stored
    reminder time is empty or an in-range [HH:MM], every stored reward has a
    positive cost, and [restore_reminders] does not raise, whatever the
    user ids, the clock and the jobs. *)
Theorem bot_databases_restore py_int db user_ids now jobs :
  int_reads_two_digits py_int →
  rtc (bot_step py_int) empty_db db →
  reminders_well_formed db ∧ rewards_positive db
  ∧ is_Some (restore_reminders py_int db user_ids now jobs).
Proof.
  intros Hint Hrun.
  assert (reminders_well_formed db ∧ rewards_positive db) as [Hwf Hpos].
  { assert (reminders_well_formed empty_db ∧ rewards_positive empty_db)
      as Hinit by (split; by intros i r ?).
    revert Hinit. generalize empty_db Hrun. clear Hrun.
    intros db0 Hrun. induction Hrun as [|db0 db1 db2 Hstep _ IH]; [done|].
    intros Hok. apply IH. by eapply bot_step_keeps_rows. }
  split; [done|]. split; [done|].
  unfold restore_reminders. cbv zeta. rewrite restore_reminders_flat.
  assert (∀ p, p ∈ passes db now user_ids →
               due_job py_int now p.1 p.2 ≠ None) as Htotal.
  { intros [u [k s]] (_ & Hs & _)%elem_of_passes.
    by apply (due_job_never_raises py_int db). }
  destruct (restore_passes py_int now (passes db now user_ids) jobs Htotal
              (passes_keys db now user_ids)) as (jobs' & Hrun' & _).
  by exists jobs'.
Qed.

Lemma bot_databases_restore_witness :
  is_Some
    (restore_reminders two_digit_int
       (_process_evening
          (task_add_reminder (cmd_start empty_db 1 (Some "ann"%string) "t0").1
             None 1 "gym" "focus" "23 15" 20 MoreExamples.noon 1).1.1
          1 20).1
       [1] MoreExamples.noon ∅).
Proof.
  apply (bot_databases_restore two_digit_int _ [1] MoreExamples.noon ∅).
  - apply two_digit_int_reads.
  - eapply rtc_l; [apply bot_cmd_start|].
    eapply rtc_l; [apply bot_task_add_reminder|].
    eapply rtc_l; [apply bot_process_evening|]. apply rtc_refl.
Defined.
